(** * CLI for Microsoft 365: command framework and AAD / Teams commands

    A shallow embedding of the commands
      - [aad sp get]      (AadSpGetCommand),
      - [aad app get]     (AadAppGetCommand),
      - [aad app add]     (AadAppAddCommand),
      - [teams team remove] (TeamsTeamRemoveCommand),
      - [teams channel get] (TeamsChannelGetCommand),
    together with the option-set enforcer and the validation pipeline of the
    command framework they run on.

    Promises are modelled by their settled value, thrown exceptions by an
    explicit completion type, the calls to the outside world (HTTP requests,
    the file system, the interactive prompt) by oracles and by the trace of
    events a run leaves behind. *)

From Stdlib Require Import String Ascii List Bool Arith Lia.
From stdpp Require Import base option list gmap strings pretty.

Open Scope string_scope.
Open Scope list_scope.

(** ** JavaScript prelude *)

Module Js.

(** The values an option of a command can hold: [string] and [boolean]
    ([undefined] is the absence of the key). *)
Inductive Value :=
| VStr (s : string)
| VBool (b : bool).

(** [args.options]: an object used as a map from option name to value. *)
Abbreviation Options := (gmap string Value).

(** [if (x)]: undefined, the empty string and false are falsy. *)
Definition truthy (o : option Value) : bool :=
  match o with
  | Some (VStr s) => negb (String.eqb s "")
  | Some (VBool b) => b
  | None => false
  end.

(** [`${x}`]. *)
Definition tmpl (o : option Value) : string :=
  match o with
  | Some (VStr s) => s
  | Some (VBool true) => "true"
  | Some (VBool false) => "false"
  | None => "undefined"
  end.

(** [xs.join(sep)] on an array of strings. *)
Definition join (sep : string) (xs : list string) : string :=
  String.concat sep xs.

(** [`${xs}`] on an array of strings: [Array.prototype.toString], which is
    [join(',')]. *)
Definition tmplArray (xs : list string) : string := join "," xs.

(** [xs.indexOf(x) < 0] on an array of strings, for an option value. *)
Definition notIndexOf (xs : list string) (o : option Value) : bool :=
  match o with
  | Some (VStr s) => negb (bool_decide (s ∈ xs))
  | _ => true
  end.

(** [msg] contains [s] as a contiguous substring. *)
Definition Mentions (msg s : string) : Prop :=
  exists pre post, msg = pre +:+ s +:+ post.

(** [s2.startsWith(s1)]. *)
Fixpoint startsWith (s1 s2 : string) : bool :=
  match s1, s2 with
  | EmptyString, _ => true
  | String a s1', String b s2' => Ascii.eqb a b && startsWith s1' s2'
  | String _ _, EmptyString => false
  end.

(** [msg.includes(s)]. *)
Fixpoint includes (msg s : string) : bool :=
  startsWith s msg
  || match msg with
     | EmptyString => false
     | String _ msg' => includes msg' s
     end.

(** What [JSON.parse] returns for the application manifest (typed [any]
    in the source). *)
#[warnings="-register-all"]
Inductive Json :=
| JNull
| JBool (b : bool)
| JNumber (n : Z)
| JString (s : string)
| JArray (items : list Json)
| JObject (props : list (string * Json)).

(** [if (j)] on a parsed value that may also be [undefined]. *)
Definition truthyJson (o : option Json) : bool :=
  match o with
  | None | Some JNull => false
  | Some (JBool b) => b
  | Some (JNumber n) => negb (Z.eqb n 0)
  | Some (JString s) => negb (String.eqb s "")
  | Some (JArray _) | Some (JObject _) => true
  end.

(** Own property of a parsed object; in [JSON.parse] the last duplicate of
    a key wins. *)
Fixpoint lookupProp (key : string) (props : list (string * Json)) : option Json :=
  match props with
  | [] => None
  | (k, v) :: rest =>
      match lookupProp key rest with
      | Some v' => Some v'
      | None => if String.eqb k key then Some v else None
      end
  end.

(** [o[key] = v] on a parsed object: the property keeps its place when
    the object has it, and is added last otherwise. *)
Definition setProp (key : string) (v : Json) (props : list (string * Json))
    : list (string * Json) :=
  if existsb (fun kv => String.eqb (fst kv) key) props then
    map (fun kv => if String.eqb (fst kv) key then (fst kv, v) else kv) props
  else props ++ [(key, v)].

End Js.

(** ** Effects: promises, exceptions, the file system and the event trace *)

Module Io.

(** What a promise is rejected with, or what is thrown. *)
Inductive Reason :=
| RString (s : string)                 (* [Promise.reject('...')], [throw '...'] *)
| RError (name message : string)       (* an [Error] object: fs, JSON.parse, TypeError *)
| RUpstream (payload : string)         (* an error response of the service *)
| CommandError (message : string).     (* what the command finally fails with *)

(** [`${e}`]. *)
Definition tmplReason (e : Reason) : string :=
  match e with
  | RString s => s
  | RError name message => name +:+ ": " +:+ message
  | RUpstream _ => "[object Object]"
  | CommandError message => "Error: " +:+ message
  end.

Inductive Result (A : Type) :=
| Ok (a : A)
| Err (r : Reason).
Arguments Ok {A} a.
Arguments Err {A} r.

(** The local files; [readError] and [writeError] make every read, resp.
    write, throw (a permission problem, a full disk). *)
Record Fs := {
  files : gmap string string;
  readError : option Reason;
  writeError : option Reason
}.

Inductive Method := GET | POST | PATCH | DELETE.

(** The options of [Cli.prompt]. *)
Record PromptOptions := {
  prompt_type : string;
  prompt_name : string;
  prompt_default : bool;
  prompt_message : string
}.

(** The fields of the command instance and the functions of the platform
    the commands use; their declarations are outside the sources at
    hand. *)
Record Env := {
  resource : string;                        (* [this.resource] *)
  verbose : bool;                           (* [this.verbose] *)
  debug : bool;                             (* [this.debug] *)
  encodeURIComponent : string -> string;
  extractMessage : Reason -> string         (* the message [handleRejectedODataJsonPromise] extracts *)
}.

Section WithPayload.
(** What [logger.log] is given. *)
Context {P : Type}.

Inductive Event :=
| Log (payload : P)                       (* [logger.log]: result channel *)
| LogToStderr (msg : string)              (* [logger.logToStderr]: diagnostic channel *)
| Warn (msg : string)                     (* [this.warn] *)
| Prompt (opts : PromptOptions)           (* [Cli.prompt] *)
| Lookup (name : string)                  (* [aadGroup.getGroupByDisplayName] *)
| Http (method : Method) (url : string) (data : list (string * option string))
| WriteFileSync (path contents : string). (* [fs.writeFileSync] *)

Record World := {
  fs : Fs;
  trace : list Event
}.

Definition M (A : Type) : Type := World -> Result A * World.

Definition ret {A} (a : A) : M A := fun w => (Ok a, w).

Definition bind {A B} (m : M A) (k : A -> M B) : M B :=
  fun w =>
    match m w with
    | (Ok a, w') => k a w'
    | (Err r, w') => (Err r, w')
    end.

(** [throw r], and awaiting [Promise.reject(r)]. *)
Definition throw {A} (r : Reason) : M A := fun w => (Err r, w).

(** [try { m } catch (e) { handler e }]. *)
Definition try_catch {A} (m : M A) (handler : Reason -> M A) : M A :=
  fun w =>
    match m w with
    | (Ok a, w') => (Ok a, w')
    | (Err r, w') => handler r w'
    end.

(** Awaiting a promise that is already settled. *)
Definition await {A} (r : Result A) : M A := fun w => (r, w).

Definition emit (e : Event) : M unit :=
  fun w => (Ok tt, {| fs := fs w; trace := trace w ++ [e] |}).

Definition when (b : bool) (m : M unit) : M unit :=
  if b then m else ret tt.

(** [fs.existsSync]: never throws. *)
Definition existsSync (path : string) : M bool :=
  fun w => (Ok (bool_decide (is_Some (files (fs w) !! path))), w).

(** [fs.readFileSync(path, 'utf8')]. *)
Definition readFileSync (path : string) : M string :=
  fun w =>
    match readError (fs w) with
    | Some e => (Err e, w)
    | None =>
        match files (fs w) !! path with
        | Some contents => (Ok contents, w)
        | None => (Err (RError "Error" "ENOENT: no such file or directory"), w)
        end
    end.

(** [fs.writeFileSync(path, contents)]. *)
Definition writeFileSync (path contents : string) : M unit :=
  fun w =>
    let tr := trace w ++ [WriteFileSync path contents] in
    match writeError (fs w) with
    | Some e => (Err e, {| fs := fs w; trace := tr |})
    | None =>
        (Ok tt,
         {| fs := {| files := <[path := contents]> (files (fs w));
                     readError := readError (fs w);
                     writeError := writeError (fs w) |};
            trace := tr |})
    end.

(** A request to the service: the call is recorded, the service's answer
    comes from an oracle. *)
Definition request {A} (method : Method) (url : string)
    (data : list (string * option string)) (answer : Result A) : M A :=
  bind (emit (Http method url data)) (fun _ => await answer).

(** [this.handleRejectedODataJsonPromise(err)]: always throws the
    [CommandError] with the message extracted from [err]. *)
Definition handleRejectedODataJsonPromise {A} (env : Env) (err : Reason) : M A :=
  throw (CommandError (extractMessage env err)).

(** What was printed on the result channel. *)
Definition stdout (tr : list Event) : list P :=
  omap (fun e => match e with Log p => Some p | _ => None end) tr.

(** What was printed on the diagnostic channel. *)
Definition stderr (tr : list Event) : list string :=
  omap (fun e => match e with
                 | LogToStderr m => Some m
                 | Warn m => Some m
                 | _ => None
                 end) tr.

(** The requests of a given method that were sent. *)
Definition requests (method : Method) (tr : list Event) : list string :=
  omap (fun e => match e with
                 | Http m url _ =>
                     match m, method with
                     | GET, GET | POST, POST | PATCH, PATCH | DELETE, DELETE => Some url
                     | _, _ => None
                     end
                 | _ => None
                 end) tr.

(** The POST requests that were sent, with their bodies. *)
Definition posted (tr : list Event) : list (string * list (string * option string)) :=
  omap (fun e => match e with
                 | Http POST url data => Some (url, data)
                 | _ => None
                 end) tr.

(** The confirmation requests that were issued. *)
Definition prompts (tr : list Event) : list PromptOptions :=
  omap (fun e => match e with Prompt o => Some o | _ => None end) tr.

(** The attempts to write a file. *)
Definition writes (tr : list Event) : list (string * string) :=
  omap (fun e => match e with WriteFileSync p c => Some (p, c) | _ => None end) tr.

End WithPayload.

Arguments Event P : clear implicits.
Arguments World P : clear implicits.
Arguments M P A : clear implicits.

(** The process exit code of an invocation. *)
Definition exitCode {A} (r : Result A) : nat :=
  match r with
  | Ok _ => 0
  | Err _ => 1
  end.

End Io.

Notation "'let!' x ':=' m 'in' k" := (Io.bind m (fun x => k))
  (at level 10, x name, m at level 100, k at level 200).
Notation "m ';;' k" := (Io.bind m (fun _ => k))
  (at level 100, k at level 200, right associativity).

(** ** The command framework: option sets and the validation pipeline *)

Module Framework.
Import Js.

(** What a validator yields: [true], or the failure string. *)
Inductive ValidationResult :=
| Pass
| Fail (msg : string).

(** An entry of [this.optionSets]. *)
Definition OptionSet := list string.

(** Modelled from the spec: the option-set enforcement of the framework's
    base command class, which is outside the sources covered here. A member
    is present when the resolved options hold a value for it. *)
Definition present (opts : Options) (name : string) : Prop :=
  is_Some (opts !! name).

(** Modelled from the spec: the number of listed members that are present
    (base command class, outside the sources covered here). *)
Definition countPresent (opts : Options) (set : OptionSet) : nat :=
  length (filter (present opts) set).

(** Modelled from the spec: the check of one option set (base command
    class, outside the sources covered here): no member present and several members
    present fail with their two messages, exactly one passes. The members
    are listed separated by a comma and a space. *)
Definition checkOptionSet (opts : Options) (set : OptionSet) : ValidationResult :=
  match countPresent opts set with
  | 0 => Fail ("Specify one of: " +:+ join ", " set)
  | 1 => Pass
  | _ => Fail ("Specify one of " +:+ join ", " set +:+ " but not multiple")
  end.

(** Modelled from the spec: every option set of the descriptor is checked
    on its own, and all must pass (base command class, outside the
    sources). *)
Fixpoint enforceOptionSets (opts : Options) (sets : list OptionSet) : ValidationResult :=
  match sets with
  | [] => Pass
  | set :: rest =>
      match checkOptionSet opts set with
      | Pass => enforceOptionSets opts rest
      | Fail msg => Fail msg
      end
  end.

(** The three cases of an option set against the resolved options. *)
Definition NonePresent (opts : Options) (set : OptionSet) : Prop :=
  forall m, m ∈ set -> ~ present opts m.

Definition ExactlyOnePresent (opts : Options) (set : OptionSet) : Prop :=
  exists m, m ∈ set /\ present opts m
            /\ forall m', m' ∈ set -> present opts m' -> m' = m.

Definition SeveralPresent (opts : Options) (set : OptionSet) : Prop :=
  exists m1 m2, m1 <> m2 /\ m1 ∈ set /\ m2 ∈ set
                /\ present opts m1 /\ present opts m2.

Section Pipeline.
(** The transient state validators may set for later stages (a parsed
    manifest), and the result of an action. *)
Context {T R : Type}.

(** An entry of [this.validators]. *)
Definition Validator := Options -> T -> ValidationResult * T.

(** The stages an invocation went through. *)
Inductive Stage :=
| RanValidator (k : nat)
| RanAction.

(** Modelled from the spec: the validation pipeline of the framework's
    base command class, which is outside the sources covered here. The
    validators run one after the other in registration order, starting
    at number [k]; the first failure ends the run. *)
Fixpoint runValidators (vs : list Validator) (k : nat) (opts : Options) (st : T)
    : ValidationResult * T * list Stage :=
  match vs with
  | [] => (Pass, st, [])
  | v :: rest =>
      match v opts st with
      | (Pass, st') =>
          let '(r, st'', ran) := runValidators rest (S k) opts st' in
          (r, st'', RanValidator k :: ran)
      | (Fail msg, st') => (Fail msg, st', [RanValidator k])
      end
  end.

(** How an invocation ends. *)
Inductive Outcome :=
| Success (result : R)
| Failure (msg : string).

(** Modelled from the spec: the executor of the framework (outside the
    sources): enforce the option sets, validate, then run the action; a
    failing check ends the invocation with the check's own text. *)
Definition execute (sets : list OptionSet) (vs : list Validator)
    (action : Options -> T -> Outcome) (opts : Options) (st : T)
    : Outcome * list Stage :=
  match enforceOptionSets opts sets with
  | Fail msg => (Failure msg, [])
  | Pass =>
      match runValidators vs 0 opts st with
      | (Fail msg, _, ran) => (Failure msg, ran)
      | (Pass, st', ran) => (action opts st', ran ++ [RanAction])
      end
  end.

End Pipeline.

End Framework.

(** ** The local registration file [.m365rc.json] *)

Module M365Rc.
Import Js Io.

(** Modelled from the spec: an [{identifier, name}] record of the
    registration file; the declaration (base/M365RcJson) is outside the
    sources covered here. *)
Record M365RcJsonApp := {
  appId : string;
  name : string
}.

(** Modelled from the spec: the contents of the registration file, a list
    of records under the optional property [apps] (base/M365RcJson, outside
    the sources covered here). *)
Record M365RcJson := {
  apps : option (list M365RcJsonApp)
}.

(** The object literal [{ appId: ..., name: ... }] the commands push. *)
Definition appJson (a : M365RcJsonApp) : Json :=
  JObject [("appId", JString (appId a)); ("name", JString (name a))].

(** A document of the declared type, as the value [JSON.parse] returns for
    its text. *)
Definition toJson (m : M365RcJson) : Json :=
  match apps m with
  | None => JObject []
  | Some records => JObject [("apps", JArray (map appJson records))]
  end.

(** [JSON.parse] and [JSON.stringify(_, null, 2)]. [JSON.parse] returns a
    value of whatever shape the text has: the type the commands declare for
    it ([M365RcJson]) is not checked when the code runs. *)
Record Codec := {
  parse : string -> Result Json;
  stringify : Json -> string
}.

Definition typeError (message : string) : Reason := RError "TypeError" message.

(** The error of [m365rc.apps = []] on a primitive, in strict code. *)
Definition cannotCreate (type text : string) : Reason :=
  typeError ("Cannot create property 'apps' on " +:+ type +:+ " '" +:+ text +:+ "'").

(** The array under [m365rc.apps] once [if (!m365rc.apps) { m365rc.apps =
    []; }] has run and [m365rc.apps.<method>] has been looked up. Reading a
    property of [null] throws; so does, in the strict code of a class,
    creating a property on a primitive; an array takes the new property;
    and a value under [apps] that is not an array has no such method. *)
Definition appsOf (method : string) (m365rc : Json) : Result (list Json) :=
  match m365rc with
  | JNull => Err (typeError "Cannot read properties of null (reading 'apps')")
  | JArray _ => Ok []
  | JObject props =>
      if negb (truthyJson (lookupProp "apps" props)) then Ok []
      else
        match lookupProp "apps" props with
        | Some (JArray items) => Ok items
        | _ => Err (typeError ("m365rc.apps." +:+ method +:+ " is not a function"))
        end
  | JBool b => Err (cannotCreate "boolean" (if b then "true" else "false"))
  | JNumber n => Err (cannotCreate "number" (pretty n))
  | JString s => Err (cannotCreate "string" s)
  end.

(** What [JSON.stringify] sees of [m365rc] when the array under
    [m365rc.apps] holds [items]: a property of an object is printed, a
    named property of an array is not. *)
Definition withApps (m365rc : Json) (items : list Json) : Json :=
  match m365rc with
  | JObject props => JObject (setProp "apps" (JArray items) props)
  | other => other
  end.

(** [a.appId === id] for an element [a] of the array; reading a property
    of [null] throws. *)
Definition hasAppId (id : string) (a : Json) : Result bool :=
  match a with
  | JNull => Err (typeError "Cannot read properties of null (reading 'appId')")
  | JObject props =>
      Ok match lookupProp "appId" props with
         | Some (JString s) => String.eqb s id
         | _ => false
         end
  | _ => Ok false
  end.

(** [xs.some(a => a.appId === id)]: the elements are visited in order, up
    to the first that matches. *)
Fixpoint someAppId (id : string) (xs : list Json) : Result bool :=
  match xs with
  | [] => Ok false
  | a :: rest =>
      match hasAppId id a with
      | Err e => Err e
      | Ok true => Ok true
      | Ok false => someAppId id rest
      end
  end.

(** The path both commands save to. *)
Definition filePath : string := ".m365rc.json".

(** The warnings of the save step on the diagnostic channel. *)
Definition readWarning (e : Reason) : string :=
  "Error reading " +:+ filePath +:+ ": " +:+ tmplReason e
  +:+ ". Please add app info to " +:+ filePath +:+ " manually.".

Definition writeWarning (e : Reason) : string :=
  "Error writing " +:+ filePath +:+ ": " +:+ tmplReason e
  +:+ ". Please add app info to " +:+ filePath +:+ " manually.".

(** The ways the save step can fail before it writes: the file is there
    but cannot be read, or its text cannot be parsed. *)
Definition ReadFails (f : Fs) (e : Reason) : Prop :=
  is_Some (files f !! filePath) /\ readError f = Some e.

Definition ParseFails (codec : Codec) (f : Fs) (e : Reason) : Prop :=
  exists contents, files f !! filePath = Some contents /\ readError f = None
                   /\ contents <> "" /\ parse codec contents = Err e.

(** The document the save step works on: [{}] when the file is missing or
    empty, what [JSON.parse] makes of its text otherwise. *)
Definition Loaded (codec : Codec) (f : Fs) (m365rc : Json) : Prop :=
  (files f !! filePath = None /\ m365rc = JObject [])
  \/ (exists contents,
        files f !! filePath = Some contents /\ readError f = None
        /\ ((contents = "" /\ m365rc = JObject [])
            \/ (contents <> "" /\ parse codec contents = Ok m365rc))).

(** The file already holds a record with this appId. *)
Definition Holds (codec : Codec) (f : Fs) (id : string) : Prop :=
  exists m365rc items,
    Loaded codec f m365rc /\ appsOf "some" m365rc = Ok items
    /\ someAppId id items = Ok true.

(** A text that, read back, gives a document with a record of this
    appId: what [JSON.parse] makes of what [JSON.stringify] printed. *)
Definition ReadsBack (codec : Codec) (text id : string) : Prop :=
  text <> ""
  /\ exists m365rc items,
       parse codec text = Ok m365rc /\ appsOf "some" m365rc = Ok items
       /\ someAppId id items = Ok true.

(** The file system after [text] has been written to the file. *)
Definition written (f : Fs) (text : string) : Fs :=
  {| files := <[filePath := text]> (files f);
     readError := readError f;
     writeError := writeError f |}.

(** The document with one more record pushed onto the array under
    [apps]. *)
Definition appended (m365rc : Json) (items : list Json) (id name : string) : Json :=
  withApps m365rc (items ++ [appJson {| appId := id; name := name |}]).

End M365Rc.

(** ** aad sp get *)

Module AadSpGet.
Import Js Io.

(** [#initOptionSets]. *)
Definition optionSets : list (list string) :=
  [["appId"; "displayName"; "objectId"]].

Section Command.
Context {P : Type}.
Variable env : Env.
(** The service's answer to the lookup: the ids of [response.value]. *)
Variable servicePrincipals : string -> Result (list string).
(** The service's answer to the request for one service principal. *)
Variable servicePrincipal : string -> Result P.

(** [spMatchQuery] in [getSpId]. *)
Definition spMatchQuery (opts : Options) : string :=
  if truthy (opts !! "displayName") then
    "displayName eq '" +:+ encodeURIComponent env (tmpl (opts !! "displayName")) +:+ "'"
  else if truthy (opts !! "appId") then
    "appId eq '" +:+ encodeURIComponent env (tmpl (opts !! "appId")) +:+ "'"
  else "".

(** [idRequestOptions.url] in [getSpId]. *)
Definition lookupUrl (opts : Options) : string :=
  resource env +:+ "/v1.0/servicePrincipals?$filter=" +:+ spMatchQuery opts.

Definition getSpId (opts : Options) : M P string :=
  if truthy (opts !! "objectId") then ret (tmpl (opts !! "objectId"))
  else
    let! value := request GET (lookupUrl opts) [] (servicePrincipals (lookupUrl opts)) in
    match value with
    | [] => throw (RString "The specified Azure AD app does not exist")
    | spItem :: _ =>
        if (1 <? length value)%nat then
          throw (RString ("Multiple Azure AD apps with name "
                          +:+ tmpl (opts !! "displayName")
                          +:+ " found: " +:+ tmplArray value))
        else ret spItem
    end.

Definition commandAction (opts : Options) : M P unit :=
  when (verbose env) (emit (LogToStderr "Retrieving service principal information...")) ;;
  try_catch
    (let! id := getSpId opts in
     let url := resource env +:+ "/v1.0/servicePrincipals/" +:+ id in
     let! res := request GET url [] (servicePrincipal url) in
     emit (Log res))
    (handleRejectedODataJsonPromise env).

End Command.

End AadSpGet.

(** ** aad app get *)

Module AadAppGet.
Import Js Io M365Rc.

(** [#initOptionSets]. *)
Definition optionSets : list (list string) :=
  [["appId"; "objectId"; "name"]].

(** The app registration as the service returns it ([Application]); the
    command reads these properties only. *)
Record Application := {
  id : string;
  appId : string;
  displayName : string
}.

Definition filePath : string := ".m365rc.json".

Section Command.
Variable env : Env.
Variable codec : Codec.
(** The service's answer to the lookup: the ids of [res.value]. *)
Variable applications : string -> Result (list string).
(** The service's answer to the request for one app registration. *)
Variable application : string -> Result Application.

(** [filter] in [getAppObjectId]. *)
Definition filter (opts : Options) : string :=
  if truthy (opts !! "appId") then
    "appId eq '" +:+ encodeURIComponent env (tmpl (opts !! "appId")) +:+ "'"
  else
    "displayName eq '" +:+ encodeURIComponent env (tmpl (opts !! "name")) +:+ "'".

(** [requestOptions.url] in [getAppObjectId]. *)
Definition lookupUrl (opts : Options) : string :=
  resource env +:+ "/v1.0/myorganization/applications?$filter="
  +:+ filter opts +:+ "&$select=id".

(** The identifier the lookup is made with: [appId] when given, [name]
    otherwise. *)
Definition lookedUp (opts : Options) : string :=
  if truthy (opts !! "appId") then tmpl (opts !! "appId") else tmpl (opts !! "name").

Definition getAppObjectId (opts : Options) : M Application string :=
  if truthy (opts !! "objectId") then ret (tmpl (opts !! "objectId"))
  else
    let appId := opts !! "appId" in
    let name := opts !! "name" in
    let! value := request GET (lookupUrl opts) [] (applications (lookupUrl opts)) in
    match value with
    | [only] => ret only
    | [] =>
        let applicationIdentifier :=
          if truthy appId then "ID " +:+ tmpl appId else "name " +:+ tmpl name in
        throw (RString ("No Azure AD application registration with "
                        +:+ applicationIdentifier +:+ " found"))
    | _ =>
        throw (RString ("Multiple Azure AD application registration with name "
                        +:+ tmpl name
                        +:+ " found. Please disambiguate (app object IDs): "
                        +:+ join ", " value))
    end.

Definition getAppInfo (appObjectId : string) : M Application Application :=
  let url := resource env +:+ "/v1.0/myorganization/applications/" +:+ appObjectId in
  request GET url [] (application url).

(** The part of [saveAppInfo] that loads the file: [None] stands for the
    [return] in the [catch] block. *)
Definition loadRc : M Application (option Json) :=
  let! found := existsSync filePath in
  if found then
    when (debug env) (emit (LogToStderr ("Reading existing " +:+ filePath +:+ "..."))) ;;
    try_catch
      (let! fileContents := readFileSync filePath in
       if negb (String.eqb fileContents "") then
         let! m365rc := await (parse codec fileContents) in
         ret (Some m365rc)
       else ret (Some (JObject [])))
      (fun e =>
         emit (LogToStderr ("Error reading " +:+ filePath +:+ ": " +:+ tmplReason e
                            +:+ ". Please add app info to " +:+ filePath +:+ " manually.")) ;;
         ret None)
  else ret (Some (JObject [])).

(** [saveAppInfo]; what is thrown after the file has been loaded (by
    [m365rc.apps], by [.some] and by its callback) is thrown outside the
    two [try] blocks. *)
Definition saveAppInfo (opts : Options) (appInfo : Application)
    : M Application Application :=
  if negb (truthy (opts !! "save")) then ret appInfo
  else
    when (verbose env)
      (emit (LogToStderr ("Saving Azure AD app registration information to the "
                          +:+ filePath +:+ " file..."))) ;;
    let! loaded := loadRc in
    match loaded with
    | None => ret appInfo
    | Some m365rc =>
        let! items := await (appsOf "some" m365rc) in
        let! found := await (someAppId (appId appInfo) items) in
        if negb found then
          let m365rc' :=
            withApps m365rc (items ++ [appJson {| M365Rc.appId := appId appInfo;
                                                  M365Rc.name := displayName appInfo |}]) in
          try_catch
            (writeFileSync filePath (stringify codec m365rc'))
            (fun e =>
               emit (LogToStderr ("Error writing " +:+ filePath +:+ ": " +:+ tmplReason e
                                  +:+ ". Please add app info to " +:+ filePath
                                  +:+ " manually."))) ;;
          ret appInfo
        else ret appInfo
    end.

Definition commandAction (opts : Options) : M Application unit :=
  try_catch
    (let! appObjectId := getAppObjectId opts in
     let! appInfo := getAppInfo appObjectId in
     let! res := saveAppInfo opts appInfo in
     emit (Log res))
    (handleRejectedODataJsonPromise env).

End Command.

End AadAppGet.

(** ** teams team remove *)

Module TeamsTeamRemove.
Import Js Io.

(** The group [aadGroup.getGroupByDisplayName] resolves with. *)
Record Group := {
  id : string;
  resourceProvisioningOptions : list string
}.

Section Command.
Context {P : Type}.
Variable env : Env.
(** [aadGroup.getGroupByDisplayName], a helper outside the sources
    covered here. *)
Variable getGroupByDisplayName : option Value -> Result Group.
(** The service's answer to the DELETE request. *)
Variable deleted : string -> Result unit.
(** The user's answer to the prompt ([result.continue]). *)
Variable answer : PromptOptions -> bool.

Definition getTeamId (opts : Options) : M P string :=
  if truthy (opts !! "id") then ret (tmpl (opts !! "id"))
  else
    emit (Lookup (tmpl (opts !! "name"))) ;;
    let! group := await (getGroupByDisplayName (opts !! "name")) in
    if bool_decide ("Team" ∉ resourceProvisioningOptions group) then
      throw (RString "The specified team does not exist in the Microsoft Teams")
    else ret (id group).

(** The url of the DELETE request for a team id. *)
Definition deleteUrl (teamId : string) : string :=
  resource env +:+ "/v1.0/groups/" +:+ encodeURIComponent env teamId.

(** The closure [removeTeam] of [commandAction]. *)
Definition removeTeam (opts : Options) : M P unit :=
  try_catch
    (let! teamId := getTeamId opts in
     let url := resource env +:+ "/v1.0/groups/" +:+ encodeURIComponent env teamId in
     request DELETE url [] (deleted url))
    (handleRejectedODataJsonPromise env).

(** [args.options.id = args.options.teamId], under [if (args.options.teamId)]. *)
Definition adoptTeamId (opts : Options) : Options :=
  match opts !! "teamId" with
  | Some v => <["id" := v]> opts
  | None => opts
  end.

Definition confirmation (opts : Options) : PromptOptions :=
  {| prompt_type := "confirm";
     prompt_name := "continue";
     prompt_default := false;
     prompt_message := "Are you sure you want to remove the team "
                       +:+ tmpl (opts !! "teamId") +:+ "?" |}.

Definition commandAction (args : Options) : M P unit :=
  let! opts :=
    (if truthy (args !! "teamId") then
       emit (Warn "Option 'teamId' is deprecated. Please use 'id' instead.") ;;
       ret (adoptTeamId args)
     else ret args) in
  if truthy (opts !! "confirm") then removeTeam opts
  else
    emit (Prompt (confirmation opts)) ;;
    if answer (confirmation opts) then removeTeam opts
    else ret tt.

End Command.

End TeamsTeamRemove.

(** ** teams channel get *)

Module TeamsChannelGet.
Import Js Io.

(** [#initOptionSets]. *)
Definition optionSets : list (list string) :=
  [["teamId"; "teamName"]; ["channelId"; "channelName"; "primary"]].

Section Command.
Context {P : Type}.
Variable env : Env.
(** [this.teamId], set by [commandAction] before the channel lookup. *)
Variable teamId : string.
(** The service's answer to the lookup: the ids of [response.value]. *)
Variable channels : string -> Result (list string).

(** [channelRequestOptions.url] in [getChannelId]. *)
Definition lookupUrl (opts : Options) : string :=
  resource env +:+ "/v1.0/teams/" +:+ encodeURIComponent env teamId
  +:+ "/channels?$filter=displayName eq '"
  +:+ encodeURIComponent env (tmpl (opts !! "channelName")) +:+ "'".

Definition getChannelId (opts : Options) : M P string :=
  if truthy (opts !! "channelId") then ret (tmpl (opts !! "channelId"))
  else if truthy (opts !! "primary") then ret ""
  else
    let! value := request GET (lookupUrl opts) [] (channels (lookupUrl opts)) in
    match value with
    | [] => throw (RString "The specified channel does not exist in the Microsoft Teams team")
    | channelItem :: _ => ret channelItem
    end.

End Command.

End TeamsChannelGet.

(** ** aad app add *)

Module AadAppAdd.
Import Js Io M365Rc Framework.

Definition aadApplicationPlatform : list string := ["spa"; "web"; "publicClient"].
Definition aadAppScopeConsentBy : list string := ["admins"; "adminsAndUsers"].

(** [ResourceAccess]: the properties [id] and [type]. *)
Record ResourceAccess := {
  ra_id : string;
  ra_type : string
}.

Record AppPermissions := {
  resourceId : string;
  resourceAccess : list ResourceAccess;
  scope : list string
}.

(** An entry of [AppInfo.secrets]. *)
Record Secret := {
  displayName : string;
  value : string
}.

(** [AppInfo]; [requiredResourceAccess] plays no part in what follows. *)
Record AppInfo := {
  appId : string;
  id : string;
  tenantId : string;
  secret : option string;
  secrets : option (list Secret)
}.

(** The object [commandAction] prints. *)
Record Output := {
  out_appId : string;
  out_objectId : string;
  out_tenantId : string;
  out_secret : option string;
  out_secrets : option (list Secret)
}.

Definition filePath : string := ".m365rc.json".

(** *** The validator *)

(** [j.name] on a parsed manifest: reading a property of [null] throws. *)
Definition manifestName (j : Json) : Result (option Json) :=
  match j with
  | JNull => Err (RError "TypeError" "Cannot read properties of null (reading 'name')")
  | JObject props => Ok (lookupProp "name" props)
  | _ => Ok None
  end.

(** The body of the [try] block of the validator: what it completes with,
    and the value of [this.manifest] when it is left. *)
Definition parseManifest (JSON_parse : string -> Result Json) (opts : Options)
    (manifest : option Json) : Result ValidationResult * option Json :=
  match JSON_parse (tmpl (opts !! "manifest")) with
  | Err e => (Err e, manifest)
  | Ok j =>
      if negb (truthy (opts !! "name")) then
        match manifestName j with
        | Err e => (Err e, Some j)
        | Ok nameProp =>
            if negb (truthyJson nameProp) then
              (Ok (Fail "Specify the name of the app to create either through the 'name' option or the 'name' property in the manifest"),
               Some j)
            else (Ok Pass, Some j)
        end
      else (Ok Pass, Some j)
  end.

(** The validator registered by [#initValidators]; [manifest] is
    [this.manifest]. *)
Definition validator (JSON_parse : string -> Result Json) (opts : Options)
    (manifest : option Json) : M Output (ValidationResult * option Json) :=
  if negb (truthy (opts !! "manifest")) && negb (truthy (opts !! "name")) then
    ret (Fail "Specify either the name of the app to create or the manifest", manifest)
  else if truthy (opts !! "platform")
          && notIndexOf aadApplicationPlatform (opts !! "platform") then
    ret (Fail (tmpl (opts !! "platform")
               +:+ " is not a valid value for platform. Allowed values are "
               +:+ join ", " aadApplicationPlatform), manifest)
  else if truthy (opts !! "redirectUris") && negb (truthy (opts !! "platform")) then
    ret (Fail "When you specify redirectUris you also need to specify platform", manifest)
  else if truthy (opts !! "certificateFile")
          && truthy (opts !! "certificateBase64Encoded") then
    ret (Fail "Specify either certificateFile or certificateBase64Encoded but not both", manifest)
  else if truthy (opts !! "certificateDisplayName")
          && negb (truthy (opts !! "certificateFile"))
          && negb (truthy (opts !! "certificateBase64Encoded")) then
    ret (Fail "When you specify certificateDisplayName you also need to specify certificateFile or certificateBase64Encoded", manifest)
  else
    let! missing :=
      (if truthy (opts !! "certificateFile") then
         let! found := existsSync (tmpl (opts !! "certificateFile")) in
         ret (negb found)
       else ret false) in
    if missing then ret (Fail "Certificate file not found", manifest)
    else if truthy (opts !! "scopeName") && negb (truthy (opts !! "uri")) then
      ret (Fail "When you specify scopeName you also need to specify uri", manifest)
    else if truthy (opts !! "scopeName")
            && negb (truthy (opts !! "scopeAdminConsentDescription")) then
      ret (Fail "When you specify scopeName you also need to specify scopeAdminConsentDescription", manifest)
    else if truthy (opts !! "scopeName")
            && negb (truthy (opts !! "scopeAdminConsentDisplayName")) then
      ret (Fail "When you specify scopeName you also need to specify scopeAdminConsentDisplayName", manifest)
    else if truthy (opts !! "scopeConsentBy")
            && notIndexOf aadAppScopeConsentBy (opts !! "scopeConsentBy") then
      ret (Fail (tmpl (opts !! "scopeConsentBy")
                 +:+ " is not a valid value for scopeConsentBy. Allowed values are "
                 +:+ join ", " aadAppScopeConsentBy), manifest)
    else if truthy (opts !! "manifest") then
      match parseManifest JSON_parse opts manifest with
      | (Ok (Fail msg), manifest') => ret (Fail msg, manifest')
      | (Ok Pass, manifest') => ret (Pass, manifest')
      | (Err e, manifest') =>
          ret (Fail ("Error while parsing the specified manifest: " +:+ tmplReason e),
               manifest')
      end
    else ret (Pass, manifest).

(** *** Granting admin consent: the fan-out *)

(** A sub-operation of the fan-out: the POST request it sends. *)
Record Task := {
  task_url : string;
  task_data : list (string * option string)
}.

(** The request of a task, as it shows in the trace. *)
Definition sent (t : Task) : string * list (string * option string) :=
  (task_url t, task_data t).

(** A sub-operation completes ([Done]: the service has committed its
    effect) or fails. *)
Inductive Completion :=
| Done
| Failed (r : Reason).

(** The order in which the sub-operations settle: task number and how it
    settled, earliest first. *)
Definition Schedule := list (nat * Completion).

(** A promise, as seen once the completions of a schedule are in. *)
Inductive Promise (A : Type) :=
| Pending
| Fulfilled (a : A)
| Rejected (r : Reason).
Arguments Pending {A}.
Arguments Fulfilled {A} a.
Arguments Rejected {A} r.

(** [Promise.all] over [remaining] promises that have not settled yet:
    fulfilled when none remains, rejected at the first rejection. *)
Fixpoint promiseAll (remaining : nat) (sched : Schedule) : Promise unit :=
  match remaining with
  | 0 => Fulfilled tt
  | S n =>
      match sched with
      | [] => Pending
      | (_, Done) :: rest => promiseAll n rest
      | (_, Failed r) :: _ => Rejected r
      end
  end.

(** [p.then(_ => a)]. *)
Definition thenReturn {A} (a : A) (p : Promise unit) : Promise A :=
  match p with
  | Pending => Pending
  | Fulfilled _ => Fulfilled a
  | Rejected r => Rejected r
  end.

(** The tasks whose effect the service has committed, once the completions
    of a schedule are in. *)
Definition committed (sched : Schedule) : list nat :=
  omap (fun c => match c with (i, Done) => Some i | (_, Failed _) => None end) sched.

(** The tasks that have settled, one way or the other. *)
Definition settled (sched : Schedule) : list nat := map fst sched.

(** All the completions of a schedule are successes. *)
Definition AllDone (sched : Schedule) : Prop :=
  Forall (fun c => snd c = Done) sched.

Section Command.
Variable env : Env.
Variable codec : Codec.

Definition addRoleToServicePrincipal (objectId resourceId appRoleId : string) : Task :=
  {| task_url := resource env +:+ "/v1.0/myorganization/servicePrincipals/"
                 +:+ objectId +:+ "/appRoleAssignments";
     task_data := [("appRoleId", Some appRoleId);
                   ("principalId", Some objectId);
                   ("resourceId", Some resourceId)] |}.

Definition grantOAuth2Permission (appId resourceId scopeName : string) : Task :=
  {| task_url := resource env +:+ "/v1.0/myorganization/oauth2PermissionGrants";
     task_data := [("clientId", Some appId);
                   ("consentType", Some "AllPrincipals");
                   ("principalId", None);
                   ("resourceId", Some resourceId);
                   ("scope", Some scopeName)] |}.

(** The sub-operations of one entry of [this.appPermissions]: the grant
    of its delegated permissions, if it has any, then one role
    assignment for each of its accesses of type ["Role"]. *)
Definition permissionTasks (spId : string) (permission : AppPermissions) : list Task :=
  (if (0 <? length (scope permission))%nat then
     [grantOAuth2Permission spId (resourceId permission) (join " " (scope permission))]
   else [])
  ++ map (fun access => addRoleToServicePrincipal spId (resourceId permission) (ra_id access))
       (List.filter (fun access => String.eqb (ra_type access) "Role")
          (resourceAccess permission)).

(** The array [tasks] of [grantAdminConsent]. *)
Definition consentTasks (spId : string) (appPermissions : list AppPermissions) : list Task :=
  flat_map (permissionTasks spId) appPermissions.

(** Calling [request.post]: the request leaves, nothing is awaited. *)
Definition launch (t : Task) : M Output Task :=
  emit (Http POST (task_url t) (task_data t)) ;; ret t.

(** The inner [forEach] over the accesses of type ["Role"]. *)
Fixpoint launchRoles (spId resourceId : string) (accesses : list ResourceAccess)
    : M Output (list Task) :=
  match accesses with
  | [] => ret []
  | access :: rest =>
      let! t := launch (addRoleToServicePrincipal spId resourceId (ra_id access)) in
      when (debug env)
        (emit (LogToStderr ("Admin consent granted for following resource "
                            +:+ resourceId +:+ ", with application permission: "
                            +:+ ra_id access))) ;;
      let! ts := launchRoles spId resourceId rest in
      ret (t :: ts)
  end.

(** [this.appPermissions.forEach(...)]: the tasks pushed, in order. *)
Fixpoint launchAll (spId : string) (appPermissions : list AppPermissions)
    : M Output (list Task) :=
  match appPermissions with
  | [] => ret []
  | permission :: rest =>
      let! granted :=
        (if (0 <? length (scope permission))%nat then
           let! t := launch (grantOAuth2Permission spId (resourceId permission)
                               (join " " (scope permission))) in
           when (debug env)
             (emit (LogToStderr ("Admin consent granted for following resource "
                                 +:+ resourceId permission
                                 +:+ ", with delegated permissions: "
                                 +:+ join "," (scope permission)))) ;;
           ret [t]
         else ret []) in
      let! roles :=
        launchRoles spId (resourceId permission)
          (List.filter (fun access => String.eqb (ra_type access) "Role")
             (resourceAccess permission)) in
      let! ts := launchAll spId rest in
      ret (granted ++ roles ++ ts)
  end.

(** [grantAdminConsent]; [appPermissions] is [this.appPermissions],
    [created] the service's answer to [createServicePrincipal] (the id
    of the service principal), [sched] the completions that are in when
    the returned promise is looked at. *)
Definition grantAdminConsent (appInfo : AppInfo) (adminConsent : option Value)
    (appPermissions : list AppPermissions) (created : Result string)
    (sched : Schedule) (w : World Output) : Promise AppInfo * World Output :=
  if negb (truthy adminConsent) || (length appPermissions =? 0)%nat then
    (Fulfilled appInfo, w)
  else
    match
      (let! spId :=
         request POST (resource env +:+ "/v1.0/myorganization/servicePrincipals")
           [("appId", Some (appId appInfo))] created in
       when (debug env)
         (emit (LogToStderr ("Service principal created, returned object id: " +:+ spId))) ;;
       launchAll spId appPermissions) w
    with
    | (Err r, w') => (Rejected r, w')
    | (Ok tasks, w') => (thenReturn appInfo (promiseAll (length tasks) sched), w')
    end.

(** *** Saving the app registration *)

(** The part of [saveAppInfo] that loads the file: [None] stands for the
    [return] in the [catch] block. *)
Definition loadRc : M Output (option Json) :=
  let! found := existsSync filePath in
  if found then
    when (debug env) (emit (LogToStderr ("Reading existing " +:+ filePath +:+ "..."))) ;;
    try_catch
      (let! fileContents := readFileSync filePath in
       if negb (String.eqb fileContents "") then
         let! m365rc := await (parse codec fileContents) in
         ret (Some m365rc)
       else ret (Some (JObject [])))
      (fun e =>
         emit (LogToStderr ("Error reading " +:+ filePath +:+ ": " +:+ tmplReason e
                            +:+ ". Please add app info to " +:+ filePath +:+ " manually.")) ;;
         ret None)
  else ret (Some (JObject [])).

(** [saveAppInfo]; [appName] is [this.appName]. What is thrown after the
    file has been loaded (by [m365rc.apps] and by [.push]) is thrown
    outside the two [try] blocks. *)
Definition saveAppInfo (opts : Options) (appInfo : AppInfo) (appName : string)
    : M Output AppInfo :=
  if negb (truthy (opts !! "save")) then ret appInfo
  else
    when (verbose env)
      (emit (LogToStderr ("Saving Azure AD app registration information to the "
                          +:+ filePath +:+ " file..."))) ;;
    let! loaded := loadRc in
    match loaded with
    | None => ret appInfo
    | Some m365rc =>
        let! items := await (appsOf "push" m365rc) in
        let m365rc' :=
          withApps m365rc (items ++ [appJson {| M365Rc.appId := appId appInfo;
                                                M365Rc.name := appName |}]) in
        try_catch
          (writeFileSync filePath (stringify codec m365rc'))
          (fun e =>
             emit (LogToStderr ("Error writing " +:+ filePath +:+ ": " +:+ tmplReason e
                                +:+ ". Please add app info to " +:+ filePath
                                +:+ " manually."))) ;;
        ret appInfo
    end.

(** The object built from [_appInfo] at the end of [commandAction]. *)
Definition output (_appInfo : AppInfo) : Output :=
  {| out_appId := appId _appInfo;
     out_objectId := id _appInfo;
     out_tenantId := tenantId _appInfo;
     out_secret :=
       match secret _appInfo with
       | Some s => if String.eqb s "" then None else Some s
       | None => None
       end;
     out_secrets := secrets _appInfo |}.

(** [commandAction]; [configured] stands for its steps from
    [resolveApis] to [configureSecret], which create and configure the
    app registration. *)
Definition commandAction (configured : M Output AppInfo) (opts : Options)
    (appName : string) : M Output unit :=
  try_catch
    (let! appInfo := configured in
     let! _appInfo := saveAppInfo opts appInfo appName in
     emit (Log (output _appInfo)))
    (handleRejectedODataJsonPromise env).

End Command.

End AadAppAdd.

(** ** A concrete environment for the examples *)

Module Samples.
Import Js Io.

(** The Graph endpoint, quiet logging, identifiers that need no escaping,
    and the message of a failure taken as it is. *)
Definition env : Env :=
  {| resource := "https://graph.microsoft.com";
     verbose := false;
     debug := false;
     encodeURIComponent := fun s => s;
     extractMessage := tmplReason |}.

(** A file system without the registration file. *)
Definition noFiles : Fs :=
  {| files := ∅; readError := None; writeError := None |}.

(** The start of an invocation: nothing has happened yet. *)
Definition start {P : Type} (f : Fs) : World P :=
  {| fs := f; trace := [] |}.

Definition dq : string := String (Ascii.ascii_of_nat 34) EmptyString.
Definition nl : string := String (Ascii.ascii_of_nat 10) EmptyString.

(** [JSON.stringify(j, null, 2)], for strings that need no escaping;
    [indent] is the indentation of the line the value starts on. *)
Fixpoint renderJson (indent : string) (j : Json) : string :=
  let inner := indent +:+ "  " in
  match j with
  | JNull => "null"
  | JBool b => if b then "true" else "false"
  | JNumber n => pretty n
  | JString s => dq +:+ s +:+ dq
  | JArray [] => "[]"
  | JArray items =>
      "[" +:+ nl
      +:+ join ("," +:+ nl) (map (fun item => inner +:+ renderJson inner item) items)
      +:+ nl +:+ indent +:+ "]"
  | JObject [] => "{}"
  | JObject props =>
      "{" +:+ nl
      +:+ join ("," +:+ nl)
            (map (fun kv => match kv with
                            | (key, v) => inner +:+ dq +:+ key +:+ dq +:+ ": "
                                          +:+ renderJson inner v
                            end) props)
      +:+ nl +:+ indent +:+ "}"
  end.

(** The text of the registration file. *)
Definition render (m : M365Rc.M365RcJson) : string :=
  renderJson "" (M365Rc.toJson m).

(** A file system that holds the registration file with this text. *)
Definition withFile (text : string) : Fs :=
  {| files := {[ M365Rc.filePath := text ]}; readError := None; writeError := None |}.

(** An app registration, as [aad app get] retrieves it and as
    [aad app add] creates it. *)
Definition app : AadAppGet.Application :=
  {| AadAppGet.id := "oid"; AadAppGet.appId := "A"; AadAppGet.displayName := "Contoso" |}.

Definition created : AadAppAdd.AppInfo :=
  {| AadAppAdd.appId := "A"; AadAppAdd.id := "oid"; AadAppAdd.tenantId := "tenant";
     AadAppAdd.secret := None; AadAppAdd.secrets := None |}.

(** The registration file with the record of that app, and with the
    record twice. *)
Definition once : M365Rc.M365RcJson :=
  {| M365Rc.apps := Some [{| M365Rc.appId := "A"; M365Rc.name := "Contoso" |}] |}.

Definition twice : M365Rc.M365RcJson :=
  {| M365Rc.apps := Some [{| M365Rc.appId := "A"; M365Rc.name := "Contoso" |};
                          {| M365Rc.appId := "A"; M365Rc.name := "Contoso" |}] |}.

(** A codec that prints with [renderJson] and reads back the values of
    [known]; any other text is a syntax error. *)
Definition codecOf (known : list Json) : M365Rc.Codec :=
  {| M365Rc.parse := fun s =>
       match find (fun j => String.eqb (renderJson "" j) s) known with
       | Some j => Ok j
       | None => Err (RError "SyntaxError" "Unexpected token in JSON")
       end;
     M365Rc.stringify := renderJson "" |}.

(** The codec that reads back the documents of [known]. *)
Definition codec (known : list M365Rc.M365RcJson) : M365Rc.Codec :=
  codecOf (map M365Rc.toJson known).

End Samples.

(** ** Telemetry values and trace projections used by the commands below *)

Module Telemetry.
Import Js Io.

(** [(!(!x)).toString()]. *)
Definition notNot (o : option Value) : option Value :=
  Some (VStr (if truthy o then "true" else "false")).

(** [typeof x !== 'undefined']. *)
Definition defined (o : option Value) : option Value :=
  Some (VBool (bool_decide (is_Some o))).

(** [x || fallback]. *)
Definition orElse (o : option Value) (fallback : string) : option Value :=
  if truthy o then o else Some (VStr fallback).

(** [x === s] for a string literal [s]. *)
Definition strictEq (o : option Value) (s : string) : bool :=
  match o with
  | Some (VStr t) => String.eqb t s
  | _ => false
  end.

(** A value that tells whether an option was given, and nothing of what it
    holds: a boolean, or one of the strings "true" and "false". *)
Definition Flag (v : option Value) : Prop :=
  (exists b, v = Some (VBool b)) \/ v = Some (VStr "true") \/ v = Some (VStr "false").

(** A failure as [handleRejectedODataJsonPromise] reports it: the
    [CommandError] with the message of what was thrown. *)
Definition Reported {A} (env : Env) (r : Result A) : Prop :=
  match r with
  | Ok _ => True
  | Err reason => exists thrown, reason = CommandError (extractMessage env thrown)
  end.

(** The group lookups by display name that were made. *)
Definition lookups {P} (tr : list (Event P)) : list string :=
  omap (fun e => match e with Lookup name => Some name | _ => None end) tr.

(** The requests that were sent: method and url. *)
Definition sentRequests {P} (tr : list (Event P)) : list (Method * string) :=
  omap (fun e => match e with Http m url _ => Some (m, url) | _ => None end) tr.

(** The PATCH requests that were sent, with their bodies. *)
Definition patched {P} (tr : list (Event P)) : list (string * list (string * option string)) :=
  omap (fun e => match e with
                 | Http PATCH url data => Some (url, data)
                 | _ => None
                 end) tr.

End Telemetry.

(** ** aad sp get, aad app get: telemetry and validators *)

Module AadSpGetCommand.
Import Js Io Framework Telemetry.

(** [#initTelemetry]: the properties assigned to [this.telemetryProperties]. *)
Definition telemetry (opts : Options) : list (string * option Value) :=
  [("appId", notNot (opts !! "appId"));
   ("displayName", notNot (opts !! "displayName"));
   ("objectId", notNot (opts !! "objectId"))].

(** [#initValidators]; [isValidGuid] is [validation.isValidGuid]. *)
Definition validator (isValidGuid : string -> bool) (opts : Options) : ValidationResult :=
  if truthy (opts !! "appId") && negb (isValidGuid (tmpl (opts !! "appId"))) then
    Fail (tmpl (opts !! "appId") +:+ " is not a valid appId GUID")
  else if truthy (opts !! "objectId") && negb (isValidGuid (tmpl (opts !! "objectId"))) then
    Fail (tmpl (opts !! "objectId") +:+ " is not a valid objectId GUID")
  else Pass.

End AadSpGetCommand.

Module AadAppGetCommand.
Import Js Io Framework Telemetry.

(** [#initTelemetry]. *)
Definition telemetry (opts : Options) : list (string * option Value) :=
  [("appId", defined (opts !! "appId"));
   ("objectId", defined (opts !! "objectId"));
   ("name", defined (opts !! "name"))].

(** [#initValidators]. *)
Definition validator (isValidGuid : string -> bool) (opts : Options) : ValidationResult :=
  if truthy (opts !! "appId") && negb (isValidGuid (tmpl (opts !! "appId"))) then
    Fail (tmpl (opts !! "appId") +:+ " is not a valid GUID")
  else if truthy (opts !! "objectId") && negb (isValidGuid (tmpl (opts !! "objectId"))) then
    Fail (tmpl (opts !! "objectId") +:+ " is not a valid GUID")
  else Pass.

End AadAppGetCommand.

(** ** teams team remove: telemetry and validator *)

Module TeamsTeamRemoveCommand.
Import Js Io Framework Telemetry.

(** [#initTelemetry]. *)
Definition telemetry (opts : Options) : list (string * option Value) :=
  [("confirm", notNot (opts !! "confirm"))].

(** [#initValidators]. *)
Definition validator (isValidGuid : string -> bool) (opts : Options) : ValidationResult :=
  if negb (truthy (opts !! "id")) && negb (truthy (opts !! "name"))
     && negb (truthy (opts !! "teamId")) then
    Fail "Specify either id or name"
  else if truthy (opts !! "name") && (truthy (opts !! "id") || truthy (opts !! "teamId")) then
    Fail "Specify either id or name but not both"
  else if truthy (opts !! "teamId") && negb (isValidGuid (tmpl (opts !! "teamId"))) then
    Fail (tmpl (opts !! "teamId") +:+ " is not a valid GUID")
  else if truthy (opts !! "id") && negb (isValidGuid (tmpl (opts !! "id"))) then
    Fail (tmpl (opts !! "id") +:+ " is not a valid GUID")
  else Pass.

(** The options [commandAction] works on: under [if (args.options.teamId)],
    [id] is set to [teamId]. *)
Definition adopted (args : Options) : Options :=
  if truthy (args !! "teamId") then TeamsTeamRemove.adoptTeamId args else args.

End TeamsTeamRemoveCommand.

(** ** teams channel set *)

Module TeamsChannelSetCommand.
Import Js Io Framework Telemetry.

(** [#initTelemetry]. *)
Definition telemetry (opts : Options) : list (string * option Value) :=
  [("newChannelName", defined (opts !! "newChannelName"));
   ("description", defined (opts !! "description"))].

(** [mapRequestBody]: the properties of the request body. *)
Definition mapRequestBody (opts : Options) : list (string * option string) :=
  (if truthy (opts !! "newChannelName")
   then [("displayName", Some (tmpl (opts !! "newChannelName")))] else [])
  ++ (if truthy (opts !! "description")
      then [("description", Some (tmpl (opts !! "description")))] else []).

Section Command.
Context {P : Type}.
Variable env : Env.
(** The service's answer to the lookup: the ids of [res.value]. *)
Variable channels : string -> Result (list string).
(** The service's answer to the PATCH request. *)
Variable patchedChannel : string -> Result unit.

(** [requestOptions.url]. *)
Definition lookupUrl (opts : Options) : string :=
  resource env +:+ "/v1.0/teams/" +:+ encodeURIComponent env (tmpl (opts !! "teamId"))
  +:+ "/channels?$filter=displayName eq '"
  +:+ encodeURIComponent env (tmpl (opts !! "channelName")) +:+ "'".

(** [requestOptionsPatch.url]. *)
Definition patchUrl (opts : Options) (channelId : string) : string :=
  resource env +:+ "/v1.0/teams/" +:+ encodeURIComponent env (tmpl (opts !! "teamId"))
  +:+ "/channels/" +:+ channelId.

Definition commandAction (opts : Options) : M P unit :=
  try_catch
    (let! value := request GET (lookupUrl opts) [] (channels (lookupUrl opts)) in
     match value with
     | [] => throw (RString "The specified channel does not exist in the Microsoft Teams team")
     | channelId :: _ =>
         request PATCH (patchUrl opts channelId) (mapRequestBody opts)
           (patchedChannel (patchUrl opts channelId))
     end)
    (handleRejectedODataJsonPromise env).

End Command.

End TeamsChannelSetCommand.

(** ** teams channel get: telemetry, team lookup and action *)

Module TeamsChannelGetCommand.
Import Js Io Framework Telemetry.

(** [#initTelemetry]. *)
Definition telemetry (opts : Options) : list (string * option Value) :=
  [("teamId", defined (opts !! "teamId"));
   ("teamName", defined (opts !! "teamName"));
   ("channelId", defined (opts !! "channelId"));
   ("channelName", defined (opts !! "channelName"));
   ("primary", notNot (opts !! "primary"))].

Section Command.
Context {P : Type}.
Variable env : Env.
(** [aadGroup.getGroupByDisplayName], a helper outside the sources
    covered here. *)
Variable getGroupByDisplayName : option Value -> Result TeamsTeamRemove.Group.
(** The service's answer to the channel lookup: the ids of
    [response.value]. *)
Variable channels : string -> Result (list string).
(** The service's answer to the request for the channel. *)
Variable channel : string -> Result P.

Definition getTeamId (opts : Options) : M P string :=
  if truthy (opts !! "teamId") then ret (tmpl (opts !! "teamId"))
  else
    emit (Lookup (tmpl (opts !! "teamName"))) ;;
    let! group := await (getGroupByDisplayName (opts !! "teamName")) in
    if bool_decide ("Team" ∉ TeamsTeamRemove.resourceProvisioningOptions group) then
      throw (RString "The specified team does not exist in the Microsoft Teams")
    else ret (TeamsTeamRemove.id group).

(** [url] in [commandAction]. *)
Definition channelUrl (opts : Options) (teamId channelId : string) : string :=
  if truthy (opts !! "primary") then
    resource env +:+ "/v1.0/teams/" +:+ encodeURIComponent env teamId +:+ "/primaryChannel"
  else
    resource env +:+ "/v1.0/teams/" +:+ encodeURIComponent env teamId
    +:+ "/channels/" +:+ encodeURIComponent env channelId.

(** [commandAction]; the team id it resolves is what [getChannelId] reads
    as [this.teamId]. *)
Definition commandAction (opts : Options) : M P unit :=
  try_catch
    (let! teamId := getTeamId opts in
     let! channelId := TeamsChannelGet.getChannelId env teamId channels opts in
     let url := channelUrl opts teamId channelId in
     let! res := request GET url [] (channel url) in
     emit (Log res))
    (handleRejectedODataJsonPromise env).

End Command.

End TeamsChannelGetCommand.

(** ** spo feature list *)

Module SpoFeatureListCommand.
Import Js Io Framework Telemetry.

(** [#initTelemetry]. *)
Definition telemetry (opts : Options) : list (string * option Value) :=
  [("scope", orElse (opts !! "scope") "Web")].

(** [#initValidators]; [isValidSharePointUrl] is
    [validation.isValidSharePointUrl], which yields [true] or a message. *)
Definition validator (isValidSharePointUrl : option Value -> ValidationResult)
    (opts : Options) : ValidationResult :=
  if truthy (opts !! "scope")
     && negb (strictEq (opts !! "scope") "Site")
     && negb (strictEq (opts !! "scope") "Web") then
    Fail (tmpl (opts !! "scope")
          +:+ " is not a valid Feature scope. Allowed values are Site|Web")
  else isValidSharePointUrl (opts !! "url").

Section Command.
(** A feature, as the service lists it. *)
Context {Feature : Type}.
Variable env : Env.
(** The service's answer: [features.value], which may be missing. *)
Variable features : string -> Result (option (list Feature)).

(** [scope] in [commandAction]. *)
Definition scope (opts : Options) : string :=
  if truthy (opts !! "scope") then tmpl (opts !! "scope") else "Web".

(** [requestOptions.url]. *)
Definition featuresUrl (opts : Options) : string :=
  tmpl (opts !! "url") +:+ "/_api/" +:+ scope opts
  +:+ "/Features?$select=DisplayName,DefinitionId".

Definition commandAction (opts : Options) : M (list Feature) unit :=
  try_catch
    (let! value := request GET (featuresUrl opts) [] (features (featuresUrl opts)) in
     match value with
     | Some (f :: fs) => emit (Log (f :: fs))
     | _ => when (verbose env) (emit (LogToStderr "No activated Features found"))
     end)
    (handleRejectedODataJsonPromise env).

End Command.

End SpoFeatureListCommand.

(** ** aad app add: telemetry, API resolution, secrets and certificates *)

Module AadAppAddCommand.
Import Js Io Framework Telemetry.

(** [#initTelemetry]. *)
Definition telemetry (opts : Options) : list (string * option Value) :=
  [("apis", defined (opts !! "apisDelegated"));
   ("implicitFlow", opts !! "implicitFlow");
   ("multitenant", opts !! "multitenant");
   ("platform", opts !! "platform");
   ("redirectUris", defined (opts !! "redirectUris"));
   ("scopeAdminConsentDescription", defined (opts !! "scopeAdminConsentDescription"));
   ("scopeAdminConsentDisplayName", defined (opts !! "scopeAdminConsentDisplayName"));
   ("scopeConsentBy", opts !! "scopeConsentBy");
   ("scopeName", defined (opts !! "scopeName"));
   ("uri", defined (opts !! "uri"));
   ("withSecret", opts !! "withSecret");
   ("certificateFile", defined (opts !! "certificateFile"));
   ("certificateBase64Encoded", defined (opts !! "certificateBase64Encoded"));
   ("certificateDisplayName", defined (opts !! "certificateDisplayName"));
   ("grantAdminConsent", defined (opts !! "grantAdminConsent"))].

(** An entry of [appRoles] or [oauth2PermissionScopes]. *)
Record Permission := {
  perm_id : string;
  perm_value : string
}.

(** [ServicePrincipalInfo]. *)
Record ServicePrincipalInfo := {
  sp_appId : string;
  appRoles : list Permission;
  sp_id : string;
  oauth2PermissionScopes : list Permission;
  servicePrincipalNames : list string
}.

(** [RequiredResourceAccess]. *)
Record RequiredResourceAccess := {
  resourceAppId : string;
  resourceAccess : list AadAppAdd.ResourceAccess
}.

(** *** [updateAppPermissions] *)

(** [if (x)] on a [string | undefined]. *)
Definition given (o : option string) : bool :=
  match o with
  | Some s => negb (String.eqb s "")
  | None => false
  end.

(** The two conditional pushes of [updateAppPermissions] on the entry it
    works on. *)
Definition record (resourceAccessPermission : AadAppAdd.ResourceAccess)
    (oAuth2PermissionValue : option string) (existingPermission : AadAppAdd.AppPermissions)
    : AadAppAdd.AppPermissions :=
  {| AadAppAdd.resourceId := AadAppAdd.resourceId existingPermission;
     AadAppAdd.resourceAccess :=
       if existsb (fun res => String.eqb (AadAppAdd.ra_id res)
                                (AadAppAdd.ra_id resourceAccessPermission))
            (AadAppAdd.resourceAccess existingPermission)
       then AadAppAdd.resourceAccess existingPermission
       else AadAppAdd.resourceAccess existingPermission ++ [resourceAccessPermission];
     AadAppAdd.scope :=
       match oAuth2PermissionValue with
       | Some value =>
           if String.eqb (AadAppAdd.ra_type resourceAccessPermission) "Scope"
              && given oAuth2PermissionValue
              && negb (existsb (String.eqb value) (AadAppAdd.scope existingPermission))
           then AadAppAdd.scope existingPermission ++ [value]
           else AadAppAdd.scope existingPermission
       | None => AadAppAdd.scope existingPermission
       end |}.

(** [updateAppPermissions] on [this.appPermissions]: the first entry of the
    service principal is updated in place; when there is none, a new entry
    is pushed. *)
Fixpoint updateAppPermissions (spId : string)
    (resourceAccessPermission : AadAppAdd.ResourceAccess)
    (oAuth2PermissionValue : option string)
    (appPermissions : list AadAppAdd.AppPermissions) : list AadAppAdd.AppPermissions :=
  match appPermissions with
  | [] =>
      [record resourceAccessPermission oAuth2PermissionValue
         {| AadAppAdd.resourceId := spId;
            AadAppAdd.resourceAccess := [];
            AadAppAdd.scope := [] |}]
  | oauth :: rest =>
      if String.eqb (AadAppAdd.resourceId oauth) spId then
        record resourceAccessPermission oAuth2PermissionValue oauth :: rest
      else
        oauth :: updateAppPermissions spId resourceAccessPermission oAuth2PermissionValue rest
  end.

(** What [updateAppPermissions] keeps: one entry for a service principal,
    and in an entry every scope and every access id once. *)
Definition Tidy (appPermissions : list AadAppAdd.AppPermissions) : Prop :=
  NoDup (map AadAppAdd.resourceId appPermissions)
  /\ Forall (fun p => NoDup (AadAppAdd.scope p)
                      /\ NoDup (map AadAppAdd.ra_id (AadAppAdd.resourceAccess p)))
       appPermissions.

(** *** [getRequiredResourceAccessForApis] *)

(** [s.split(',')]. *)
Fixpoint split (sep : ascii) (s : string) : list string :=
  match s with
  | EmptyString => [EmptyString]
  | String c rest =>
      if Ascii.eqb c sep then EmptyString :: split sep rest
      else
        match split sep rest with
        | piece :: pieces => String c piece :: pieces
        | [] => [String c EmptyString]
        end
  end.

(** [api.lastIndexOf('/')]: [None] is [-1]. *)
Fixpoint lastIndexOf (sep : ascii) (s : string) : option nat :=
  match s with
  | EmptyString => None
  | String c rest =>
      match lastIndexOf sep rest with
      | Some pos => Some (S pos)
      | None => if Ascii.eqb c sep then Some 0 else None
      end
  end.

(** [api.substr(pos + 1)]. *)
Definition permissionNameOf (api : string) : string :=
  match lastIndexOf "/" api with
  | Some pos => String.substring (S pos) (String.length api - S pos) api
  | None => api
  end.

(** [api.substr(0, pos)]; a negative length gives the empty string. *)
Definition servicePrincipalNameOf (api : string) : string :=
  match lastIndexOf "/" api with
  | Some pos => String.substring 0 pos api
  | None => EmptyString
  end.

(** The predicate of [servicePrincipals.find]. *)
Definition named (servicePrincipalName : string) (sp : ServicePrincipalInfo) : bool :=
  bool_decide (servicePrincipalName ∈ servicePrincipalNames sp)
  || bool_decide ((servicePrincipalName +:+ "/") ∈ servicePrincipalNames sp).

(** [scopesOfType]. *)
Definition scopesOfType (scopeType : string) (sp : ServicePrincipalInfo) : list Permission :=
  if String.eqb scopeType "Scope" then oauth2PermissionScopes sp else appRoles sp.

(** The [find], the creation and the [push] on [resolvedApis]: the access is
    pushed onto the first entry of the resource; when there is none, a new
    entry is pushed. *)
Fixpoint pushAccess (appId : string) (access : AadAppAdd.ResourceAccess)
    (resolvedApis : list RequiredResourceAccess) : list RequiredResourceAccess :=
  match resolvedApis with
  | [] => [{| resourceAppId := appId; resourceAccess := [access] |}]
  | a :: rest =>
      if String.eqb (resourceAppId a) appId then
        {| resourceAppId := resourceAppId a;
           resourceAccess := resourceAccess a ++ [access] |} :: rest
      else a :: pushAccess appId access rest
  end.

Section Apis.
Context {P : Type}.
Variable env : Env.
(** [String.prototype.trim]. *)
Variable trim : string -> string.

(** The body of the [forEach] of [getRequiredResourceAccessForApis], on the
    arrays [resolvedApis] and [this.appPermissions]. *)
Definition resolveApi (servicePrincipals : list ServicePrincipalInfo) (scopeType : string)
    (api : string)
    (state : list RequiredResourceAccess * list AadAppAdd.AppPermissions)
    : M P (list RequiredResourceAccess * list AadAppAdd.AppPermissions) :=
  let permissionName := permissionNameOf api in
  let servicePrincipalName := servicePrincipalNameOf api in
  when (debug env)
    (emit (LogToStderr ("Resolving " +:+ api +:+ "...")) ;;
     emit (LogToStderr ("Permission name: " +:+ permissionName)) ;;
     emit (LogToStderr ("Service principal name: " +:+ servicePrincipalName))) ;;
  match List.find (named servicePrincipalName) servicePrincipals with
  | None => throw (RString ("Service principal " +:+ servicePrincipalName +:+ " not found"))
  | Some servicePrincipal =>
      match List.find (fun scope => String.eqb (perm_value scope) permissionName)
              (scopesOfType scopeType servicePrincipal) with
      | None =>
          throw (RString ("Permission " +:+ permissionName +:+ " for service principal "
                          +:+ servicePrincipalName +:+ " not found"))
      | Some permission =>
          let resourceAccessPermission :=
            {| AadAppAdd.ra_id := perm_id permission; AadAppAdd.ra_type := scopeType |} in
          ret (pushAccess (sp_appId servicePrincipal) resourceAccessPermission (fst state),
               updateAppPermissions (sp_id servicePrincipal) resourceAccessPermission
                 (Some (perm_value permission)) (snd state))
      end
  end.

(** [requestedApis.forEach(...)]. *)
Fixpoint resolveAll (servicePrincipals : list ServicePrincipalInfo) (scopeType : string)
    (requestedApis : list string)
    (state : list RequiredResourceAccess * list AadAppAdd.AppPermissions)
    : M P (list RequiredResourceAccess * list AadAppAdd.AppPermissions) :=
  match requestedApis with
  | [] => ret state
  | api :: rest =>
      let! state' := resolveApi servicePrincipals scopeType api state in
      resolveAll servicePrincipals scopeType rest state'
  end.

(** [apis.split(',').map(a => a.trim())]. *)
Definition requestedApis (apis : string) : list string :=
  map trim (split "," apis).

(** [getRequiredResourceAccessForApis]: what it returns, and
    [this.appPermissions] after it. A flag given without a value has no
    [split]. *)
Definition getRequiredResourceAccessForApis (servicePrincipals : list ServicePrincipalInfo)
    (apis : option Value) (scopeType : string)
    (appPermissions : list AadAppAdd.AppPermissions)
    : M P (list RequiredResourceAccess * list AadAppAdd.AppPermissions) :=
  if negb (truthy apis) then ret ([], appPermissions)
  else
    match apis with
    | Some (VStr s) =>
        resolveAll servicePrincipals scopeType (requestedApis s) ([], appPermissions)
    | _ => throw (RError "TypeError" "apis.split is not a function")
    end.

(** Whether a requested API can be resolved. *)
Definition resolvable (servicePrincipals : list ServicePrincipalInfo) (scopeType : string)
    (api : string) : bool :=
  match List.find (named (servicePrincipalNameOf api)) servicePrincipals with
  | None => false
  | Some servicePrincipal =>
      existsb (fun scope => String.eqb (perm_value scope) (permissionNameOf api))
        (scopesOfType scopeType servicePrincipal)
  end.

(** The merge of the resolved application APIs onto the delegated ones, for
    one entry. *)
Fixpoint mergeOne (resolvedRequiredResource : RequiredResourceAccess)
    (resolvedApis : list RequiredResourceAccess) : list RequiredResourceAccess :=
  match resolvedApis with
  | [] => [resolvedRequiredResource]
  | api :: rest =>
      if String.eqb (resourceAppId api) (resourceAppId resolvedRequiredResource) then
        {| resourceAppId := resourceAppId api;
           resourceAccess := resourceAccess api ++ resourceAccess resolvedRequiredResource |}
        :: rest
      else api :: mergeOne resolvedRequiredResource rest
  end.

(** [resolvedApplicationApis.forEach(...)]. *)
Definition merge (resolvedApis resolvedApplicationApis : list RequiredResourceAccess)
    : list RequiredResourceAccess :=
  fold_left (fun acc r => mergeOne r acc) resolvedApplicationApis resolvedApis.

(** The inner [forEach] over the accesses of an API of the manifest. *)
Definition recordManifestApi (app : ServicePrincipalInfo)
    (accesses : list AadAppAdd.ResourceAccess)
    (appPermissions : list AadAppAdd.AppPermissions) : list AadAppAdd.AppPermissions :=
  fold_left
    (fun acc res =>
       let resourceAccessPermission :=
         {| AadAppAdd.ra_id := AadAppAdd.ra_id res; AadAppAdd.ra_type := AadAppAdd.ra_type res |} in
       let oAuthValue :=
         option_map perm_value
           (List.find (fun scp => String.eqb (perm_id scp) (AadAppAdd.ra_id res))
              (oauth2PermissionScopes app)) in
       updateAppPermissions (sp_id app) resourceAccessPermission oAuthValue acc)
    accesses appPermissions.

(** [manifestApis.forEach(...)] on [this.appPermissions]; the APIs
    themselves are pushed as they are. *)
Definition recordManifestApis (servicePrincipals : list ServicePrincipalInfo)
    (manifestApis : list RequiredResourceAccess)
    (appPermissions : list AadAppAdd.AppPermissions) : list AadAppAdd.AppPermissions :=
  fold_left
    (fun acc manifestApi =>
       match List.find (fun sp => String.eqb (sp_appId sp) (resourceAppId manifestApi))
               servicePrincipals with
       | Some app => recordManifestApi app (resourceAccess manifestApi) acc
       | None => acc
       end)
    manifestApis appPermissions.

(** [JSON.stringify(_, null, 2)] of what the verbose trace shows. *)
Variable showApis : list RequiredResourceAccess -> string.
Variable showAccesses : list AadAppAdd.ResourceAccess -> string.
Variable showScopes : list string -> string.
(** The service's answer to [odata.getAllItems]. *)
Variable allServicePrincipals : string -> Result (list ServicePrincipalInfo).

Definition servicePrincipalsUrl : string :=
  resource env
  +:+ "/v1.0/myorganization/servicePrincipals?$select=appId,appRoles,id,oauth2PermissionScopes,servicePrincipalNames".

(** [resolveApis]; [manifestApis] is [this.manifest?.requiredResourceAccess]
    at the type the source casts it to, [appPermissions] is
    [this.appPermissions]. It returns the resolved APIs and
    [this.appPermissions] after it. *)
Definition resolveApis (opts : Options) (manifestApis : option (list RequiredResourceAccess))
    (appPermissions : list AadAppAdd.AppPermissions)
    : M P (list RequiredResourceAccess * list AadAppAdd.AppPermissions) :=
  if negb (truthy (opts !! "apisDelegated")) && negb (truthy (opts !! "apisApplication"))
     && match manifestApis with
        | None => true
        | Some apis => (length apis =? 0)%nat
        end
  then ret ([], appPermissions)
  else
    when (verbose env) (emit (LogToStderr "Resolving requested APIs...")) ;;
    let! servicePrincipals :=
      request GET servicePrincipalsUrl [] (allServicePrincipals servicePrincipalsUrl) in
    let! resolved :=
      (if truthy (opts !! "apisDelegated") || truthy (opts !! "apisApplication") then
         let! delegated :=
           getRequiredResourceAccessForApis servicePrincipals (opts !! "apisDelegated")
             "Scope" appPermissions in
         when (verbose env)
           (emit (LogToStderr ("Resolved delegated permissions: " +:+ showApis (fst delegated)))) ;;
         let! application :=
           getRequiredResourceAccessForApis servicePrincipals (opts !! "apisApplication")
             "Role" (snd delegated) in
         when (verbose env)
           (emit (LogToStderr ("Resolved application permissions: "
                               +:+ showApis (fst application)))) ;;
         ret (merge (fst delegated) (fst application), snd application)
       else
         let apis := default [] manifestApis in
         ret (apis, recordManifestApis servicePrincipals apis appPermissions)) in
    when (verbose env)
      (emit (LogToStderr ("Merged delegated and application permissions: "
                          +:+ showApis (fst resolved))) ;;
       emit (LogToStderr ("App role assignments: "
                          +:+ showAccesses
                                (flat_map (fun permission =>
                                             List.filter (fun access =>
                                                            String.eqb (AadAppAdd.ra_type access) "Role")
                                               (AadAppAdd.resourceAccess permission))
                                   (snd resolved)))) ;;
       emit (LogToStderr ("OAuth2 permissions: "
                          +:+ showScopes (flat_map AadAppAdd.scope (snd resolved))))) ;;
    ret resolved.

End Apis.

(** *** [getCertificateBase64Encoded] *)

Section Certificate.
Context {P : Type}.
Variable env : Env.
(** The base64 text of a file's contents. *)
Variable base64 : string -> string.

Definition getCertificateBase64Encoded (opts : Options) : M P string :=
  if truthy (opts !! "certificateBase64Encoded") then
    ret (tmpl (opts !! "certificateBase64Encoded"))
  else
    when (debug env)
      (emit (LogToStderr ("Reading existing " +:+ tmpl (opts !! "certificateFile") +:+ "..."))) ;;
    try_catch
      (let! contents := readFileSync (tmpl (opts !! "certificateFile")) in
       ret (base64 contents))
      (fun e =>
         throw (RError "Error"
                  ("Error reading certificate file: " +:+ tmplReason e
                   +:+ ". Please add the certificate using base64 option '--certificateBase64Encoded'."))).

End Certificate.

(** *** [configureSecret] and [createSecret] *)

Section Secret.
Variable env : Env.
(** The ISO text of the date one year from now. *)
Variable inOneYear : string.
(** The service's answer to [addPassword]: [secretText]. *)
Variable addPassword : string -> Result string.

(** [createSecret], called with an app object id and nothing else; the body
    of the request is listed with the path of each property. *)
Definition createSecret (appObjectId : string) : M AadAppAdd.Output AadAppAdd.Secret :=
  let secretName := "Default" in
  let url := resource env +:+ "/v1.0/myorganization/applications/" +:+ appObjectId
             +:+ "/addPassword" in
  let! secretText :=
    request POST url
      [("passwordCredential.displayName", Some secretName);
       ("passwordCredential.endDateTime", Some inOneYear)]
      (addPassword url) in
  ret {| AadAppAdd.displayName := secretName; AadAppAdd.value := secretText |}.

Definition configureSecret (opts : Options) (appInfo : AadAppAdd.AppInfo)
    : M AadAppAdd.Output AadAppAdd.AppInfo :=
  if negb (truthy (opts !! "withSecret"))
     || match AadAppAdd.secrets appInfo with
        | Some secrets => (0 <? length secrets)%nat
        | None => false
        end
  then ret appInfo
  else
    when (verbose env) (emit (LogToStderr "Configure Azure AD app secret...")) ;;
    let! secret := createSecret (AadAppAdd.id appInfo) in
    ret {| AadAppAdd.appId := AadAppAdd.appId appInfo;
           AadAppAdd.id := AadAppAdd.id appInfo;
           AadAppAdd.tenantId := AadAppAdd.tenantId appInfo;
           AadAppAdd.secret := Some (AadAppAdd.value secret);
           AadAppAdd.secrets :=
             Some [{| AadAppAdd.displayName := AadAppAdd.displayName secret;
                      AadAppAdd.value := AadAppAdd.value secret |}] |}.

End Secret.

End AadAppAddCommand.

(** ** Sample data for the API resolution *)

Module ApiSamples.
Import Js Io AadAppAddCommand.

(** The service principal of Microsoft Graph, with one delegated
    permission and one application permission. *)
Definition graph : ServicePrincipalInfo :=
  {| sp_appId := "00000003-0000-0000-c000-000000000000";
     appRoles := [{| perm_id := "role-1"; perm_value := "Mail.Read" |}];
     sp_id := "sp-graph";
     oauth2PermissionScopes := [{| perm_id := "scope-1"; perm_value := "User.Read" |}];
     servicePrincipalNames := ["https://graph.microsoft.com"] |}.

(** [trim] on texts without surrounding blanks. *)
Definition trim (s : string) : string := s.

Definition userRead : string := "https://graph.microsoft.com/User.Read".

End ApiSamples.

(** * Properties *)

(** ** Strings *)

Lemma append_nil_r (s : string) : s +:+ "" = s.
Proof.
  induction s as [|a s IH]; [reflexivity|].
  change (String a (s +:+ "") = String a s). now rewrite IH.
Qed.

Lemma append_cons (a : ascii) (s t : string) :
  String a s +:+ t = String a (s +:+ t).
Proof. reflexivity. Qed.

Lemma append_assoc' (s t u : string) : (s +:+ t) +:+ u = s +:+ (t +:+ u).
Proof.
  induction s as [|a s IH]; [reflexivity|].
  rewrite !append_cons. now rewrite IH.
Qed.

Lemma startsWith_spec (s1 s2 : string) :
  Js.startsWith s1 s2 = true <-> exists t, s2 = s1 +:+ t.
Proof.
  revert s2. induction s1 as [|a s1 IH]; intros s2.
  - split; [intros _; now exists s2 | reflexivity].
  - destruct s2 as [|b s2]; simpl.
    + split; [discriminate | intros [t Ht]; discriminate].
    + rewrite andb_true_iff, IH. split.
      * intros [Hab [t ->]]. apply Ascii.eqb_eq in Hab as ->. now exists t.
      * intros [t Ht]. rewrite append_cons in Ht. injection Ht as -> ->.
        split; [apply Ascii.eqb_refl | now exists t].
Qed.

Lemma includes_spec (msg s : string) :
  Js.includes msg s = true <-> Js.Mentions msg s.
Proof.
  induction msg as [|c msg IH].
  - simpl. rewrite orb_false_r, startsWith_spec. split.
    + intros [t Ht]. now exists "", t.
    + intros [pre [post H]]. destruct pre as [|p pre]; [|discriminate].
      now exists post.
  - cbn [Js.includes]. rewrite orb_true_iff, IH, startsWith_spec. split.
    + intros [[t Ht] | [pre [post H]]].
      * now exists "", t.
      * exists (String c pre), post. rewrite append_cons. now rewrite H.
    + intros [pre [post H]]. destruct pre as [|p pre].
      * left. now exists post.
      * right. rewrite append_cons in H. injection H as -> H.
        now exists pre, post.
Qed.

Lemma includes_false (msg s : string) :
  Js.includes msg s = false -> ~ Js.Mentions msg s.
Proof.
  intros H M. apply includes_spec in M. congruence.
Qed.

Lemma Mentions_refl (s : string) : Js.Mentions s s.
Proof. exists "", "". simpl. now rewrite append_nil_r. Qed.

Lemma Mentions_app_l (pre msg s : string) :
  Js.Mentions msg s -> Js.Mentions (pre +:+ msg) s.
Proof.
  intros [a [b ->]]. exists (pre +:+ a), b. now rewrite append_assoc'.
Qed.

Lemma Mentions_app_r (msg post s : string) :
  Js.Mentions msg s -> Js.Mentions (msg +:+ post) s.
Proof.
  intros [a [b ->]]. exists a, (b +:+ post). now rewrite !append_assoc'.
Qed.

Lemma Mentions_join (sep x : string) (xs : list string) :
  x ∈ xs -> Js.Mentions (Js.join sep xs) x.
Proof.
  unfold Js.join. induction xs as [|y ys IH]; intros Hin.
  - inversion Hin.
  - destruct ys as [|z zs].
    + apply list_elem_of_singleton in Hin as ->. apply Mentions_refl.
    + cbn [String.concat]. apply elem_of_cons in Hin as [-> | Hin].
      * apply Mentions_app_r, Mentions_refl.
      * apply Mentions_app_l, Mentions_app_l. now apply IH.
Qed.

(** ** Option sets *)

Section OptionSets.
Import Js Framework.
Variable opts : Options.

Lemma countPresent_none (set : OptionSet) :
  NonePresent opts set -> countPresent opts set = 0.
Proof.
  intros Hnone. unfold countPresent.
  destruct (filter (present opts) set) as [|m l] eqn:E; [reflexivity|].
  assert (Hm : m ∈ filter (present opts) set) by (rewrite E; left).
  apply list_elem_of_filter in Hm as [Hp Hin]. now destruct (Hnone m Hin).
Qed.

Lemma countPresent_several (set : OptionSet) :
  SeveralPresent opts set -> 2 <= countPresent opts set.
Proof.
  intros (m1 & m2 & Hne & Hin1 & Hin2 & Hp1 & Hp2). unfold countPresent.
  assert (H1 : m1 ∈ filter (present opts) set) by now apply list_elem_of_filter.
  assert (H2 : m2 ∈ filter (present opts) set) by now apply list_elem_of_filter.
  destruct (filter (present opts) set) as [|a [|b l]]; simpl; [| |lia].
  - inversion H1.
  - apply list_elem_of_singleton in H1, H2. congruence.
Qed.

Lemma countPresent_one (set : OptionSet) :
  NoDup set -> ExactlyOnePresent opts set -> countPresent opts set = 1.
Proof.
  intros Hnd (m & Hin & Hp & Huniq). unfold countPresent.
  assert (Hm : m ∈ filter (present opts) set) by now apply list_elem_of_filter.
  assert (Hall : forall x, x ∈ filter (present opts) set -> x = m).
  { intros x Hx. apply list_elem_of_filter in Hx as [? ?]. now apply Huniq. }
  assert (Hnd' : NoDup (filter (present opts) set)) by now apply NoDup_filter.
  destruct (filter (present opts) set) as [|a [|b l]]; [inversion Hm|reflexivity|].
  exfalso. apply NoDup_cons in Hnd' as [Hnotin _]. apply Hnotin.
  rewrite (Hall a) by left. rewrite <- (Hall b) at 1 by (right; left). left.
Qed.

Lemma countPresent_one_inv (set : OptionSet) :
  countPresent opts set = 1 -> ExactlyOnePresent opts set.
Proof.
  unfold countPresent. intros Hlen.
  destruct (filter (present opts) set) as [|a [|b l]] eqn:E; try discriminate.
  assert (Ha : a ∈ filter (present opts) set) by (rewrite E; left).
  apply list_elem_of_filter in Ha as [Hp Hin].
  exists a. repeat split; [assumption..|].
  intros m' Hin' Hp'.
  assert (Hm : m' ∈ filter (present opts) set) by now apply list_elem_of_filter.
  rewrite E in Hm. now apply list_elem_of_singleton in Hm.
Qed.

Lemma checkOptionSet_pass (set : OptionSet) :
  checkOptionSet opts set = Pass <-> countPresent opts set = 1.
Proof.
  unfold checkOptionSet.
  destruct (countPresent opts set) as [|[|n]]; split; intros; try discriminate; try reflexivity.
Qed.

Lemma checkOptionSet_fail_names (set : OptionSet) (msg : string) :
  checkOptionSet opts set = Fail msg -> forall m, m ∈ set -> Mentions msg m.
Proof.
  unfold checkOptionSet. intros H m Hin.
  destruct (countPresent opts set) as [|[|n]]; try discriminate;
    injection H as <-.
  - apply Mentions_app_l. now apply Mentions_join.
  - apply Mentions_app_l, Mentions_app_r. now apply Mentions_join.
Qed.

Lemma enforceOptionSets_pass (sets : list OptionSet) :
  enforceOptionSets opts sets = Pass
  <-> forall set, set ∈ sets -> checkOptionSet opts set = Pass.
Proof.
  induction sets as [|s rest IH]; simpl.
  - split; [intros _ set Hin; inversion Hin | reflexivity].
  - destruct (checkOptionSet opts s) eqn:E.
    + rewrite IH. split.
      * intros H set Hin. apply elem_of_cons in Hin as [-> | Hin]; auto.
      * intros H set Hin. apply H. now right.
    + split; [discriminate|]. intros H. specialize (H s). rewrite E in H.
      apply H. left.
Qed.

Lemma enforceOptionSets_fail (sets : list OptionSet) (msg : string) :
  enforceOptionSets opts sets = Fail msg
  -> exists set, set ∈ sets /\ checkOptionSet opts set = Fail msg.
Proof.
  induction sets as [|s rest IH]; simpl; [discriminate|].
  destruct (checkOptionSet opts s) eqn:E.
  - intros H. destruct (IH H) as (set & Hin & Hc). exists set. split; [now right|assumption].
  - intros [= <-]. exists s. split; [left|assumption].
Qed.

End OptionSets.

(** The two option sets of [teams channel get], on concrete arguments. *)
Example channel_get_sets_pass :
  Framework.enforceOptionSets
    (<["teamId" := Js.VStr "t"]> (<["channelName" := Js.VStr "General"]> ∅))
    TeamsChannelGet.optionSets = Framework.Pass.
Proof. vm_compute. reflexivity. Qed.

Example channel_get_sets_none :
  Framework.enforceOptionSets
    (<["teamId" := Js.VStr "t"]> ∅) TeamsChannelGet.optionSets
  = Framework.Fail "Specify one of: channelId, channelName, primary".
Proof. vm_compute. reflexivity. Qed.

Example channel_get_sets_several :
  Framework.enforceOptionSets
    (<["teamId" := Js.VStr "t"]> (<["teamName" := Js.VStr "n"]>
       (<["primary" := Js.VBool true]> ∅))) TeamsChannelGet.optionSets
  = Framework.Fail "Specify one of teamId, teamName but not multiple".
Proof. vm_compute. reflexivity. Qed.

(** C1. Option-set enforcement. For every list of option sets of a command
    (each listing its members once) and every set in it: when none of the
    set's members is present in the resolved options, or more than one is,
    the check of the set fails with a message that names every member of the
    set, and the enforcement of the whole descriptor fails with the message
    of one of its failing sets; when exactly one member is present the check
    of the set passes. The sets are checked independently: the enforcement
    passes exactly when every set has exactly one member present. *)
Theorem option_set_enforcement (opts : Js.Options) (sets : list Framework.OptionSet) :
  Forall NoDup sets ->
  (forall set, set ∈ sets ->
     (Framework.NonePresent opts set \/ Framework.SeveralPresent opts set ->
        (exists msg, Framework.checkOptionSet opts set = Framework.Fail msg
                     /\ forall m, m ∈ set -> Js.Mentions msg m)
        /\ (exists set' msg', set' ∈ sets
              /\ Framework.enforceOptionSets opts sets = Framework.Fail msg'
              /\ Framework.checkOptionSet opts set' = Framework.Fail msg'
              /\ forall m, m ∈ set' -> Js.Mentions msg' m))
     /\ (Framework.ExactlyOnePresent opts set ->
         Framework.checkOptionSet opts set = Framework.Pass))
  /\ (Framework.enforceOptionSets opts sets = Framework.Pass
      <-> forall set, set ∈ sets -> Framework.ExactlyOnePresent opts set).
Proof.
  intros Hnd. rewrite Forall_forall in Hnd. split.
  - intros set Hin. split.
    + intros Hbad.
      assert (Hcount : Framework.countPresent opts set <> 1).
      { destruct Hbad as [H | H].
        - apply countPresent_none in H. lia.
        - apply countPresent_several in H. lia. }
      assert (Hfail : exists msg, Framework.checkOptionSet opts set = Framework.Fail msg).
      { destruct (Framework.checkOptionSet opts set) as [|msg] eqn:E; [|now exists msg].
        apply checkOptionSet_pass in E. contradiction. }
      destruct Hfail as [msg Hmsg]. split.
      * exists msg. split; [assumption|]. now apply (checkOptionSet_fail_names opts set).
      * destruct (Framework.enforceOptionSets opts sets) as [|msg'] eqn:E.
        -- rewrite enforceOptionSets_pass in E. rewrite (E set Hin) in Hmsg. discriminate.
        -- destruct (enforceOptionSets_fail _ _ _ E) as (set' & Hin' & Hc).
           exists set', msg'. repeat split; try assumption.
           now apply (checkOptionSet_fail_names opts set').
    + intros Hone. apply checkOptionSet_pass, countPresent_one; auto.
  - rewrite enforceOptionSets_pass. split.
    + intros H set Hin. apply countPresent_one_inv, checkOptionSet_pass. auto.
    + intros H set Hin. apply checkOptionSet_pass, countPresent_one; auto.
Qed.

Lemma option_set_enforcement_witness :
  Forall NoDup TeamsChannelGet.optionSets
  /\ (Framework.enforceOptionSets
        (<["teamId" := Js.VStr "t"]> (<["channelName" := Js.VStr "General"]> ∅))
        TeamsChannelGet.optionSets = Framework.Pass
      <-> forall set, set ∈ TeamsChannelGet.optionSets ->
            Framework.ExactlyOnePresent
              (<["teamId" := Js.VStr "t"]> (<["channelName" := Js.VStr "General"]> ∅)) set).
Proof.
  assert (H : Forall NoDup TeamsChannelGet.optionSets).
  { apply (bool_decide_unpack _). vm_compute. exact I. }
  split; [exact H|].
  apply (option_set_enforcement
           (<["teamId" := Js.VStr "t"]> (<["channelName" := Js.VStr "General"]> ∅))
           TeamsChannelGet.optionSets H).
Defined.

(** ** The validation pipeline *)

Section PipelineProperties.
Import Js Framework.
Context {T R : Type}.
Implicit Types (vs pre post : list (@Validator T)) (v : @Validator T).

Lemma runValidators_pass_ran vs k opts (st st' : T) ran :
  runValidators vs k opts st = (Pass, st', ran) ->
  ran = map RanValidator (seq k (length vs)).
Proof.
  revert k st ran. induction vs as [|v vs IH]; intros k st ran; simpl.
  - now intros [= _ <-].
  - destruct (v opts st) as [[|m] st1]; [|discriminate].
    destruct (runValidators vs (S k) opts st1) as [[r st2] ran2] eqn:E.
    intros [= -> -> <-]. now rewrite (IH _ _ _ E).
Qed.

Lemma runValidators_first_failure pre v post k opts (st st' st'' : T) ran msg :
  runValidators pre k opts st = (Pass, st', ran) ->
  v opts st' = (Fail msg, st'') ->
  runValidators (pre ++ v :: post) k opts st
  = (Fail msg, st'', map RanValidator (seq k (S (length pre)))).
Proof.
  revert k st ran. induction pre as [|u pre IH]; intros k st ran; simpl.
  - intros [= <- _] Hv. now rewrite Hv.
  - destruct (u opts st) as [[|m] st1]; [|discriminate].
    destruct (runValidators pre (S k) opts st1) as [[r st2] ran2] eqn:E.
    intros [= -> -> <-] Hv. now rewrite (IH _ _ _ E Hv).
Qed.

(** Every run of the pipeline is of one of the two kinds: all validators
    pass, or there is a first one that fails. *)
Lemma runValidators_cases vs k opts (st : T) :
  (exists st' ran, runValidators vs k opts st = (Pass, st', ran))
  \/ (exists pre v post st' ran st'' msg,
        vs = pre ++ v :: post
        /\ runValidators pre k opts st = (Pass, st', ran)
        /\ v opts st' = (Fail msg, st'')).
Proof.
  revert k st. induction vs as [|v vs IH]; intros k st.
  - left. now exists st, [].
  - destruct (v opts st) as [[|m] st1] eqn:Ev.
    + destruct (IH (S k) st1) as [(st' & ran & H) | (pre & u & post & st' & ran & st'' & msg & -> & Hpre & Hu)].
      * left. exists st', (RanValidator k :: ran). simpl. now rewrite Ev, H.
      * right. exists (v :: pre), u, post, st', (RanValidator k :: ran), st'', msg.
        repeat split; [|assumption]. simpl. now rewrite Ev, Hpre.
    + right. exists [], v, vs, st, [], st1, m. now repeat split.
Qed.

Lemma RanValidator_elem_of (j k n : nat) :
  RanValidator j ∈ map RanValidator (seq k n) <-> k <= j < k + n.
Proof.
  rewrite list_elem_of_fmap. split.
  - intros (i & [= ->] & Hi). now apply elem_of_seq in Hi.
  - intros H. exists j. split; [reflexivity|]. now apply elem_of_seq.
Qed.

Lemma RanAction_not_elem_of (k n : nat) :
  RanAction ∉ map RanValidator (seq k n).
Proof. rewrite list_elem_of_fmap. now intros (i & [=] & _). Qed.

End PipelineProperties.

(** C2. The validation pipeline. Take a command whose option sets pass and
    whose validators are [pre ++ v :: post], where every validator of [pre]
    passes and [v], run on the state they leave, is the first to return a
    failure string [msg]. Then the validators of [pre] and [v] ran, one after
    the other in registration order, no validator of [post] ran, the action
    did not run, and the invocation fails with exactly [msg]. When every
    validator passes (the command whose validators are [pre]), all of them
    ran in order and then the action ran, on the state the validators left. *)
Theorem validators_run_in_order {T R : Type} (sets : list Framework.OptionSet)
    (pre post : list (@Framework.Validator T)) (v : @Framework.Validator T)
    (action : Js.Options -> T -> @Framework.Outcome R)
    (opts : Js.Options) (st st' st'' : T) (ran : list Framework.Stage) (msg : string) :
  Framework.enforceOptionSets opts sets = Framework.Pass ->
  Framework.runValidators pre 0 opts st = (Framework.Pass, st', ran) ->
  v opts st' = (Framework.Fail msg, st'') ->
  Framework.execute sets (pre ++ v :: post) action opts st
  = (Framework.Failure msg, map Framework.RanValidator (seq 0 (S (length pre))))
  /\ (forall j, Framework.RanValidator j
                ∈ snd (Framework.execute sets (pre ++ v :: post) action opts st)
                <-> j <= length pre)
  /\ (Framework.RanAction
      ∉ snd (Framework.execute sets (pre ++ v :: post) action opts st))
  /\ Framework.execute sets pre action opts st
     = (action opts st', map Framework.RanValidator (seq 0 (length pre))
                         ++ [Framework.RanAction]).
Proof.
  intros Hsets Hpre Hv.
  assert (E : Framework.execute sets (pre ++ v :: post) action opts st
              = (Framework.Failure msg,
                 map Framework.RanValidator (seq 0 (S (length pre))))).
  { unfold Framework.execute. rewrite Hsets.
    now rewrite (runValidators_first_failure pre v post 0 opts st st' st'' ran msg Hpre Hv). }
  rewrite E. cbn [snd]. repeat split.
  - intros H. apply RanValidator_elem_of in H. lia.
  - intros H. apply RanValidator_elem_of. lia.
  - apply RanAction_not_elem_of.
  - unfold Framework.execute. rewrite Hsets, Hpre.
    now rewrite (runValidators_pass_ran pre 0 opts st st' ran Hpre).
Qed.

Lemma validators_run_in_order_witness :
  Framework.execute (R := unit) AadSpGet.optionSets
    ([fun _ (n : nat) => (Framework.Pass, S n)]
     ++ ((fun opts n => (Framework.Fail (Js.tmpl (opts !! "appId") +:+ " is not a valid appId GUID"), n))
         :: [fun _ n => (Framework.Pass, S n)]))
    (fun _ _ => Framework.Success tt)
    (<["appId" := Js.VStr "x"]> ∅) 0
  = (Framework.Failure "x is not a valid appId GUID",
     [Framework.RanValidator 0; Framework.RanValidator 1]).
Proof.
  apply (validators_run_in_order (R := unit) AadSpGet.optionSets
           [fun _ (n : nat) => (Framework.Pass, S n)]
           [fun _ n => (Framework.Pass, S n)]
           (fun opts n => (Framework.Fail (Js.tmpl (opts !! "appId") +:+ " is not a valid appId GUID"), n))
           (fun _ _ => Framework.Success tt)
           (<["appId" := Js.VStr "x"]> ∅) 0 1 1
           [Framework.RanValidator 0] "x is not a valid appId GUID").
  - vm_compute. reflexivity.
  - reflexivity.
  - reflexivity.
Defined.

(** ** The confirmation gate of [teams team remove] *)

Section TeamRemove.
Import Js Io TeamsTeamRemove.
Context {P : Type}.
Variable env : Env.
Variable getGroupByDisplayName : option Value -> Result Group.
Variable deleted : string -> Result unit.
Variable answer : PromptOptions -> bool.

Local Abbreviation getTeamId := (getTeamId (P := P) getGroupByDisplayName).
Local Abbreviation removeTeam := (removeTeam (P := P) env getGroupByDisplayName deleted).
Local Abbreviation commandAction :=
  (commandAction (P := P) env getGroupByDisplayName deleted answer).
Local Abbreviation deleteUrl := (deleteUrl env).

(** The options [commandAction] works on after the deprecated [teamId] has
    been adopted as [id]. *)
Lemma adoptTeamId_confirm (args : Options) :
  adoptTeamId args !! "confirm" = args !! "confirm".
Proof.
  unfold adoptTeamId. destruct (args !! "teamId"); [|reflexivity].
  now rewrite lookup_insert_ne.
Qed.

(** One run of the action [removeTeam], in terms of what it is given: the
    options, the group the directory finds and the answer of the service to
    the DELETE request. *)
Lemma removeTeam_run (opts : Options) (w : World P) :
  let target : Result string :=
    if truthy (opts !! "id") then Ok (tmpl (opts !! "id"))
    else match getGroupByDisplayName (opts !! "name") with
         | Ok group =>
             if bool_decide ("Team" ∈ resourceProvisioningOptions group) then Ok (id group)
             else Err (RString "The specified team does not exist in the Microsoft Teams")
         | Err r => Err r
         end in
  let looked : list (Event P) :=
    if truthy (opts !! "id") then [] else [Lookup (tmpl (opts !! "name"))] in
  removeTeam opts w
  = match target with
    | Ok teamId =>
        (match deleted (deleteUrl teamId) with
         | Ok _ => Ok tt
         | Err r => Err (CommandError (extractMessage env r))
         end,
         {| fs := fs w;
            trace := trace w ++ looked ++ [Http DELETE (deleteUrl teamId) []] |})
    | Err r =>
        (Err (CommandError (extractMessage env r)),
         {| fs := fs w; trace := trace w ++ looked |})
    end.
Proof.
  unfold TeamsTeamRemove.removeTeam, TeamsTeamRemove.getTeamId, try_catch, bind,
    handleRejectedODataJsonPromise, request, await, throw, emit, ret,
    TeamsTeamRemove.deleteUrl.
  destruct (truthy (opts !! "id")); cbn.
  - destruct (deleted _) as [[]|r]; reflexivity.
  - destruct (getGroupByDisplayName (opts !! "name")) as [group|r]; cbn; [|reflexivity].
    destruct (decide ("Team" ∈ resourceProvisioningOptions group)) as [Hin|Hnot].
    + rewrite (bool_decide_eq_false_2 ("Team" ∉ resourceProvisioningOptions group))
        by (intros H; now apply H).
      rewrite (bool_decide_eq_true_2 _ Hin). cbn.
      destruct (deleted _) as [[]|r]; cbn; now rewrite <- app_assoc.
    + rewrite (bool_decide_eq_true_2 ("Team" ∉ resourceProvisioningOptions group) Hnot).
      rewrite (bool_decide_eq_false_2 _ Hnot). reflexivity.
Qed.

(** C3. The confirmation gate of [teams team remove], for every arguments
    map, every answer of the user and every behaviour of the directory and
    of the service. The team to remove is the one given by [id] (or by the
    deprecated [teamId]), or else the group the directory finds by [name],
    provided it is a team.
    Without the [confirm] flag exactly one confirmation request is issued,
    of type [confirm] with default answer [false]; when the answer is
    negative nothing else happens: the trace holds the deprecation warning
    (if [teamId] was used) and the prompt only, so no lookup and no DELETE
    request is made, nothing is printed on the result channel and the
    invocation ends without error. With the [confirm] flag no confirmation
    request is issued. With the flag, and after a positive answer, the
    removing action runs once: when there is a team to remove, exactly one
    DELETE request is sent, for that team, after the prompt if there was
    one, and the invocation ends as the service answers it; when there is
    none, no DELETE request is sent and the invocation fails. *)
Theorem confirmation_gate (args : Options) (f : Fs) :
  let opts := if truthy (args !! "teamId") then adoptTeamId args else args in
  let warned : list (Event P) :=
    if truthy (args !! "teamId")
    then [Warn "Option 'teamId' is deprecated. Please use 'id' instead."] else [] in
  let run := commandAction args {| fs := f; trace := [] |} in
  let target : Result string :=
    if truthy (opts !! "id") then Ok (tmpl (opts !! "id"))
    else match getGroupByDisplayName (opts !! "name") with
         | Ok group =>
             if bool_decide ("Team" ∈ resourceProvisioningOptions group) then Ok (id group)
             else Err (RString "The specified team does not exist in the Microsoft Teams")
         | Err r => Err r
         end in
  let looked : list (Event P) :=
    if truthy (opts !! "id") then [] else [Lookup (tmpl (opts !! "name"))] in
  let removed (asked : list (Event P)) : Prop :=
    match target with
    | Ok teamId =>
        trace (snd run) = warned ++ asked ++ looked ++ [Http DELETE (deleteUrl teamId) []]
        /\ requests DELETE (trace (snd run)) = [deleteUrl teamId]
        /\ fst run = match deleted (deleteUrl teamId) with
                     | Ok _ => Ok tt
                     | Err r => Err (CommandError (extractMessage env r))
                     end
    | Err r =>
        trace (snd run) = warned ++ asked ++ looked
        /\ requests DELETE (trace (snd run)) = []
        /\ fst run = Err (CommandError (extractMessage env r))
    end
    /\ stdout (trace (snd run)) = []
    /\ fs (snd run) = f in
  if truthy (args !! "confirm") then
    prompts (trace (snd run)) = [] /\ removed []
  else
    prompts (trace (snd run)) = [confirmation opts]
    /\ prompt_type (confirmation opts) = "confirm"
    /\ prompt_default (confirmation opts) = false
    /\ if answer (confirmation opts) then removed [Prompt (confirmation opts)]
       else
         fst run = Ok tt
         /\ exitCode (fst run) = 0
         /\ trace (snd run) = warned ++ [Prompt (confirmation opts)]
         /\ requests DELETE (trace (snd run)) = []
         /\ stdout (trace (snd run)) = []
         /\ fs (snd run) = f.
Proof.
  intros opts warned run target looked removed.
  assert (Hconfirm : opts !! "confirm" = args !! "confirm").
  { subst opts. destruct (truthy (args !! "teamId")); [apply adoptTeamId_confirm|reflexivity]. }
  assert (Hrun : run = (if truthy (opts !! "confirm")
                        then removeTeam opts {| fs := f; trace := warned |}
                        else if answer (confirmation opts)
                             then removeTeam opts
                                    {| fs := f; trace := warned ++ [Prompt (confirmation opts)] |}
                             else (Ok tt, {| fs := f;
                                             trace := warned ++ [Prompt (confirmation opts)] |}))).
  { subst run warned opts. unfold TeamsTeamRemove.commandAction, bind, emit, ret.
    destruct (truthy (args !! "teamId")); cbn;
      destruct (truthy (_ !! "confirm")); try reflexivity;
      destruct (answer _); reflexivity. }
  rewrite Hconfirm in Hrun.
  assert (Hwarned : prompts warned = [] /\ requests DELETE warned = [] /\ stdout warned = []).
  { subst warned. now destruct (truthy (args !! "teamId")). }
  destruct Hwarned as (Hwp & Hwd & Hwo).
  assert (Hlooked : prompts looked = [] /\ requests DELETE looked = [] /\ stdout looked = []).
  { subst looked. now destruct (truthy (opts !! "id")). }
  destruct Hlooked as (Hlp & Hld & Hlo).
  assert (Hremoved : forall asked,
             requests DELETE asked = [] -> stdout asked = [] ->
             run = removeTeam opts {| fs := f; trace := warned ++ asked |} ->
             prompts (trace (snd run)) = prompts asked /\ removed asked).
  { intros asked Had Hao Heq. subst removed. cbv beta. rewrite Heq, removeTeam_run.
    fold target. fold looked. cbn [fs trace].
    destruct target as [teamId|r]; cbn [fst snd fs trace];
      unfold prompts, requests, stdout in *; rewrite <- ?app_assoc, !omap_app;
      rewrite ?Hwp, ?Hwd, ?Hwo, ?Hlp, ?Hld, ?Hlo, ?Had, ?Hao; cbn;
      rewrite ?app_nil_r; repeat split; reflexivity. }
  destruct (truthy (args !! "confirm")).
  - destruct (Hremoved []) as [Hp Hr]; [reflexivity|reflexivity|now rewrite app_nil_r|].
    split; [exact Hp|exact Hr].
  - destruct (answer (confirmation opts)).
    + destruct (Hremoved [Prompt (confirmation opts)]) as [Hp Hr];
        [reflexivity|reflexivity|assumption|].
      split; [exact Hp|]. split; [reflexivity|]. split; [reflexivity|exact Hr].
    + rewrite Hrun. cbn [fst snd trace fs exitCode]. unfold prompts, requests, stdout in *.
      rewrite !omap_app, ?Hwp, ?Hwd, ?Hwo. now cbn.
Qed.

End TeamRemove.

(** ** Lookups by identifier or name *)

Section Lookups.
Import Js Io.
Variable env : Env.

(** A rejected lookup fails [aad app get] with the normalised rejection,
    before anything else is requested or printed. *)
Lemma app_get_lookup_rejected codec applications application opts
    (w w' : World AadAppGet.Application) (r : Reason) :
  AadAppGet.getAppObjectId env applications opts w = (Err r, w') ->
  AadAppGet.commandAction env codec applications application opts w
  = (Err (CommandError (extractMessage env r)), w').
Proof.
  intros H. unfold AadAppGet.commandAction, try_catch, bind. now rewrite H.
Qed.

(** [aad app get]: what the lookup does with the matches it is given. *)
Lemma app_get_lookup applications opts (w : World AadAppGet.Application) value :
  truthy (opts !! "objectId") = false ->
  applications (AadAppGet.lookupUrl env opts) = Ok value ->
  AadAppGet.getAppObjectId env applications opts w
  = (match value with
     | [only] => Ok only
     | [] => Err (RString ("No Azure AD application registration with "
                           +:+ (if truthy (opts !! "appId")
                                then "ID " +:+ tmpl (opts !! "appId")
                                else "name " +:+ tmpl (opts !! "name"))
                           +:+ " found"))
     | _ => Err (RString ("Multiple Azure AD application registration with name "
                          +:+ tmpl (opts !! "name")
                          +:+ " found. Please disambiguate (app object IDs): "
                          +:+ join ", " value))
     end,
     {| fs := fs w; trace := trace w ++ [Http GET (AadAppGet.lookupUrl env opts) []] |}).
Proof.
  intros Hobj Hval. unfold AadAppGet.getAppObjectId, request, bind, emit, await.
  rewrite Hobj, Hval. cbn. now destruct value as [|a [|b l]].
Qed.

(** [aad sp get]: what the lookup does with the matches it is given. *)
Lemma sp_get_lookup {P} servicePrincipals opts (w : World P) value :
  truthy (opts !! "objectId") = false ->
  servicePrincipals (AadSpGet.lookupUrl env opts) = Ok value ->
  AadSpGet.getSpId env servicePrincipals opts w
  = (match value with
     | [] => Err (RString "The specified Azure AD app does not exist")
     | [only] => Ok only
     | _ => Err (RString ("Multiple Azure AD apps with name "
                          +:+ tmpl (opts !! "displayName")
                          +:+ " found: " +:+ join "," value))
     end,
     {| fs := fs w; trace := trace w ++ [Http GET (AadSpGet.lookupUrl env opts) []] |}).
Proof.
  intros Hobj Hval. unfold AadSpGet.getSpId, request, bind, emit, await.
  rewrite Hobj, Hval. cbn. now destruct value as [|a [|b l]].
Qed.

(** [teams channel get]: what the lookup does with the matches it is
    given. *)
Lemma channel_get_lookup {P} teamId channels opts (w : World P) value :
  truthy (opts !! "channelId") = false ->
  truthy (opts !! "primary") = false ->
  channels (TeamsChannelGet.lookupUrl env teamId opts) = Ok value ->
  TeamsChannelGet.getChannelId env teamId channels opts w
  = (match value with
     | [] => Err (RString "The specified channel does not exist in the Microsoft Teams team")
     | channelItem :: _ => Ok channelItem
     end,
     {| fs := fs w;
        trace := trace w ++ [Http GET (TeamsChannelGet.lookupUrl env teamId opts) []] |}).
Proof.
  intros Hid Hprimary Hval. unfold TeamsChannelGet.getChannelId, request, bind, emit, await.
  rewrite Hid, Hprimary, Hval. cbn. now destruct value.
Qed.

End Lookups.

(** C4, as stated, fails: with [displayName] "Contoso" and no match,
    [aad sp get] rejects with a fixed message that does not mention
    "Contoso". *)
Lemma lookup_not_found_without_identifier :
  exists msg,
    fst (AadSpGet.getSpId (P := unit) Samples.env (fun _ => Io.Ok [])
           (<["displayName" := Js.VStr "Contoso"]> ∅) (Samples.start Samples.noFiles))
    = Io.Err (Io.RString msg)
    /\ ~ Js.Mentions msg "Contoso".
Proof.
  eexists. split; [vm_compute; reflexivity|].
  apply includes_false. vm_compute. reflexivity.
Qed.

(** C4, amended. A lookup that returns no match fails the invocation. For
    [aad app get] the message of the failure contains the appId or the name
    the lookup was made with, and the invocation fails with that message
    (as normalised) right after the lookup request. For [aad sp get] the
    message is a fixed text. *)
Theorem lookup_not_found (env : Io.Env) (codec : M365Rc.Codec)
    (applications : string -> Io.Result (list string))
    (application : string -> Io.Result AadAppGet.Application)
    (servicePrincipals : string -> Io.Result (list string))
    (optsApp optsSp : Js.Options) (f : Io.Fs) :
  Js.truthy (optsApp !! "objectId") = false ->
  applications (AadAppGet.lookupUrl env optsApp) = Io.Ok [] ->
  Js.truthy (optsSp !! "objectId") = false ->
  servicePrincipals (AadSpGet.lookupUrl env optsSp) = Io.Ok [] ->
  (exists msg,
     fst (AadAppGet.getAppObjectId env applications optsApp (Samples.start f))
     = Io.Err (Io.RString msg)
     /\ Js.Mentions msg (AadAppGet.lookedUp optsApp)
     /\ AadAppGet.commandAction env codec applications application optsApp (Samples.start f)
        = (Io.Err (Io.CommandError (Io.extractMessage env (Io.RString msg))),
           {| Io.fs := f;
              Io.trace := [Io.Http Io.GET (AadAppGet.lookupUrl env optsApp) []] |}))
  /\ fst (AadSpGet.getSpId (P := unit) env servicePrincipals optsSp (Samples.start f))
     = Io.Err (Io.RString "The specified Azure AD app does not exist").
Proof.
  intros HobjA HvalA HobjS HvalS. split.
  - pose proof (app_get_lookup env applications optsApp (Samples.start f) [] HobjA HvalA) as H.
    eexists. split; [now rewrite H|]. split.
    + unfold AadAppGet.lookedUp. apply Mentions_app_l, Mentions_app_r.
      destruct (Js.truthy (optsApp !! "appId")); apply Mentions_app_l, Mentions_refl.
    + now apply app_get_lookup_rejected.
  - now rewrite (sp_get_lookup env servicePrincipals optsSp (Samples.start f) [] HobjS HvalS).
Qed.

Lemma lookup_not_found_witness :
  exists msg,
    fst (AadAppGet.getAppObjectId Samples.env (fun _ => Io.Ok [])
           (<["name" := Js.VStr "Contoso"]> ∅) (Samples.start Samples.noFiles))
    = Io.Err (Io.RString msg)
    /\ Js.Mentions msg "Contoso".
Proof.
  assert (HobjA : Js.truthy ((<["name" := Js.VStr "Contoso"]> ∅ : Js.Options) !! "objectId")
                  = false) by reflexivity.
  assert (HobjS : Js.truthy ((<["displayName" := Js.VStr "Contoso"]> ∅ : Js.Options)
                               !! "objectId") = false) by reflexivity.
  destruct (lookup_not_found Samples.env (Samples.codec []) (fun _ => Io.Ok [])
              (fun _ => Io.Err (Io.RString "unused")) (fun _ => Io.Ok [])
              (<["name" := Js.VStr "Contoso"]> ∅)
              (<["displayName" := Js.VStr "Contoso"]> ∅) Samples.noFiles
              HobjA eq_refl HobjS eq_refl) as ((msg & Hmsg & Hin & _) & _).
  exists msg. split; [exact Hmsg | exact Hin].
Defined.

(** C5, as stated, fails: for the two matches id1 and id2, the message of
    [aad app get] separates the identifiers by a comma and a space, so it
    does not contain "id1,id2". *)
Lemma lookup_ambiguous_not_as_stated :
  exists msg,
    fst (AadAppGet.getAppObjectId Samples.env (fun _ => Io.Ok ["id1"; "id2"])
           (<["name" := Js.VStr "Contoso"]> ∅) (Samples.start Samples.noFiles))
    = Io.Err (Io.RString msg)
    /\ ~ Js.Mentions msg "id1,id2".
Proof.
  eexists. split; [vm_compute; reflexivity|].
  apply includes_false. vm_compute. reflexivity.
Qed.

(** C5, amended. When the lookup of [aad sp get] or of [aad app get] returns
    more than one match, the invocation fails with a message that ends with
    the identifiers of all the matches in the order the service returned
    them, separated by a comma in [aad sp get] and by a comma and a space in
    [aad app get]. *)
Theorem lookup_ambiguous (env : Io.Env) (codec : M365Rc.Codec)
    (applications : string -> Io.Result (list string))
    (application : string -> Io.Result AadAppGet.Application)
    (servicePrincipals : string -> Io.Result (list string))
    (optsApp optsSp : Js.Options) (f : Io.Fs)
    (id1 id2 : string) (more : list string) :
  Js.truthy (optsApp !! "objectId") = false ->
  applications (AadAppGet.lookupUrl env optsApp) = Io.Ok (id1 :: id2 :: more) ->
  Js.truthy (optsSp !! "objectId") = false ->
  servicePrincipals (AadSpGet.lookupUrl env optsSp) = Io.Ok (id1 :: id2 :: more) ->
  (exists msg,
     fst (AadAppGet.getAppObjectId env applications optsApp (Samples.start f))
     = Io.Err (Io.RString msg)
     /\ (exists pre, msg = pre +:+ Js.join ", " (id1 :: id2 :: more))
     /\ AadAppGet.commandAction env codec applications application optsApp (Samples.start f)
        = (Io.Err (Io.CommandError (Io.extractMessage env (Io.RString msg))),
           {| Io.fs := f;
              Io.trace := [Io.Http Io.GET (AadAppGet.lookupUrl env optsApp) []] |}))
  /\ (exists msg,
        fst (AadSpGet.getSpId (P := unit) env servicePrincipals optsSp (Samples.start f))
        = Io.Err (Io.RString msg)
        /\ exists pre, msg = pre +:+ Js.join "," (id1 :: id2 :: more)).
Proof.
  intros HobjA HvalA HobjS HvalS. split.
  - pose proof (app_get_lookup env applications optsApp (Samples.start f) _ HobjA HvalA) as H.
    eexists. split; [now rewrite H|]. split.
    + eexists. rewrite <- !append_assoc'. reflexivity.
    + now apply app_get_lookup_rejected.
  - pose proof (sp_get_lookup env servicePrincipals optsSp (Samples.start (P := unit) f) _
                  HobjS HvalS) as H.
    eexists. split; [now rewrite H|].
    eexists. rewrite <- !append_assoc'. reflexivity.
Qed.

Lemma lookup_ambiguous_witness :
  exists msg,
    fst (AadSpGet.getSpId (P := unit) Samples.env (fun _ => Io.Ok ["id1"; "id2"])
           (<["displayName" := Js.VStr "Contoso"]> ∅) (Samples.start Samples.noFiles))
    = Io.Err (Io.RString msg)
    /\ exists pre, msg = pre +:+ Js.join "," ["id1"; "id2"].
Proof.
  refine (proj2
    (lookup_ambiguous Samples.env (Samples.codec []) (fun _ => Io.Ok ["id1"; "id2"])
       (fun _ => Io.Err (Io.RString "unused")) (fun _ => Io.Ok ["id1"; "id2"])
       (<["name" := Js.VStr "Contoso"]> ∅)
       (<["displayName" := Js.VStr "Contoso"]> ∅) Samples.noFiles "id1" "id2" []
       _ _ _ _)); reflexivity.
Defined.

(** The messages of the two lookups for the matches id1 and id2. *)
Example sp_get_ambiguous_message :
  fst (AadSpGet.getSpId (P := unit) Samples.env (fun _ => Io.Ok ["id1"; "id2"])
         (<["displayName" := Js.VStr "Contoso"]> ∅) (Samples.start Samples.noFiles))
  = Io.Err (Io.RString "Multiple Azure AD apps with name Contoso found: id1,id2").
Proof. vm_compute. reflexivity. Qed.

Example app_get_ambiguous_message :
  fst (AadAppGet.getAppObjectId Samples.env (fun _ => Io.Ok ["id1"; "id2"])
         (<["name" := Js.VStr "Contoso"]> ∅) (Samples.start Samples.noFiles))
  = Io.Err (Io.RString "Multiple Azure AD application registration with name Contoso found. Please disambiguate (app object IDs): id1, id2").
Proof. vm_compute. reflexivity. Qed.

(** ** The validator of [aad app add] *)

Section AppAddValidator.
Import Js Io Framework.
Variable JSON_parse : string -> Result Json.

(** The [try] block around the parsing of the manifest never lets a
    failure of [JSON.parse], or of reading the manifest's name, pass as a
    success. *)
Lemma parseManifest_error opts manifest e manifest' :
  AadAppAdd.parseManifest JSON_parse opts manifest = (Err e, manifest') ->
  JSON_parse (tmpl (opts !! "manifest")) = Err e
  \/ JSON_parse (tmpl (opts !! "manifest")) = Ok JNull.
Proof.
  unfold AadAppAdd.parseManifest.
  destruct (JSON_parse (tmpl (opts !! "manifest"))) as [j|e'].
  - destruct (negb (truthy (opts !! "name"))); [|discriminate].
    destruct j; cbn; try (destruct (negb _)); try discriminate. intros _. now right.
  - intros [= -> _]. now left.
Qed.

Lemma parseManifest_parse_error opts manifest e :
  JSON_parse (tmpl (opts !! "manifest")) = Err e ->
  AadAppAdd.parseManifest JSON_parse opts manifest = (Err e, manifest).
Proof. unfold AadAppAdd.parseManifest. now intros ->. Qed.

Lemma existsSync_missing (m : gmap string string) (path : string) :
  m !! path = None -> bool_decide (is_Some (m !! path)) = false.
Proof. intros ->. apply bool_decide_eq_false_2. now intros [? ?]. Qed.

(** C8. The validator of [aad app add] never raises: whatever the file
    system holds and whatever [JSON.parse] does with the manifest, it
    returns a verdict (and leaves the world as it was). When the
    certificate file is not there, and when the manifest cannot be parsed,
    the verdict is a failure string. *)
Theorem validator_never_raises (opts : Options) (manifest : option Json)
    (w : World AadAppAdd.Output) :
  exists verdict manifest',
    AadAppAdd.validator JSON_parse opts manifest w = (Ok (verdict, manifest'), w)
    /\ (truthy (opts !! "certificateFile") = true ->
        files (fs w) !! tmpl (opts !! "certificateFile") = None ->
        exists msg, verdict = Fail msg)
    /\ (truthy (opts !! "manifest") = true ->
        forall e, JSON_parse (tmpl (opts !! "manifest")) = Err e ->
        exists msg, verdict = Fail msg).
Proof.
  unfold AadAppAdd.validator.
  destruct (AadAppAdd.parseManifest JSON_parse opts manifest) as [r m'] eqn:Hp.
  assert (Hparse : forall e, JSON_parse (tmpl (opts !! "manifest")) = Err e ->
                             r = Err e).
  { intros e He. rewrite (parseManifest_parse_error _ _ _ He) in Hp. congruence. }
  destruct (bool_decide (is_Some (files (fs w) !! tmpl (opts !! "certificateFile"))))
    eqn:Hex.
  all: unfold bind, existsSync, ret.
  all: repeat match goal with
         | |- context [if ?c then _ else _] =>
             let E := fresh "E" in destruct c eqn:E; cbn
         end.
  all: try rewrite Hex; cbn.
  all: repeat match goal with
         | |- context [if ?c then _ else _] =>
             let E := fresh "E" in destruct c eqn:E; cbn
         end.
  all: try (destruct r as [[|msg]|e]).
  all: eexists _, _; (split; [reflexivity|]); split.
  all: try (intros _ Hnone; apply existsSync_missing in Hnone; congruence).
  all: try (intros _ e' He'; apply Hparse in He'; congruence).
  all: try (intros; discriminate).
  all: try (rewrite Hex in *; cbn in *; discriminate).
  all: eauto.
Qed.

End AppAddValidator.

(** The three ways the validator meets a failure of the outside world, on
    concrete arguments: a certificate file that is not there, a manifest
    that is not JSON, and a manifest that is [null]. *)
Example validator_missing_certificate :
  fst (AadAppAdd.validator (fun _ => Io.Err (Io.RError "SyntaxError" "Unexpected token"))
         (<["name" := Js.VStr "app"]> (<["certificateFile" := Js.VStr "cert.pem"]> ∅))
         None (Samples.start Samples.noFiles))
  = Io.Ok (Framework.Fail "Certificate file not found", None).
Proof. vm_compute. reflexivity. Qed.

Example validator_unparseable_manifest :
  fst (AadAppAdd.validator (fun _ => Io.Err (Io.RError "SyntaxError" "Unexpected token"))
         (<["manifest" := Js.VStr "{"]> ∅) None (Samples.start Samples.noFiles))
  = Io.Ok (Framework.Fail
             "Error while parsing the specified manifest: SyntaxError: Unexpected token",
           None).
Proof. vm_compute. reflexivity. Qed.

Example validator_null_manifest :
  fst (AadAppAdd.validator (fun _ => Io.Ok Js.JNull)
         (<["manifest" := Js.VStr "null"]> ∅) None (Samples.start Samples.noFiles))
  = Io.Ok (Framework.Fail
             "Error while parsing the specified manifest: TypeError: Cannot read properties of null (reading 'name')",
           Some Js.JNull).
Proof. vm_compute. reflexivity. Qed.

(** ** Saving the app registration to [.m365rc.json] *)

Section Save.
Import Js Io M365Rc.
Variable env : Env.
Variable codec : Codec.

(** The cases of the save step: the two logging switches, whether writing
    fails, what loading the file gives and what the document holds. *)
Ltac fs_cases f method id :=
  destruct (verbose env) eqn:Hverbose;
  destruct (debug env) eqn:Hdebug;
  destruct (writeError f) as [ew|] eqn:Hwrite;
  (destruct (files f !! filePath) as [contents|] eqn:Hfile;
   [ destruct (readError f) as [er|] eqn:Hread;
     [ | destruct (String.eqb contents "") eqn:Hempty;
         [ | destruct (parse codec contents) as [m|ep] eqn:Hparse;
             [ destruct (appsOf method m) as [items|ea] eqn:Happs;
               [ destruct (someAppId id items) as [[|]|es] eqn:Hsome | ] | ] ] ]
   | ]).

Ltac run_save Hsave Hverbose Hdebug Hfile Hread Hempty Hparse Happs Hsome Hwrite :=
  unfold AadAppGet.saveAppInfo, AadAppGet.loadRc, AadAppAdd.saveAppInfo, AadAppAdd.loadRc,
    try_catch, bind, when, existsSync, readFileSync, writeFileSync, await, emit, ret;
  cbn [fs trace fst snd];
  change AadAppGet.filePath with filePath; change AadAppAdd.filePath with filePath;
  repeat (progress (cbn; try rewrite Hsave; try rewrite Hverbose; try rewrite Hdebug;
                    try rewrite Hfile; try rewrite Hread; try rewrite Hempty;
                    try rewrite Hparse; try rewrite Happs; try rewrite Hsome;
                    try rewrite Hwrite)).

Ltac tidy :=
  repeat match goal with
    | H : is_Some _ |- _ => destruct H
    | H : _ ∧ _ |- _ => destruct H
    | H : _ ∨ _ |- _ => destruct H
    | H : ∃ _, _ |- _ => destruct H
    | H1 : ?x = _, H2 : ?x = _ |- _ => rewrite H1 in H2
    | H : Some _ = Some _ |- _ => injection H as H; try subst
    | H : Some _ = None |- _ => discriminate H
    | H : None = Some _ |- _ => discriminate H
    | H : Ok _ = Ok _ |- _ => injection H as H; try subst
    | H : Err _ = Err _ |- _ => injection H as H; try subst
    | H : Ok _ = Err _ |- _ => discriminate H
    | H : Err _ = Ok _ |- _ => discriminate H
    | H : true = false |- _ => discriminate H
    | H : false = true |- _ => discriminate H
    | H : (?c =? "") = true |- _ => apply String.eqb_eq in H; try subst
    | H : ("" =? "") = false |- _ => discriminate H
    | H : ?a <> ?a |- _ => destruct (H eq_refl)
    end.

Ltac member :=
  cbn; unfold readWarning, writeWarning; apply list_elem_of_In; cbn; tauto.

Ltac fs_eq :=
  unfold written;
  repeat match goal with
    | H : readError _ = _ |- _ => rewrite H
    | H : writeError _ = _ |- _ => rewrite H
    end; reflexivity.

(** What the save step of [aad app get] does, for every state of the file
    system. It prints nothing on the result channel and sends no request,
    and
    - when reading or parsing fails, it warns, writes nothing and returns
      the app registration;
    - when the document could be loaded, it throws what [m365rc.apps],
      [.some] or its callback throw, having written nothing; it writes
      nothing when the array holds the appId; and otherwise it writes the
      document back with the new record pushed, warns when that write
      fails, and returns the app registration. *)
Lemma app_get_save_spec opts appInfo (f : Fs) :
  truthy (opts !! "save") = true ->
  exists r evs f',
    (forall tr, AadAppGet.saveAppInfo env codec opts appInfo {| fs := f; trace := tr |}
                = (r, {| fs := f'; trace := tr ++ evs |}))
    /\ stdout evs = [] /\ Telemetry.sentRequests evs = []
    /\ (forall e, ReadFails f e \/ ParseFails codec f e ->
          r = Ok appInfo /\ readWarning e ∈ stderr evs /\ f' = f /\ writes evs = [])
    /\ (forall m365rc, Loaded codec f m365rc ->
          match appsOf "some" m365rc with
          | Err e => r = Err e /\ f' = f /\ writes evs = []
          | Ok items =>
              match someAppId (AadAppGet.appId appInfo) items with
              | Err e => r = Err e /\ f' = f /\ writes evs = []
              | Ok true => r = Ok appInfo /\ f' = f /\ writes evs = []
              | Ok false =>
                  let text := stringify codec (appended m365rc items (AadAppGet.appId appInfo)
                                                 (AadAppGet.displayName appInfo)) in
                  r = Ok appInfo
                  /\ writes evs = [(filePath, text)]
                  /\ match writeError f with
                     | Some e => writeWarning e ∈ stderr evs /\ f' = f
                     | None => f' = written f text
                     end
              end
          end)
    /\ (f' = f \/ exists text, writes evs = [(filePath, text)] /\ f' = written f text)
    /\ match r with
       | Ok a => a = appInfo
       | Err e =>
           f' = f /\ writes evs = []
           /\ exists m365rc,
                Loaded codec f m365rc
                /\ (appsOf "some" m365rc = Err e
                    \/ exists items, appsOf "some" m365rc = Ok items
                                     /\ someAppId (AadAppGet.appId appInfo) items = Err e)
       end.
Proof.
  intros Hsave.
  fs_cases f "some" (AadAppGet.appId appInfo).
  all: eexists _, _, _; split;
    [intros tr; run_save Hsave Hverbose Hdebug Hfile Hread Hempty Hparse Happs Hsome Hwrite;
     rewrite <- ?app_assoc; cbn;
     first [reflexivity
           | match goal with
             | |- (?r, _) = _ =>
                 transitivity (r, {| fs := f; trace := tr ++ [] |});
                 [now rewrite app_nil_r | reflexivity]
             end]|].
  all: split; [reflexivity|].
  all: split; [reflexivity|].
  all: split; [solve [intros e [Hf | Hf]; unfold ReadFails, ParseFails in Hf; tidy;
                      try (split; [reflexivity|split; [member | split; reflexivity]])]|].
  all: split; [solve [intros m365rc Hl; unfold Loaded in Hl; tidy; subst; cbn;
                      unfold appended; rewrite ?Happs, ?Hsome, ?Hwrite; cbn;
                      repeat split; try reflexivity; try member; try fs_eq]|].
  all: split; [first [left; reflexivity | right; eexists; split; [reflexivity|]; fs_eq]|].
  all: try reflexivity.
  all: split; [reflexivity|]; split; [reflexivity|]; exists m;
    (split; [right; exists contents; repeat split; try assumption;
             right; split; [intros ->; discriminate|assumption]|]);
    first [left; assumption | right; exists items; now split].
Qed.

(** The same for [aad app add], which looks for no record with the appId:
    - when reading or parsing fails, it warns, writes nothing and returns
      the app registration;
    - when the document could be loaded, it throws what [m365rc.apps] or
      [.push] throw, having written nothing; and otherwise it writes the
      document back with the new record pushed, whatever the array holds,
      warns when that write fails, and returns the app registration. *)
Lemma app_add_save_spec opts appInfo appName (f : Fs) :
  truthy (opts !! "save") = true ->
  exists r evs f',
    (forall tr, AadAppAdd.saveAppInfo env codec opts appInfo appName {| fs := f; trace := tr |}
                = (r, {| fs := f'; trace := tr ++ evs |}))
    /\ stdout evs = [] /\ Telemetry.sentRequests evs = []
    /\ (forall e, ReadFails f e \/ ParseFails codec f e ->
          r = Ok appInfo /\ readWarning e ∈ stderr evs /\ f' = f /\ writes evs = [])
    /\ (forall m365rc, Loaded codec f m365rc ->
          match appsOf "push" m365rc with
          | Err e => r = Err e /\ f' = f /\ writes evs = []
          | Ok items =>
              let text := stringify codec (appended m365rc items (AadAppAdd.appId appInfo)
                                             appName) in
              r = Ok appInfo
              /\ writes evs = [(filePath, text)]
              /\ match writeError f with
                 | Some e => writeWarning e ∈ stderr evs /\ f' = f
                 | None => f' = written f text
                 end
          end)
    /\ match r with
       | Ok a => a = appInfo
       | Err e =>
           f' = f /\ writes evs = []
           /\ exists m365rc, Loaded codec f m365rc /\ appsOf "push" m365rc = Err e
       end.
Proof.
  intros Hsave.
  destruct (verbose env) eqn:Hverbose;
  destruct (debug env) eqn:Hdebug;
  destruct (writeError f) as [ew|] eqn:Hwrite;
  (destruct (files f !! filePath) as [contents|] eqn:Hfile;
   [ destruct (readError f) as [er|] eqn:Hread;
     [ | destruct (String.eqb contents "") eqn:Hempty;
         [ | destruct (parse codec contents) as [m|ep] eqn:Hparse;
             [ destruct (appsOf "push" m) as [items|ea] eqn:Happs | ] ] ]
   | ]).
  all: eexists _, _, _; split;
    [intros tr; run_save Hsave Hverbose Hdebug Hfile Hread Hempty Hparse Happs Happs Hwrite;
     rewrite <- ?app_assoc; cbn;
     first [reflexivity
           | match goal with
             | |- (?r, _) = _ =>
                 transitivity (r, {| fs := f; trace := tr ++ [] |});
                 [now rewrite app_nil_r | reflexivity]
             end]|].
  all: split; [reflexivity|].
  all: split; [reflexivity|].
  all: split; [solve [intros e [Hf | Hf]; unfold ReadFails, ParseFails in Hf; tidy;
                      try (split; [reflexivity|split; [member | split; reflexivity]])]|].
  all: split; [solve [intros m365rc Hl; unfold Loaded in Hl; tidy; subst; cbn;
                      unfold appended; rewrite ?Happs, ?Hwrite; cbn;
                      repeat split; try reflexivity; try member; try fs_eq]|].
  all: try reflexivity.
  all: split; [reflexivity|]; split; [reflexivity|]; exists m;
    (split; [right; exists contents; repeat split; try assumption;
             right; split; [intros ->; discriminate|assumption]|assumption]).
Qed.

(** Without [--save] the save step does nothing. *)
Lemma app_get_save_off opts appInfo (w : World AadAppGet.Application) :
  truthy (opts !! "save") = false ->
  AadAppGet.saveAppInfo env codec opts appInfo w = (Ok appInfo, w).
Proof. intros H. unfold AadAppGet.saveAppInfo. now rewrite H. Qed.

Lemma app_add_save_off opts appInfo appName (w : World AadAppAdd.Output) :
  truthy (opts !! "save") = false ->
  AadAppAdd.saveAppInfo env codec opts appInfo appName w = (Ok appInfo, w).
Proof. intros H. unfold AadAppAdd.saveAppInfo. now rewrite H. Qed.





Lemma writes_app {P} (a b : list (Event P)) : writes (a ++ b) = writes a ++ writes b.
Proof. apply omap_app. Qed.

(** Two runs of the save step from the same trace and the same outcome
    produce the same events. *)
Lemma save_events_unique {P A} (r : Result A) (f1 f2 : Fs) (tr evs1 evs2 : list (Event P)) :
  (r, {| fs := f1; trace := tr ++ evs1 |}) = (r, {| fs := f2; trace := tr ++ evs2 |}) ->
  f1 = f2 /\ evs1 = evs2.
Proof. intros [= -> H]. split; [reflexivity|]. now apply app_inv_head in H. Qed.



End Save.



(** The three failures of the save step of [aad app get], on concrete file
    systems: the file cannot be read, its text is not JSON, it cannot be
    written. Each time the invocation ends well, the app registration is on
    the result channel and the warning on the diagnostic channel. *)
Example app_get_save_read_failure :
  let run :=
    AadAppGet.commandAction Samples.env (Samples.codec [Samples.once]) (fun _ => Io.Ok ["oid"])
      (fun _ => Io.Ok Samples.app)
      (<["name" := Js.VStr "Contoso"]> (<["save" := Js.VBool true]> ∅))
      (Samples.start
         {| Io.files := {[ M365Rc.filePath := Samples.render Samples.once ]};
            Io.readError := Some (Io.RError "Error" "EACCES: permission denied");
            Io.writeError := None |}) in
  fst run = Io.Ok tt
  /\ Io.stdout (Io.trace (snd run)) = [Samples.app]
  /\ Io.stderr (Io.trace (snd run))
     = ["Error reading .m365rc.json: Error: EACCES: permission denied. Please add app info to .m365rc.json manually."].
Proof. vm_compute. repeat split. Qed.

Example app_get_save_parse_failure :
  let run :=
    AadAppGet.commandAction Samples.env (Samples.codec []) (fun _ => Io.Ok ["oid"])
      (fun _ => Io.Ok Samples.app)
      (<["name" := Js.VStr "Contoso"]> (<["save" := Js.VBool true]> ∅))
      (Samples.start (Samples.withFile "{")) in
  fst run = Io.Ok tt
  /\ Io.stdout (Io.trace (snd run)) = [Samples.app]
  /\ Io.stderr (Io.trace (snd run))
     = ["Error reading .m365rc.json: SyntaxError: Unexpected token in JSON. Please add app info to .m365rc.json manually."].
Proof. vm_compute. repeat split. Qed.

Example app_get_save_write_failure :
  let run :=
    AadAppGet.commandAction Samples.env (Samples.codec []) (fun _ => Io.Ok ["oid"])
      (fun _ => Io.Ok Samples.app)
      (<["name" := Js.VStr "Contoso"]> (<["save" := Js.VBool true]> ∅))
      (Samples.start
         {| Io.files := ∅; Io.readError := None;
            Io.writeError := Some (Io.RError "Error" "ENOSPC: no space left on device") |}) in
  fst run = Io.Ok tt
  /\ Io.stdout (Io.trace (snd run)) = [Samples.app]
  /\ Io.stderr (Io.trace (snd run))
     = ["Error writing .m365rc.json: Error: ENOSPC: no space left on device. Please add app info to .m365rc.json manually."]
  /\ Io.files (Io.fs (snd run)) = ∅.
Proof. vm_compute. repeat split. Qed.

(** A registration file whose text parses, but not to an object: with
    the text [null] the save step throws a [TypeError] at [m365rc.apps],
    outside its [try] blocks. No warning is given, nothing is written, and
    the invocation of [aad app get --save], as that of [aad app add
    --save], fails without a result although the primary action
    succeeded. *)
Example save_on_null_document_fails :
  let f := Samples.withFile "null" in
  let codec := Samples.codecOf [Js.JNull] in
  let failure :=
    Io.Err (Io.CommandError
              "TypeError: Cannot read properties of null (reading 'apps')") in
  let got :=
    AadAppGet.commandAction Samples.env codec (fun _ => Io.Ok ["oid"])
      (fun _ => Io.Ok Samples.app)
      (<["name" := Js.VStr "Contoso"]> (<["save" := Js.VBool true]> ∅))
      (Samples.start f) in
  let added :=
    AadAppAdd.commandAction Samples.env codec (Io.ret Samples.created)
      (<["save" := Js.VBool true]> ∅) "Contoso" (Samples.start f) in
  M365Rc.parse codec "null" = Io.Ok Js.JNull
  /\ (fst got = failure /\ Io.stdout (Io.trace (snd got)) = []
      /\ Io.stderr (Io.trace (snd got)) = [] /\ Io.fs (snd got) = f)
  /\ (fst added = failure /\ Io.stdout (Io.trace (snd added)) = []
      /\ Io.stderr (Io.trace (snd added)) = [] /\ Io.fs (snd added) = f).
Proof. vm_compute. repeat split. Qed.

(** C10. Saving is idempotent in [aad app get]. When the registration file
    already holds a record with the app's appId, the save step attempts no
    write and leaves the file system exactly as it was. And, provided that
    what the save step writes reads back as a document that holds the
    record, saving the same app a second time leaves the file system as the
    first save left it. *)
Theorem save_is_idempotent (env : Io.Env) (codec : M365Rc.Codec) (opts : Js.Options)
    (appInfo : AadAppGet.Application) (f : Io.Fs) :
  Js.truthy (opts !! "save") = true ->
  (forall text,
     (M365Rc.filePath, text)
     ∈ Io.writes (Io.trace (snd (AadAppGet.saveAppInfo env codec opts appInfo
                                   (Samples.start f)))) ->
     M365Rc.ReadsBack codec text (AadAppGet.appId appInfo)) ->
  let w1 := snd (AadAppGet.saveAppInfo env codec opts appInfo (Samples.start f)) in
  let w2 := snd (AadAppGet.saveAppInfo env codec opts appInfo w1) in
  (M365Rc.Holds codec f (AadAppGet.appId appInfo) ->
   Io.fs w1 = f /\ Io.writes (Io.trace w1) = [])
  /\ Io.fs w2 = Io.fs w1.
Proof.
  intros Hsave Hback w1 w2.
  destruct (app_get_save_spec env codec opts appInfo f Hsave)
    as (r & evs & f' & Heq & _ & _ & _ & Hloaded & Hcase & _).
  assert (Hw1 : w1 = {| Io.fs := f'; Io.trace := evs |}).
  { subst w1. unfold Samples.start. now rewrite (Heq []). }
  split.
  - intros (m365rc & items & Hl & Happs & Hin). specialize (Hloaded m365rc Hl).
    rewrite Happs, Hin in Hloaded.
    rewrite Hw1. cbn [Io.fs Io.trace]. destruct Hloaded as (_ & -> & ->). now split.
  - subst w2. rewrite Hw1. cbn [Io.fs].
    destruct Hcase as [-> | (text & Hwrites & ->)].
    + now rewrite (Heq evs).
    + destruct (app_get_save_spec env codec opts appInfo (M365Rc.written f text) Hsave)
        as (r2 & evs2 & f2 & Heq2 & _ & _ & Hfail2 & Hloaded2 & _).
      rewrite (Heq2 evs). cbn [snd Io.fs].
      assert (Hfile : Io.files (M365Rc.written f text) !! M365Rc.filePath = Some text).
      { unfold M365Rc.written. cbn. apply lookup_insert_eq. }
      destruct (Io.readError f) as [e|] eqn:Hread.
      * destruct (Hfail2 e) as (_ & _ & -> & _); [|reflexivity].
        left. split; [rewrite Hfile; eauto | exact Hread].
      * destruct (Hback text) as (Hne & m365rc & items & Hparse & Happs & Hin).
        { unfold Samples.start. rewrite (Heq []). cbn [snd Io.trace app].
          rewrite Hwrites. left. }
        specialize (Hloaded2 m365rc). rewrite Happs, Hin in Hloaded2.
        apply Hloaded2.
        right. exists text. repeat split; [assumption..|].
        right. now split.
Qed.

Lemma save_is_idempotent_witness :
  let save :=
    AadAppGet.saveAppInfo Samples.env (Samples.codec [Samples.once])
      (<["save" := Js.VBool true]> ∅) Samples.app in
  Io.fs (snd (save (snd (save (Samples.start Samples.noFiles)))))
  = Io.fs (snd (save (Samples.start Samples.noFiles))).
Proof.
  intros save.
  refine (proj2 (save_is_idempotent Samples.env (Samples.codec [Samples.once])
                   (<["save" := Js.VBool true]> ∅) Samples.app Samples.noFiles eq_refl _)).
  intros text Hin. vm_compute in Hin.
  apply list_elem_of_singleton in Hin. injection Hin as ->.
  split; [discriminate|].
  exists (M365Rc.toJson Samples.once), [M365Rc.appJson {| M365Rc.appId := "A";
                                                          M365Rc.name := "Contoso" |}].
  repeat split; vm_compute; reflexivity.
Defined.

(** Saving twice, on a concrete file system: the first save creates the
    file with the record, the second leaves it as it is. *)
Example app_get_save_twice :
  let save :=
    AadAppGet.saveAppInfo Samples.env (Samples.codec [Samples.once])
      (<["save" := Js.VBool true]> ∅) Samples.app in
  let w1 := snd (save (Samples.start Samples.noFiles)) in
  let w2 := snd (save w1) in
  Io.files (Io.fs w1) !! M365Rc.filePath = Some (Samples.render Samples.once)
  /\ Io.files (Io.fs w2) !! M365Rc.filePath = Some (Samples.render Samples.once)
  /\ length (Io.writes (Io.trace w2)) = 1.
Proof. vm_compute. repeat split. Qed.

(** C6 on [aad app add]: the registration file holds the record of the app
    with appId A; saving an app registration with that appId appends a
    second record with it, where [aad app get] on the same file writes
    nothing. *)
Lemma app_add_save_duplicates :
  let f := Samples.withFile (Samples.render Samples.once) in
  let codec := Samples.codec [Samples.once; Samples.twice] in
  let opts : Js.Options := <["save" := Js.VBool true]> ∅ in
  let added := snd (AadAppAdd.saveAppInfo Samples.env codec opts Samples.created "Contoso"
                      (Samples.start f)) in
  let got := snd (AadAppGet.saveAppInfo Samples.env codec opts Samples.app
                    (Samples.start f)) in
  Io.files (Io.fs added) !! M365Rc.filePath = Some (Samples.render Samples.twice)
  /\ M365Rc.parse codec (Samples.render Samples.twice) = Io.Ok (M365Rc.toJson Samples.twice)
  /\ ~ NoDup (map M365Rc.appId (default [] (M365Rc.apps Samples.twice)))
  /\ Io.fs got = f
  /\ Io.writes (Io.trace got) = [].
Proof.
  cbv zeta. split; [vm_compute; reflexivity|]. split; [vm_compute; reflexivity|].
  split; [|split; vm_compute; reflexivity].
  cbn. intros H. apply NoDup_cons in H as [H _]. apply H. left.
Qed.

(** ** The fan-out of [grantAdminConsent] *)

Section Consent.
Import Js Io AadAppAdd.
Variable env : Env.

Lemma posted_app {P} (a b : list (Event P)) : posted (a ++ b) = posted a ++ posted b.
Proof. apply omap_app. Qed.

(** An event that is a POST request or a line on the diagnostic channel,
    as all the events of the fan-out are. *)
Lemma posts_only {P} (evs : list (Event P)) :
  Forall (fun e => match e with
                   | Http POST _ _ | LogToStderr _ => True
                   | _ => False
                   end) evs ->
  Telemetry.sentRequests evs = map (fun p => (POST, fst p)) (posted evs)
  /\ requests DELETE evs = [] /\ requests PATCH evs = [] /\ requests GET evs = []
  /\ writes evs = [] /\ prompts evs = [].
Proof.
  induction 1 as [|e evs He _ IH]; [now cbn|].
  destruct IH as (IH1 & IH2 & IH3 & IH4 & IH5 & IH6).
  destruct e as [| | | | |[] url data|]; try contradiction; cbn;
    unfold Telemetry.sentRequests, requests, posted, writes, prompts in *;
    rewrite ?IH1, ?IH2, ?IH3, ?IH4, ?IH5, ?IH6; now repeat split.
Qed.

Lemma launchRoles_spec spId resourceId accesses (w : World Output) :
  exists evs,
    launchRoles env spId resourceId accesses w
    = (Ok (map (fun access => addRoleToServicePrincipal env spId resourceId (ra_id access))
             accesses),
       {| fs := fs w; trace := trace w ++ evs |})
    /\ posted evs
       = map (fun access => sent (addRoleToServicePrincipal env spId resourceId (ra_id access)))
           accesses
    /\ stdout evs = []
    /\ Forall (fun e => match e with
                        | Http POST _ _ | LogToStderr _ => True
                        | _ => False
                        end) evs.
Proof.
  revert w. induction accesses as [|access rest IH]; intros w.
  - exists []. cbn. rewrite app_nil_r. destruct w. now repeat split.
  - cbn [launchRoles]. unfold bind, launch, emit, ret, when.
    destruct (debug env); cbn.
    + match goal with |- context [launchRoles _ _ _ _ ?w'] =>
        destruct (IH w') as (evs & -> & Hp & Ho & Hq)
      end.
      cbn. eexists. split; [rewrite <- !app_assoc; reflexivity|].
      cbn. split; [|split].
      * unfold posted in *. rewrite ?omap_app. cbn. now rewrite Hp.
      * unfold stdout in *. rewrite ?omap_app. cbn. now rewrite Ho.
      * repeat (apply Forall_cons; split; [exact I|]). exact Hq.
    + match goal with |- context [launchRoles _ _ _ _ ?w'] =>
        destruct (IH w') as (evs & -> & Hp & Ho & Hq)
      end.
      cbn. eexists. split; [rewrite <- !app_assoc; reflexivity|].
      cbn. split; [|split].
      * unfold posted in *. rewrite ?omap_app. cbn. now rewrite Hp.
      * unfold stdout in *. rewrite ?omap_app. cbn. now rewrite Ho.
      * repeat (apply Forall_cons; split; [exact I|]). exact Hq.
Qed.

(** The launch sends the request of every task, in the order of the
    array, and awaits nothing. *)
Lemma launchAll_spec spId appPermissions (w : World Output) :
  exists evs,
    launchAll env spId appPermissions w
    = (Ok (consentTasks env spId appPermissions),
       {| fs := fs w; trace := trace w ++ evs |})
    /\ posted evs = map sent (consentTasks env spId appPermissions)
    /\ stdout evs = []
    /\ Forall (fun e => match e with
                        | Http POST _ _ | LogToStderr _ => True
                        | _ => False
                        end) evs.
Proof.
  revert w. induction appPermissions as [|permission rest IH]; intros w.
  - exists []. cbn. rewrite app_nil_r. destruct w. now repeat split.
  - cbn [launchAll consentTasks flat_map]. unfold permissionTasks at 1.
    unfold bind at 1.
    assert (Hgrant : exists evs1,
      (if (0 <? length (scope permission))%nat
       then
         let! t := launch (grantOAuth2Permission env spId (resourceId permission)
                             (join " " (scope permission))) in
         when (debug env)
           (emit (LogToStderr ("Admin consent granted for following resource "
                               +:+ resourceId permission
                               +:+ ", with delegated permissions: "
                               +:+ join "," (scope permission)))) ;;
         ret [t]
       else ret []) w
      = (Ok (if (0 <? length (scope permission))%nat
             then [grantOAuth2Permission env spId (resourceId permission)
                     (join " " (scope permission))]
             else []),
         {| fs := fs w; trace := trace w ++ evs1 |})
      /\ posted evs1
         = map sent (if (0 <? length (scope permission))%nat
                     then [grantOAuth2Permission env spId (resourceId permission)
                             (join " " (scope permission))]
                     else [])
      /\ stdout evs1 = []
      /\ Forall (fun e => match e with
                          | Http POST _ _ | LogToStderr _ => True
                          | _ => False
                          end) evs1).
    { destruct (0 <? length (scope permission))%nat.
      - unfold bind, launch, emit, ret, when. destruct (debug env); cbn;
          (eexists; split; [rewrite <- ?app_assoc; reflexivity|]);
          (split; [reflexivity|]); (split; [reflexivity|]);
          cbn; repeat (apply Forall_cons; split; [exact I|]); constructor.
      - exists []. cbn. unfold ret. rewrite app_nil_r. destruct w. now repeat split. }
    destruct Hgrant as (evs1 & -> & Hp1 & Ho1 & Hq1).
    unfold bind at 1.
    match goal with |- context [launchRoles _ _ _ ?l ?w'] =>
      destruct (launchRoles_spec spId (resourceId permission) l w')
        as (evs2 & -> & Hp2 & Ho2 & Hq2)
    end.
    unfold bind at 1. cbn [fs trace].
    match goal with |- context [launchAll _ _ _ ?w'] =>
      destruct (IH w') as (evs3 & -> & Hp3 & Ho3 & Hq3)
    end.
    cbn [fs trace]. unfold ret.
    exists (evs1 ++ evs2 ++ evs3). split; [now rewrite <- !app_assoc|].
    split; [|split].
    + unfold posted in *. rewrite !omap_app, Hp1, Hp2, Hp3.
      unfold permissionTasks, consentTasks.
      rewrite !map_app, List.map_map, <- !app_assoc. reflexivity.
    + unfold stdout in *. now rewrite !omap_app, Ho1, Ho2, Ho3.
    + apply Forall_app. split; [assumption|]. apply Forall_app. now split.
Qed.

(** [Promise.all]: pending as long as successes come in and some task is
    outstanding, fulfilled when the last one is in. *)
Lemma promiseAll_all_done (n : nat) (sched : Schedule) :
  AllDone sched ->
  promiseAll n sched = if (n <=? length sched)%nat then Fulfilled tt else Pending.
Proof.
  revert sched. induction n as [|n IH]; intros sched Hd; [reflexivity|].
  destruct sched as [|[i c] rest]; [reflexivity|].
  apply Forall_cons in Hd as [Hc Hd]. cbn in Hc. subst c.
  cbn [promiseAll length]. now rewrite IH.
Qed.

(** [Promise.all]: rejected at the first failure, whatever comes in
    afterwards. *)
Lemma promiseAll_first_failure (n : nat) (pre post : Schedule) (i : nat) (r : Reason) :
  AllDone pre -> length pre < n ->
  promiseAll n (pre ++ (i, Failed r) :: post) = Rejected r.
Proof.
  revert pre. induction n as [|n IH]; intros pre Hd Hlen; [lia|].
  destruct pre as [|[j c] pre]; [reflexivity|].
  apply Forall_cons in Hd as [Hc Hd]. cbn in Hc. subst c.
  cbn in Hlen. cbn [promiseAll app]. apply IH; [assumption|lia].
Qed.

Lemma committed_app (a b : Schedule) : committed (a ++ b) = committed a ++ committed b.
Proof. apply omap_app. Qed.

Lemma committed_all_done (sched : Schedule) :
  AllDone sched -> committed sched = settled sched.
Proof.
  induction sched as [|[i c] rest IH]; intros Hd; [reflexivity|].
  apply Forall_cons in Hd as [Hc Hd]. cbn in Hc. subst c.
  cbn. unfold committed, settled in IH. now rewrite IH.
Qed.

(** [grantAdminConsent] with consent asked for and permissions to grant,
    once the service principal is created: the requests of all the tasks
    are sent, whatever the completions; the promise returned is that of
    [Promise.all]. *)
Lemma grantAdminConsent_run appInfo adminConsent appPermissions spId (w : World Output) :
  truthy adminConsent = true -> appPermissions <> [] ->
  exists evs,
    (forall sched,
       grantAdminConsent env appInfo adminConsent appPermissions (Ok spId) sched w
       = (thenReturn appInfo
            (promiseAll (length (consentTasks env spId appPermissions)) sched),
          {| fs := fs w; trace := trace w ++ evs |}))
    /\ posted evs
       = (resource env +:+ "/v1.0/myorganization/servicePrincipals",
          [("appId", Some (appId appInfo))])
         :: map sent (consentTasks env spId appPermissions)
    /\ stdout evs = []
    /\ Forall (fun e => match e with
                        | Http POST _ _ | LogToStderr _ => True
                        | _ => False
                        end) evs.
Proof.
  intros Hconsent Hperms. unfold grantAdminConsent. rewrite Hconsent.
  assert (Hlen : (length appPermissions =? 0)%nat = false)
    by (destruct appPermissions; [contradiction|reflexivity]).
  rewrite Hlen. cbn [negb orb].
  unfold request, when, bind, emit, await, ret.
  destruct (debug env); cbn.
  - match goal with |- context [launchAll _ _ _ ?w'] =>
      destruct (launchAll_spec spId appPermissions w') as (evs & Heq & Hp & Ho & Hq)
    end.
    eexists. split; [|split; [|split]].
    + intros sched. rewrite Heq. cbn [fs trace]. rewrite <- !app_assoc. reflexivity.
    + rewrite !posted_app, Hp. reflexivity.
    + unfold stdout in *. rewrite !omap_app, Ho. reflexivity.
    + cbn. repeat (apply Forall_cons; split; [exact I|]). exact Hq.
  - match goal with |- context [launchAll _ _ _ ?w'] =>
      destruct (launchAll_spec spId appPermissions w') as (evs & Heq & Hp & Ho & Hq)
    end.
    eexists. split; [|split; [|split]].
    + intros sched. rewrite Heq. cbn [fs trace]. rewrite <- !app_assoc. reflexivity.
    + rewrite !posted_app, Hp. reflexivity.
    + unfold stdout in *. rewrite !omap_app, Ho. reflexivity.
    + cbn. repeat (apply Forall_cons; split; [exact I|]). exact Hq.
Qed.

End Consent.

(** C9, as stated, fails: of three sub-operations the second fails first;
    the promise of [grantAdminConsent] is rejected at once, while the first
    and the third, whose requests have been sent, have not settled. *)
Lemma consent_does_not_wait_for_all :
  let permissions :=
    [{| AadAppAdd.resourceId := "graph";
        AadAppAdd.resourceAccess :=
          [{| AadAppAdd.ra_id := "role1"; AadAppAdd.ra_type := "Role" |};
           {| AadAppAdd.ra_id := "role2"; AadAppAdd.ra_type := "Role" |}];
        AadAppAdd.scope := ["User.Read"] |}] in
  let sched := [(1, AadAppAdd.Failed (Io.RUpstream "denied"))] in
  let run :=
    AadAppAdd.grantAdminConsent Samples.env Samples.created (Some (Js.VBool true))
      permissions (Io.Ok "sp") sched (Samples.start Samples.noFiles) in
  length (AadAppAdd.consentTasks Samples.env "sp" permissions) = 3
  /\ length (Io.posted (Io.trace (snd run))) = 4
  /\ fst run = AadAppAdd.Rejected (Io.RUpstream "denied")
  /\ (0 ∉ AadAppAdd.settled sched)
  /\ (2 ∉ AadAppAdd.settled sched).
Proof.
  cbv zeta. split; [reflexivity|]. split; [reflexivity|]. split; [reflexivity|].
  split; intros H; apply list_elem_of_singleton in H; discriminate.
Qed.

(** C9, amended. In [grantAdminConsent], with consent asked for and
    permissions to grant, the requests of all the sub-operations are sent
    without waiting for one another, whatever completes later. The action
    stays pending as long as only successes have come in and some
    sub-operation is outstanding, and succeeds when all have succeeded; it
    fails with the first failure as soon as that failure comes in, without
    waiting for the sub-operations still in flight. Those are not
    cancelled and nothing is rolled back: what the run does is the same
    however the sub-operations settle, it consists of the POST requests of
    the service principal and of the sub-operations and of nothing that
    withdraws or undoes one (no other request, no write), and every
    sub-operation that completes, before or after the failure, is one
    whose request was sent and has its effect committed. *)
Theorem consent_fan_out (env : Io.Env) (appInfo : AadAppAdd.AppInfo)
    (adminConsent : option Js.Value) (appPermissions : list AadAppAdd.AppPermissions)
    (spId : string) (pre post : AadAppAdd.Schedule) (i : nat) (r : Io.Reason)
    (w : Io.World AadAppAdd.Output) :
  Js.truthy adminConsent = true ->
  appPermissions <> [] ->
  AadAppAdd.AllDone pre ->
  length pre < length (AadAppAdd.consentTasks env spId appPermissions) ->
  let tasks := AadAppAdd.consentTasks env spId appPermissions in
  let run sched :=
    AadAppAdd.grantAdminConsent env appInfo adminConsent appPermissions (Io.Ok spId) sched w in
  let failing := pre ++ (i, AadAppAdd.Failed r) :: post in
  (forall sched,
     Io.posted (Io.trace (snd (run sched)))
     = Io.posted (Io.trace w)
       ++ (Io.resource env +:+ "/v1.0/myorganization/servicePrincipals",
           [("appId", Some (AadAppAdd.appId appInfo))])
          :: map AadAppAdd.sent tasks)
  /\ fst (run pre) = AadAppAdd.Pending
  /\ fst (run (pre ++ [(i, AadAppAdd.Failed r)])) = AadAppAdd.Rejected r
  /\ fst (run failing) = AadAppAdd.Rejected r
  /\ (exists evs,
        (forall sched, snd (run sched) = {| Io.fs := Io.fs w; Io.trace := Io.trace w ++ evs |})
        /\ Telemetry.sentRequests evs
           = (Io.POST, Io.resource env +:+ "/v1.0/myorganization/servicePrincipals")
             :: map (fun t => (Io.POST, AadAppAdd.task_url t)) tasks
        /\ Io.requests Io.DELETE evs = [] /\ Io.requests Io.PATCH evs = []
        /\ Io.writes evs = [] /\ Io.stdout evs = [])
  /\ (forall k t, k ∈ AadAppAdd.committed failing -> tasks !! k = Some t ->
        AadAppAdd.sent t ∈ Io.posted (Io.trace (snd (run failing))))
  /\ AadAppAdd.committed failing = AadAppAdd.settled pre ++ AadAppAdd.committed post
  /\ (forall done, AadAppAdd.AllDone done -> length done = length tasks ->
        fst (run done) = AadAppAdd.Fulfilled appInfo).
Proof.
  intros Hconsent Hperms Hpre Hlen tasks run failing.
  destruct (grantAdminConsent_run env appInfo adminConsent appPermissions spId w
              Hconsent Hperms) as (evs & Hrun & Hposted & Hout & Hquiet).
  destruct (posts_only evs Hquiet) as (Hsent & Hdel & Hpatch & _ & Hwrites & _).
  subst run tasks failing. cbv beta.
  split; [|split; [|split; [|split; [|split; [|split; [|split]]]]]].
  - intros sched. rewrite Hrun. cbn [snd Io.trace]. now rewrite posted_app, Hposted.
  - rewrite Hrun. cbn [fst]. rewrite promiseAll_all_done by assumption.
    destruct (Nat.leb_spec (length (AadAppAdd.consentTasks env spId appPermissions))
                (length pre)); [lia|reflexivity].
  - rewrite Hrun. cbn [fst]. now rewrite promiseAll_first_failure.
  - rewrite Hrun. cbn [fst]. now rewrite promiseAll_first_failure.
  - exists evs. split; [intros sched; now rewrite Hrun|].
    split; [|now repeat split].
    rewrite Hsent, Hposted. cbn [map fst]. f_equal. rewrite List.map_map. reflexivity.
  - intros k t _ Hk. rewrite Hrun. cbn [snd Io.trace]. rewrite posted_app, Hposted.
    apply elem_of_app. right. apply list_elem_of_further.
    apply list_elem_of_fmap. exists t. split; [reflexivity|].
    now apply list_elem_of_lookup_2 in Hk.
  - rewrite committed_app. cbn. now rewrite committed_all_done.
  - intros done Hdone Hall. rewrite Hrun. cbn [fst].
    rewrite promiseAll_all_done by assumption. rewrite <- Hall.
    now rewrite Nat.leb_refl.
Qed.

Lemma consent_fan_out_witness :
  let permissions :=
    [{| AadAppAdd.resourceId := "graph";
        AadAppAdd.resourceAccess :=
          [{| AadAppAdd.ra_id := "role1"; AadAppAdd.ra_type := "Role" |};
           {| AadAppAdd.ra_id := "role2"; AadAppAdd.ra_type := "Role" |}];
        AadAppAdd.scope := ["User.Read"] |}] in
  fst (AadAppAdd.grantAdminConsent Samples.env Samples.created (Some (Js.VBool true))
         permissions (Io.Ok "sp")
         ([(0, AadAppAdd.Done)]
          ++ ((1, AadAppAdd.Failed (Io.RUpstream "denied")) :: [(2, AadAppAdd.Done)]))
         (Samples.start Samples.noFiles))
  = AadAppAdd.Rejected (Io.RUpstream "denied")
  /\ AadAppAdd.committed
       ([(0, AadAppAdd.Done)]
        ++ ((1, AadAppAdd.Failed (Io.RUpstream "denied")) :: [(2, AadAppAdd.Done)]))
     = [0; 2].
Proof.
  intros permissions.
  assert (Hperms : permissions <> []) by discriminate.
  assert (Hdone : AadAppAdd.AllDone [(0, AadAppAdd.Done)]) by (repeat constructor).
  assert (Hlen : length [(0, AadAppAdd.Done)]
                 < length (AadAppAdd.consentTasks Samples.env "sp" permissions))
    by (vm_compute; lia).
  destruct (consent_fan_out Samples.env Samples.created (Some (Js.VBool true)) permissions
              "sp" [(0, AadAppAdd.Done)] [(2, AadAppAdd.Done)] 1 (Io.RUpstream "denied")
              (Samples.start Samples.noFiles) eq_refl Hperms Hdone Hlen)
    as (_ & _ & _ & Hrej & _ & _ & Hcom & _).
  split; [exact Hrej | exact Hcom].
Defined.

(** * Further properties of the commands *)

(** ** Telemetry *)

(** X1. The telemetry of [aad sp get], [aad app get], [teams team remove],
    [teams channel get] and [teams channel set] tells which options were
    given and nothing of what they hold: whatever the options are, every
    value recorded is a boolean or one of the strings "true" and "false". *)
Theorem telemetry_tells_flags_only (opts : Js.Options) :
  Forall (fun property => Telemetry.Flag (snd property))
    (AadSpGetCommand.telemetry opts ++ AadAppGetCommand.telemetry opts
     ++ TeamsTeamRemoveCommand.telemetry opts ++ TeamsChannelGetCommand.telemetry opts
     ++ TeamsChannelSetCommand.telemetry opts).
Proof.
  assert (Hn : forall o, Telemetry.Flag (Telemetry.notNot o)).
  { intros o. unfold Telemetry.notNot. destruct (Js.truthy o); right; auto. }
  assert (Hd : forall o, Telemetry.Flag (Telemetry.defined o)).
  { intros o. left. eexists. reflexivity. }
  unfold AadSpGetCommand.telemetry, AadAppGetCommand.telemetry,
    TeamsTeamRemoveCommand.telemetry, TeamsChannelGetCommand.telemetry,
    TeamsChannelSetCommand.telemetry.
  cbn [app]. repeat (constructor; [cbn [snd]; auto|]). constructor.
Qed.

(** The validator of [aad app add] lets an enumerated option through only
    when it is falsy or one of the allowed values. *)
Lemma app_add_validator_enumerations JSON_parse opts manifest
    (w : Io.World AadAppAdd.Output) manifest' :
  fst (AadAppAdd.validator JSON_parse opts manifest w) = Io.Ok (Framework.Pass, manifest') ->
  (Js.truthy (opts !! "platform") && Js.notIndexOf AadAppAdd.aadApplicationPlatform (opts !! "platform")
   = false)
  /\ (Js.truthy (opts !! "scopeConsentBy")
      && Js.notIndexOf AadAppAdd.aadAppScopeConsentBy (opts !! "scopeConsentBy") = false).
Proof.
  unfold AadAppAdd.validator.
  destruct (AadAppAdd.parseManifest JSON_parse opts manifest) as [r m'] eqn:Hp.
  destruct (Js.truthy (opts !! "platform")
            && Js.notIndexOf AadAppAdd.aadApplicationPlatform (opts !! "platform")) eqn:E1;
  destruct (Js.truthy (opts !! "scopeConsentBy")
            && Js.notIndexOf AadAppAdd.aadAppScopeConsentBy (opts !! "scopeConsentBy")) eqn:E2;
    [| | |intros _; now split].
  all: unfold Io.bind, Io.existsSync, Io.ret;
    repeat match goal with
      | |- context [if ?c then _ else _] => destruct c; cbn
      end;
    try (destruct r as [[|msg]|e]); cbn; intros H; discriminate H.
Qed.

Lemma enumerated_value (allowed : list string) (v : option Js.Value) :
  Js.truthy v && Js.notIndexOf allowed v = false ->
  Js.truthy v = false \/ exists s, v = Some (Js.VStr s) /\ s ∈ allowed.
Proof.
  destruct (Js.truthy v) eqn:Ht; [|now left]. cbn. intros Hn. right.
  destruct v as [[s|b]|]; try discriminate. exists s. split; [reflexivity|].
  cbn in Hn. apply negb_false_iff, bool_decide_eq_true in Hn. exact Hn.
Qed.

(** X2. When the validator of [aad app add] passes, the two options its
    telemetry records as they were typed, [platform] and [scopeConsentBy],
    are falsy or one of the allowed values ([spa], [web], [publicClient],
    resp. [admins], [adminsAndUsers]). *)
Theorem app_add_telemetry_enumerations JSON_parse (opts : Js.Options)
    (manifest manifest' : option Js.Json) (w : Io.World AadAppAdd.Output) :
  fst (AadAppAdd.validator JSON_parse opts manifest w) = Io.Ok (Framework.Pass, manifest') ->
  forall name v, (name, v) ∈ AadAppAddCommand.telemetry opts ->
    (name = "platform" ->
     Js.truthy v = false
     \/ exists s, v = Some (Js.VStr s) /\ s ∈ AadAppAdd.aadApplicationPlatform)
    /\ (name = "scopeConsentBy" ->
        Js.truthy v = false
        \/ exists s, v = Some (Js.VStr s) /\ s ∈ AadAppAdd.aadAppScopeConsentBy).
Proof.
  intros Hpass name v Hin.
  destruct (app_add_validator_enumerations _ _ _ _ _ Hpass) as [Hp Hs].
  apply enumerated_value in Hp, Hs.
  unfold AadAppAddCommand.telemetry in Hin.
  repeat (apply elem_of_cons in Hin as [Hin | Hin];
          [injection Hin as -> ->; split; intros; try discriminate; assumption|]).
  inversion Hin.
Qed.

Lemma app_add_telemetry_enumerations_witness :
  Js.truthy (Some (Js.VStr "spa")) = false
  \/ exists s, Some (Js.VStr "spa") = Some (Js.VStr s) /\ s ∈ AadAppAdd.aadApplicationPlatform.
Proof.
  assert (Hpass :
    fst (AadAppAdd.validator (fun _ => Io.Ok Js.JNull)
           (<["name" := Js.VStr "app"]> (<["platform" := Js.VStr "spa"]> ∅))
           None (Samples.start Samples.noFiles))
    = Io.Ok (Framework.Pass, None)) by (vm_compute; reflexivity).
  assert (Hin : ("platform", Some (Js.VStr "spa"))
                ∈ AadAppAddCommand.telemetry
                    (<["name" := Js.VStr "app"]> (<["platform" := Js.VStr "spa"]> ∅))).
  { apply list_elem_of_In. vm_compute. tauto. }
  exact (proj1 (app_add_telemetry_enumerations _ _ _ _ _ Hpass "platform" _ Hin) eq_refl).
Defined.

(** ** spo feature list *)

Section FeatureList.
Import Js Io Framework Telemetry SpoFeatureListCommand.
Context {Feature : Type}.
Variable env : Env.
Variable features : string -> Result (option (list Feature)).

(** [spo feature list] sends its one request whatever happens next. *)
Lemma feature_list_requests (opts : Options) (f : Fs) :
  sentRequests (trace (snd (commandAction env features opts (Samples.start f))))
  = [(GET, featuresUrl opts)].
Proof.
  unfold commandAction, try_catch, bind, request, emit, await, ret, when, throw,
    handleRejectedODataJsonPromise. cbn.
  destruct (features (featuresUrl opts)) as [[[|x l]|]|e]; cbn; try reflexivity;
    destruct (verbose env); reflexivity.
Qed.

(** X3. When the validator of [spo feature list] passes, the scope the
    command works with is [Site] or [Web] ([Web] when none is given); the
    one request it sends goes to the features of that scope, and that scope
    is what telemetry records. *)
Theorem feature_list_scope (isValidSharePointUrl : option Value -> ValidationResult)
    (opts : Options) (f : Fs) :
  validator isValidSharePointUrl opts = Pass ->
  scope opts ∈ ["Site"; "Web"]
  /\ telemetry opts = [("scope", Some (VStr (scope opts)))]
  /\ sentRequests (trace (snd (commandAction env features opts (Samples.start f))))
     = [(GET, tmpl (opts !! "url") +:+ "/_api/" +:+ scope opts
              +:+ "/Features?$select=DisplayName,DefinitionId")].
Proof.
  intros Hv. split; [|split; [|apply feature_list_requests]].
  - unfold validator in Hv. unfold scope.
    destruct (truthy (opts !! "scope")) eqn:Ht; [|set_solver].
    destruct (opts !! "scope") as [[s|b]|]; cbn in Hv |- *.
    + destruct (String.eqb_spec s "Site") as [->|_]; [set_solver|].
      destruct (String.eqb_spec s "Web") as [->|_]; [set_solver|]. discriminate.
    + discriminate.
    + discriminate.
  - unfold validator in Hv. unfold telemetry, orElse, scope.
    destruct (truthy (opts !! "scope")) eqn:Ht; [|reflexivity].
    destruct (opts !! "scope") as [[s|b]|]; cbn in Hv |- *; try discriminate.
    reflexivity.
Qed.

(** X4. [spo feature list] prints the features the service lists, once,
    and nothing when it lists none (an empty or a missing list): the run
    then still ends well, with 'No activated Features found' on the
    diagnostic channel in verbose mode only. When the request fails, the
    run fails with the [CommandError] of the failure and prints nothing. *)
Theorem feature_list_outcome (opts : Options) (f : Fs) :
  let run := commandAction env features opts (Samples.start f) in
  match features (featuresUrl opts) with
  | Ok (Some (x :: l)) =>
      fst run = Ok tt /\ stdout (trace (snd run)) = [x :: l] /\ stderr (trace (snd run)) = []
  | Ok _ =>
      fst run = Ok tt /\ stdout (trace (snd run)) = []
      /\ stderr (trace (snd run))
         = if verbose env then ["No activated Features found"] else []
  | Err r =>
      fst run = Err (CommandError (extractMessage env r))
      /\ stdout (trace (snd run)) = [] /\ stderr (trace (snd run)) = []
  end.
Proof.
  intros run. subst run.
  unfold commandAction, try_catch, bind, request, emit, await, ret, when, throw,
    handleRejectedODataJsonPromise. cbn.
  destruct (features (featuresUrl opts)) as [[[|x l]|]|e]; cbn;
    try (destruct (verbose env); cbn); auto.
Qed.

End FeatureList.

Lemma feature_list_scope_witness :
  SpoFeatureListCommand.scope (<["url" := Js.VStr "https://contoso.sharepoint.com"]> ∅)
  ∈ ["Site"; "Web"].
Proof.
  refine (proj1 (feature_list_scope (Feature := unit) Samples.env (fun _ => Io.Ok None)
                   (fun _ => Framework.Pass)
                   (<["url" := Js.VStr "https://contoso.sharepoint.com"]> ∅)
                   Samples.noFiles _)).
  reflexivity.
Defined.

(** ** teams team remove *)

Section TeamRemoveMore.
Import Js Io Framework Telemetry TeamsTeamRemove.
Context {P : Type}.
Variable env : Env.
Variable getGroupByDisplayName : option Value -> Result Group.
Variable deleted : string -> Result unit.
Variable answer : PromptOptions -> bool.

(** What [commandAction] does, in terms of [removeTeam]. *)
Lemma team_remove_run (args : Options) (f : Fs) :
  let warned : list (Event P) :=
    if truthy (args !! "teamId")
    then [Warn "Option 'teamId' is deprecated. Please use 'id' instead."] else [] in
  commandAction (P := P) env getGroupByDisplayName deleted answer args (Samples.start f)
  = if truthy (args !! "confirm") then
      removeTeam env getGroupByDisplayName deleted (TeamsTeamRemoveCommand.adopted args) {| fs := f; trace := warned |}
    else if answer (confirmation (TeamsTeamRemoveCommand.adopted args)) then
      removeTeam env getGroupByDisplayName deleted (TeamsTeamRemoveCommand.adopted args)
        {| fs := f; trace := warned ++ [Prompt (confirmation (TeamsTeamRemoveCommand.adopted args))] |}
    else (Ok tt, {| fs := f; trace := warned ++ [Prompt (confirmation (TeamsTeamRemoveCommand.adopted args))] |}).
Proof.
  intros warned. subst warned.
  assert (Hconfirm : TeamsTeamRemoveCommand.adopted args !! "confirm" = args !! "confirm").
  { unfold TeamsTeamRemoveCommand.adopted. destruct (truthy (args !! "teamId")); [apply adoptTeamId_confirm|reflexivity]. }
  rewrite <- Hconfirm. unfold commandAction, TeamsTeamRemoveCommand.adopted, Samples.start, bind, emit, ret.
  destruct (truthy (args !! "teamId")); cbn;
    destruct (truthy (_ !! "confirm")); try reflexivity;
    destruct (answer _); reflexivity.
Qed.

(** What one run of [removeTeam] does, spelled out. *)
Lemma removeTeam_cases (opts : Options) (w : World P) :
  let run := removeTeam env getGroupByDisplayName deleted opts w in
  exists evs,
    trace (snd run) = trace w ++ evs /\ fs (snd run) = fs w
    /\ prompts evs = [] /\ stdout evs = []
    /\ (match fst run with
        | Ok _ => True
        | Err r => exists r0, r = CommandError (extractMessage env r0)
        end)
    /\ ((truthy (opts !! "id") = true /\ lookups evs = []
         /\ sentRequests evs = [(DELETE, deleteUrl env (tmpl (opts !! "id")))])
        \/ (truthy (opts !! "id") = false /\ lookups evs = [tmpl (opts !! "name")]
            /\ (sentRequests evs = []
                \/ exists group,
                     getGroupByDisplayName (opts !! "name") = Ok group
                     /\ "Team" ∈ resourceProvisioningOptions group
                     /\ sentRequests evs = [(DELETE, deleteUrl env (id group))]))).
Proof.
  unfold removeTeam, getTeamId, try_catch, bind, handleRejectedODataJsonPromise, request,
    await, throw, emit, ret, deleteUrl.
  destruct (truthy (opts !! "id")) eqn:Hid; cbn.
  - destruct (deleted _); cbn; eexists; (split; [reflexivity|]);
      (split; [reflexivity|]); (split; [reflexivity|]); (split; [reflexivity|]);
      (split; [eauto|]); left; now repeat split.
  - destruct (getGroupByDisplayName (opts !! "name")) as [group|r] eqn:Hg; cbn.
    + destruct (bool_decide ("Team" ∉ resourceProvisioningOptions group)) eqn:Hteam; cbn.
      * eexists; (split; [reflexivity|]);
          (split; [reflexivity|]); (split; [reflexivity|]); (split; [reflexivity|]);
          (split; [eauto|]).
        right. split; [reflexivity|]. split; [reflexivity|]. now left.
      * apply bool_decide_eq_false in Hteam.
        assert (Hin : "Team" ∈ resourceProvisioningOptions group).
        { destruct (decide ("Team" ∈ resourceProvisioningOptions group)); [assumption|].
          contradiction. }
        destruct (deleted _); cbn; eexists;
          (split; [rewrite <- app_assoc; reflexivity|]);
          (split; [reflexivity|]); (split; [reflexivity|]); (split; [reflexivity|]);
          (split; [eauto|]);
          right; (split; [reflexivity|]); (split; [reflexivity|]);
          right; exists group; now repeat split.
    + eexists; (split; [reflexivity|]);
        (split; [reflexivity|]); (split; [reflexivity|]); (split; [reflexivity|]);
        (split; [eauto|]).
      right. split; [reflexivity|]. split; [reflexivity|]. now left.
Qed.

(** The run of [commandAction] as zero or one run of [removeTeam] after the
    warning and the prompt. *)
Lemma team_remove_shape (args : Options) (f : Fs) :
  let run := commandAction (P := P) env getGroupByDisplayName deleted answer args
               (Samples.start f) in
  exists (pre : list (Event P)) (w : World P),
    sentRequests pre = [] /\ lookups pre = [] /\ stdout pre = []
    /\ ((run = (Ok tt, {| fs := f; trace := pre |}))
        \/ (fs w = f /\ trace w = pre
            /\ run = removeTeam env getGroupByDisplayName deleted (TeamsTeamRemoveCommand.adopted args) w)).
Proof.
  intros run. subst run. rewrite team_remove_run.
  destruct (truthy (args !! "confirm")); [|destruct (answer _)].
  - eexists _, _. repeat split; [| | |right; repeat split]; destruct (truthy (args !! "teamId")); reflexivity.
  - eexists _, _. repeat split; [| | |right; repeat split]; destruct (truthy (args !! "teamId")); reflexivity.
  - eexists _, {| fs := f; trace := [] |}. repeat split; [| | |left; reflexivity];
      destruct (truthy (args !! "teamId")); reflexivity.
Qed.

Lemma sentRequests_app {Q} (a b : list (Event Q)) :
  sentRequests (a ++ b) = sentRequests a ++ sentRequests b.
Proof. apply omap_app. Qed.

Lemma lookups_app {Q} (a b : list (Event Q)) : lookups (a ++ b) = lookups a ++ lookups b.
Proof. apply omap_app. Qed.

(** X5. [teams team remove] deletes teams only: whatever the arguments, the
    user's answer and the service do, the invocation sends at most one
    request, a DELETE, and it goes either to the id given ([id], or the
    deprecated [teamId]), or to the id of the group found by name, and then
    that group is a team. Nothing is ever printed on the result channel,
    and a failure is a [CommandError]. *)
Theorem team_remove_deletes_teams_only (args : Options) (f : Fs) :
  let run := commandAction (P := P) env getGroupByDisplayName deleted answer args
               (Samples.start f) in
  let opts := TeamsTeamRemoveCommand.adopted args in
  (sentRequests (trace (snd run)) = []
   \/ (truthy (opts !! "id") = true
       /\ sentRequests (trace (snd run)) = [(DELETE, deleteUrl env (tmpl (opts !! "id")))])
   \/ (truthy (opts !! "id") = false
       /\ exists group,
            getGroupByDisplayName (opts !! "name") = Ok group
            /\ "Team" ∈ resourceProvisioningOptions group
            /\ sentRequests (trace (snd run)) = [(DELETE, deleteUrl env (id group))]))
  /\ stdout (trace (snd run)) = []
  /\ Reported env (fst run).
Proof.
  intros run opts.
  destruct (team_remove_shape args f) as (pre & w & Hreq & Hlook & Hout & [Hrun | (Hfs & Htr & Hrun)]).
  - subst run. rewrite Hrun. cbn. split; [now left|]. split; [assumption|exact I].
  - subst run. rewrite Hrun.
    destruct (removeTeam_cases (TeamsTeamRemoveCommand.adopted args) w) as (evs & Htrace & _ & _ & Hso & Herr & Hcases).
    cbv zeta in Htrace, Hcases, Herr. rewrite Htrace, Htr, sentRequests_app, Hreq. cbn [app].
    split; [|split; [|exact Herr]].
    + destruct Hcases as [(Hid & _ & Hsent) | (Hid & _ & [Hsent | (group & Hg & Hteam & Hsent)])].
      * right. left. now split.
      * now left.
      * right. right. split; [assumption|]. now exists group.
    + unfold stdout in *. now rewrite omap_app, Hout, Hso.
Qed.

(** X6. The confirmation request of [teams team remove] names the team by
    the deprecated [teamId] option only: when the team is given by [id] or
    by [name] and [teamId] is absent, the user is asked 'Are you sure you
    want to remove the team undefined?'. *)
Theorem team_remove_prompt_undefined (args : Options) (f : Fs) :
  args !! "teamId" = None ->
  truthy (args !! "confirm") = false ->
  prompts (trace (snd (commandAction (P := P) env getGroupByDisplayName deleted answer args
                         (Samples.start f))))
  = [{| prompt_type := "confirm"; prompt_name := "continue"; prompt_default := false;
        prompt_message := "Are you sure you want to remove the team undefined?" |}].
Proof.
  intros Hteam Hconfirm. rewrite team_remove_run, Hconfirm.
  assert (Hopts : TeamsTeamRemoveCommand.adopted args = args) by (unfold TeamsTeamRemoveCommand.adopted; now rewrite Hteam).
  rewrite Hopts. rewrite Hteam. cbn [truthy app].
  assert (Hmsg : confirmation args
                 = {| prompt_type := "confirm"; prompt_name := "continue";
                      prompt_default := false;
                      prompt_message := "Are you sure you want to remove the team undefined?" |}).
  { unfold confirmation. now rewrite Hteam. }
  destruct (answer (confirmation args)).
  - destruct (removeTeam_cases args {| fs := f; trace := [Prompt (confirmation args)] |})
      as (evs & Htrace & _ & Hp & _).
    cbv zeta in Htrace. rewrite Htrace. cbn [trace]. unfold prompts in *.
    rewrite omap_app, Hp. cbn. now rewrite Hmsg.
  - cbn. now rewrite Hmsg.
Qed.

(** X7. In [teams team remove] the deprecated [teamId] wins over [id] and
    [name]: when it is given (and [confirm] too), the one request sent is
    the DELETE of that team, and no group is looked up by name, whatever
    [id] and [name] hold. *)
Theorem team_remove_teamId_wins (args : Options) (f : Fs) :
  truthy (args !! "teamId") = true ->
  truthy (args !! "confirm") = true ->
  let run := commandAction (P := P) env getGroupByDisplayName deleted answer args
               (Samples.start f) in
  sentRequests (trace (snd run)) = [(DELETE, deleteUrl env (tmpl (args !! "teamId")))]
  /\ lookups (trace (snd run)) = [].
Proof.
  intros Hteam Hconfirm run. subst run. rewrite team_remove_run, Hconfirm, Hteam.
  assert (Hid : TeamsTeamRemoveCommand.adopted args !! "id" = args !! "teamId").
  { unfold TeamsTeamRemoveCommand.adopted, adoptTeamId. rewrite Hteam.
    destruct (args !! "teamId") as [v|] eqn:E; [|discriminate]. apply lookup_insert_eq. }
  match goal with |- context [removeTeam _ _ _ _ ?w] =>
    destruct (removeTeam_cases (TeamsTeamRemoveCommand.adopted args) w) as (evs & Htrace & _ & _ & _ & _ & Hcases)
  end.
  cbv zeta in Htrace, Hcases. rewrite Htrace. cbn [trace].
  rewrite sentRequests_app, lookups_app. cbn [sentRequests lookups omap app].
  rewrite Hid in Hcases.
  destruct Hcases as [(_ & Hl & Hs) | (Hno & _)]; [|congruence].
  now rewrite Hl, Hs.
Qed.

Lemma adopted_id (args : Options) :
  TeamsTeamRemoveCommand.adopted args !! "id"
  = if truthy (args !! "teamId") then args !! "teamId" else args !! "id".
Proof.
  unfold TeamsTeamRemoveCommand.adopted, adoptTeamId.
  destruct (truthy (args !! "teamId")) eqn:Hteam; [|reflexivity].
  destruct (args !! "teamId") as [v|]; [apply lookup_insert_eq|discriminate].
Qed.

(** With an id to go by, [commandAction] looks no group up and sends
    nothing but the DELETE of that id. *)
Lemma team_remove_by_id (args : Options) (f : Fs) :
  truthy (TeamsTeamRemoveCommand.adopted args !! "id") = true ->
  let run := commandAction (P := P) env getGroupByDisplayName deleted answer args
               (Samples.start f) in
  lookups (trace (snd run)) = []
  /\ (sentRequests (trace (snd run)) = []
      \/ sentRequests (trace (snd run))
         = [(DELETE, deleteUrl env (tmpl (TeamsTeamRemoveCommand.adopted args !! "id")))]).
Proof.
  intros Hid run.
  destruct (team_remove_shape args f)
    as (pre & w & Hreq & Hlook & _ & [Hrun | (Hfs & Htr & Hrun)]);
    subst run; rewrite Hrun; cbn [snd trace].
  - split; [assumption|now left].
  - destruct (removeTeam_cases (TeamsTeamRemoveCommand.adopted args) w) as (evs & Htrace & _ & _ & _ & _ & Hcases).
    cbv zeta in Htrace, Hcases.
    rewrite Htrace, Htr, sentRequests_app, lookups_app, Hreq, Hlook. cbn [app].
    destruct Hcases as [(_ & Hl & Hs) | (Hno & _)]; [|congruence].
    rewrite Hl, Hs. split; [reflexivity|now right].
Qed.

(** X8. Once the validator of [teams team remove] has passed, the team is
    given either by name alone, and is then looked up by name, or by an id
    ([id], or [teamId] adopted as [id]) that is a valid GUID, and then no
    group is looked up and only that id can appear in the DELETE request. *)
Theorem team_remove_validated (isValidGuid : string -> bool) (args : Options) (f : Fs) :
  TeamsTeamRemoveCommand.validator isValidGuid args = Pass ->
  let run := commandAction (P := P) env getGroupByDisplayName deleted answer args
               (Samples.start f) in
  let opts := TeamsTeamRemoveCommand.adopted args in
  (truthy (args !! "name") = true /\ truthy (opts !! "id") = false)
  \/ (truthy (args !! "name") = false
      /\ truthy (opts !! "id") = true
      /\ isValidGuid (tmpl (opts !! "id")) = true
      /\ lookups (trace (snd run)) = []
      /\ (sentRequests (trace (snd run)) = []
          \/ sentRequests (trace (snd run)) = [(DELETE, deleteUrl env (tmpl (opts !! "id")))])).
Proof.
  intros Hv run opts. subst opts. unfold TeamsTeamRemoveCommand.validator in Hv.
  pose proof (adopted_id args) as Hopts.
  destruct (truthy (args !! "name")) eqn:Hname.
  - left. split; [reflexivity|]. rewrite Hopts.
    destruct (truthy (args !! "id")) eqn:Hid;
      destruct (truthy (args !! "teamId")) eqn:Hteam; cbn in Hv; try discriminate.
    assumption.
  - right. split; [reflexivity|].
    assert (Hok : truthy (TeamsTeamRemoveCommand.adopted args !! "id") = true
                  /\ isValidGuid (tmpl (TeamsTeamRemoveCommand.adopted args !! "id")) = true).
    { rewrite Hopts.
      destruct (truthy (args !! "id")) eqn:Hid;
        destruct (truthy (args !! "teamId")) eqn:Hteam; cbn in Hv; try discriminate.
      - destruct (isValidGuid (tmpl (args !! "teamId"))); [now split|discriminate].
      - destruct (isValidGuid (tmpl (args !! "id"))); [now split|discriminate].
      - destruct (isValidGuid (tmpl (args !! "teamId"))); [now split|discriminate]. }
    destruct Hok as [Hid Hguid]. split; [assumption|]. split; [assumption|].
    now apply team_remove_by_id.
Qed.

End TeamRemoveMore.

Lemma team_remove_prompt_undefined_witness :
  Io.prompts (Io.trace (snd (TeamsTeamRemove.commandAction (P := unit) Samples.env
                               (fun _ => Io.Err (Io.RString "unused")) (fun _ => Io.Ok tt)
                               (fun _ => false)
                               (<["id" := Js.VStr "00000000-0000-0000-0000-000000000000"]> ∅)
                               (Samples.start Samples.noFiles))))
  = [{| Io.prompt_type := "confirm"; Io.prompt_name := "continue";
        Io.prompt_default := false;
        Io.prompt_message := "Are you sure you want to remove the team undefined?" |}].
Proof.
  refine (team_remove_prompt_undefined (P := unit) Samples.env
            (fun _ => Io.Err (Io.RString "unused")) (fun _ => Io.Ok tt) (fun _ => false)
            (<["id" := Js.VStr "00000000-0000-0000-0000-000000000000"]> ∅)
            Samples.noFiles _ _); reflexivity.
Defined.

Lemma team_remove_teamId_wins_witness :
  Telemetry.lookups
    (Io.trace (snd (TeamsTeamRemove.commandAction (P := unit) Samples.env
                      (fun _ => Io.Err (Io.RString "unused")) (fun _ => Io.Ok tt)
                      (fun _ => false)
                      (<["teamId" := Js.VStr "T"]>
                         (<["name" := Js.VStr "Contoso"]>
                            (<["confirm" := Js.VBool true]> ∅)))
                      (Samples.start Samples.noFiles))))
  = [].
Proof.
  refine (proj2 (team_remove_teamId_wins (P := unit) Samples.env
                   (fun _ => Io.Err (Io.RString "unused")) (fun _ => Io.Ok tt)
                   (fun _ => false)
                   (<["teamId" := Js.VStr "T"]>
                      (<["name" := Js.VStr "Contoso"]>
                         (<["confirm" := Js.VBool true]> ∅)))
                   Samples.noFiles _ _)); reflexivity.
Defined.

Lemma team_remove_validated_witness :
  (Js.truthy ((<["name" := Js.VStr "Contoso"]> ∅ : Js.Options) !! "name") = true
   /\ Js.truthy (TeamsTeamRemoveCommand.adopted (<["name" := Js.VStr "Contoso"]> ∅) !! "id")
      = false)
  \/ Js.truthy ((<["name" := Js.VStr "Contoso"]> ∅ : Js.Options) !! "name") = false.
Proof.
  destruct (team_remove_validated (P := unit) Samples.env
              (fun _ => Io.Err (Io.RString "unused")) (fun _ => Io.Ok tt) (fun _ => false)
              (fun _ => true) (<["name" := Js.VStr "Contoso"]> ∅) Samples.noFiles)
    as [H | (H & _)].
  - reflexivity.
  - left. exact H.
  - right. exact H.
Defined.

(** ** aad sp get, aad app get: what a run sends and prints *)

Section GetMore.
Import Js Io Framework Telemetry M365Rc.
Variable env : Env.

Lemma stdout_app' {Q} (a b : list (Event Q)) : stdout (a ++ b) = stdout a ++ stdout b.
Proof. apply omap_app. Qed.

Lemma writes_app' {Q} (a b : list (Event Q)) : writes (a ++ b) = writes a ++ writes b.
Proof. apply omap_app. Qed.

(** X9. [aad sp get] prints a service principal only when it was given
    by object id, or when the lookup found exactly one: the run then sends
    the request for that one; every other run prints nothing, and a failure
    is the [CommandError] of what was thrown. The files are never touched. *)
Theorem sp_get_outcome {P : Type} (servicePrincipals : string -> Result (list string))
    (servicePrincipal : string -> Result P) (opts : Options) (f : Fs) :
  let run := AadSpGet.commandAction env servicePrincipals servicePrincipal opts
               (Samples.start f) in
  let url id := resource env +:+ "/v1.0/servicePrincipals/" +:+ id in
  Reported env (fst run)
  /\ fs (snd run) = f
  /\ ((fst run <> Ok tt /\ stdout (trace (snd run)) = [])
      \/ exists id res,
           fst run = Ok tt
           /\ servicePrincipal (url id) = Ok res
           /\ stdout (trace (snd run)) = [res]
           /\ if truthy (opts !! "objectId")
              then id = tmpl (opts !! "objectId")
                   /\ sentRequests (trace (snd run)) = [(GET, url id)]
              else servicePrincipals (AadSpGet.lookupUrl env opts) = Ok [id]
                   /\ sentRequests (trace (snd run))
                      = [(GET, AadSpGet.lookupUrl env opts); (GET, url id)]).
Proof.
  intros run url. subst run url.
  unfold AadSpGet.commandAction, AadSpGet.getSpId, try_catch, bind, request,
    handleRejectedODataJsonPromise, when, emit, await, throw, ret, Samples.start.
  destruct (verbose env); cbn;
  (destruct (truthy (opts !! "objectId")) eqn:Hobj; cbn;
   [ destruct (servicePrincipal _) as [res|r] eqn:Hres; cbn;
     [ split; [exact I|]; split; [reflexivity|]; right;
       exists (tmpl (opts !! "objectId")), res; now repeat split
     | split; [now eexists|]; split; [reflexivity|]; left; now split ]
   | destruct (servicePrincipals _) as [[|id [|id' ids]]|r] eqn:Hids; cbn;
     [ split; [now eexists|]; split; [reflexivity|]; left; now split
     | destruct (servicePrincipal _) as [res|r] eqn:Hres; cbn;
       [ split; [exact I|]; split; [reflexivity|]; right;
         exists id, res; now repeat split
       | split; [now eexists|]; split; [reflexivity|]; left; now split ]
     | split; [now eexists|]; split; [reflexivity|]; left; now split
     | split; [now eexists|]; split; [reflexivity|]; left; now split ] ]).
Qed.

Variable codec : Codec.

(** The save step of [aad app get], with or without [save]: it prints
    nothing and sends no request; without [save] it does nothing, and when
    it throws it has written nothing. *)
Lemma app_get_save_any (opts : Options) (appInfo : AadAppGet.Application) (f : Fs) :
  exists r evs f',
    (forall tr, AadAppGet.saveAppInfo env codec opts appInfo {| fs := f; trace := tr |}
                = (r, {| fs := f'; trace := tr ++ evs |}))
    /\ stdout evs = [] /\ sentRequests evs = []
    /\ (if truthy (opts !! "save") then True else f' = f /\ writes evs = [])
    /\ match r with
       | Ok a => a = appInfo
       | Err _ => f' = f /\ writes evs = []
       end.
Proof.
  destruct (truthy (opts !! "save")) eqn:E.
  - destruct (app_get_save_spec env codec opts appInfo f E)
      as (r & evs & f' & H & Ho & Hreq & _ & _ & _ & Hr).
    exists r, evs, f'. split; [assumption|]. split; [assumption|]. split; [assumption|].
    split; [exact I|]. destruct r; [assumption|]. destruct Hr as (Hf & Hw & _). now split.
  - exists (Ok appInfo), [], f. split.
    + intros tr. rewrite app_nil_r. now apply app_get_save_off.
    + now repeat split.
Qed.

(** The same for [aad app add]; its save step throws only with [save], on
    a registration file that was read and parsed and whose document cannot
    take the app registration. *)
Lemma app_add_save_any (opts : Options) (appInfo : AadAppAdd.AppInfo) (appName : string)
    (f : Fs) :
  exists r evs f',
    (forall tr, AadAppAdd.saveAppInfo env codec opts appInfo appName
                  {| fs := f; trace := tr |}
                = (r, {| fs := f'; trace := tr ++ evs |}))
    /\ stdout evs = [] /\ sentRequests evs = []
    /\ (if truthy (opts !! "save") then True else f' = f /\ writes evs = [])
    /\ match r with
       | Ok a => a = appInfo
       | Err e =>
           f' = f /\ writes evs = []
           /\ truthy (opts !! "save") = true
           /\ exists m365rc, Loaded codec f m365rc /\ appsOf "push" m365rc = Err e
       end.
Proof.
  destruct (truthy (opts !! "save")) eqn:E.
  - destruct (app_add_save_spec env codec opts appInfo appName f E)
      as (r & evs & f' & H & Ho & Hreq & _ & _ & Hr).
    exists r, evs, f'. split; [assumption|]. split; [assumption|]. split; [assumption|].
    split; [exact I|]. destruct r; [assumption|]. destruct Hr as (Hf & Hw & Hm).
    now repeat split.
  - exists (Ok appInfo), [], f. split.
    + intros tr. rewrite app_nil_r. now apply app_add_save_off.
    + now repeat split.
Qed.

(** The lookup of [aad app get] reads and writes no file, and sends at most
    the lookup request. *)
Lemma app_get_lookup_cases (applications : string -> Result (list string)) (opts : Options)
    (w : World AadAppGet.Application) :
  exists r evs,
    AadAppGet.getAppObjectId env applications opts w
    = (r, {| fs := fs w; trace := trace w ++ evs |})
    /\ stdout evs = [] /\ writes evs = []
    /\ (if truthy (opts !! "objectId")
        then r = Ok (tmpl (opts !! "objectId")) /\ sentRequests evs = []
        else sentRequests evs = [(GET, AadAppGet.lookupUrl env opts)]
             /\ match r with
                | Ok id => applications (AadAppGet.lookupUrl env opts) = Ok [id]
                | Err _ => True
                end).
Proof.
  unfold AadAppGet.getAppObjectId, bind, request, emit, await, throw, ret.
  destruct (truthy (opts !! "objectId")); cbn.
  - exists (Ok (tmpl (opts !! "objectId"))), []. rewrite app_nil_r. destruct w. now repeat split.
  - destruct (applications _) as [[|id [|id' ids]]|r] eqn:Hids; cbn;
      eexists _, _; (split; [reflexivity|]); now repeat split.
Qed.

(** X10. [aad app get] prints the app registration only after it was
    retrieved, and prints it once; what it sends is the lookup, unless the
    object id was given, and the request for the app registration. A run
    that fails reports a [CommandError], prints nothing and leaves the
    files as they were, and so does, for the files, a run without [save]. *)
Theorem app_get_outcome (applications : string -> Result (list string))
    (application : string -> Result AadAppGet.Application) (opts : Options) (f : Fs) :
  let run := AadAppGet.commandAction env codec applications application opts
               (Samples.start f) in
  let url id := resource env +:+ "/v1.0/myorganization/applications/" +:+ id in
  match fst run with
  | Ok _ =>
      exists id appInfo,
        application (url id) = Ok appInfo
        /\ stdout (trace (snd run)) = [appInfo]
        /\ (if truthy (opts !! "objectId")
            then id = tmpl (opts !! "objectId")
                 /\ sentRequests (trace (snd run)) = [(GET, url id)]
            else applications (AadAppGet.lookupUrl env opts) = Ok [id]
                 /\ sentRequests (trace (snd run))
                    = [(GET, AadAppGet.lookupUrl env opts); (GET, url id)])
        /\ (if truthy (opts !! "save") then True
            else fs (snd run) = f /\ writes (trace (snd run)) = [])
  | Err reason =>
      (exists thrown, reason = CommandError (extractMessage env thrown))
      /\ stdout (trace (snd run)) = []
      /\ fs (snd run) = f
      /\ writes (trace (snd run)) = []
  end.
Proof.
  intros run url. subst run url.
  destruct (app_get_lookup_cases applications opts (Samples.start f))
    as (r & evs & Hlookup & Hout & Hwr & Hcases).
  cbn [Samples.start fs trace app] in Hlookup.
  destruct r as [id|r].
  - destruct (application (resource env +:+ "/v1.0/myorganization/applications/" +:+ id))
      as [appInfo|r] eqn:Happ.
    + destruct (app_get_save_any opts appInfo f)
        as (r & evs' & f' & Hsave & Hquiet & Hreq & Hoff & Hr).
      unfold AadAppGet.commandAction, AadAppGet.getAppInfo, request, try_catch, bind, emit,
        await, handleRejectedODataJsonPromise, throw.
      rewrite Hlookup. cbn [fst snd trace fs]. rewrite Happ. cbn [fst snd trace fs].
      rewrite Hsave. destruct r as [a|e]; cbn [fst snd trace fs].
      * subst a. exists id, appInfo. split; [assumption|]. split.
        -- rewrite !stdout_app', Hout, Hquiet. reflexivity.
        -- split.
           ++ rewrite !sentRequests_app, Hreq.
              destruct (truthy (opts !! "objectId")).
              ** destruct Hcases as [[= <-] ->]. now split.
              ** destruct Hcases as [-> Hids]. now split.
           ++ destruct (truthy (opts !! "save")); [exact I|].
              destruct Hoff as [-> Hw]. split; [reflexivity|].
              rewrite !writes_app', Hwr, Hw. reflexivity.
      * destruct Hr as [-> Hw]. split; [now eexists|].
        rewrite !stdout_app', !writes_app', Hout, Hwr, Hquiet, Hw. now repeat split.
    + unfold AadAppGet.commandAction, AadAppGet.getAppInfo, request, try_catch, bind, emit,
        await, handleRejectedODataJsonPromise, throw.
      rewrite Hlookup. cbn [fst snd trace fs]. rewrite Happ. cbn [fst snd trace fs].
      split; [now eexists|]. rewrite !stdout_app', !writes_app', Hout, Hwr. now repeat split.
  - rewrite (app_get_lookup_rejected env codec applications application opts _ _ r Hlookup).
    cbn [fst snd trace fs]. split; [now eexists|]. now repeat split.
Qed.

(** X11. The object id that [aad sp get] and [aad app get] put into the
    url of their request as it is, without encoding, has passed the GUID
    check of the validator: when the validator passes and [objectId] is
    given, the one request of the run is the one for the object with that
    id, and the id is a valid GUID. *)
Theorem object_id_is_validated {P : Type} (isValidGuid : string -> bool)
    (servicePrincipals applications : string -> Result (list string))
    (servicePrincipal : string -> Result P)
    (application : string -> Result AadAppGet.Application) (opts : Options) (f : Fs) :
  truthy (opts !! "objectId") = true ->
  (AadSpGetCommand.validator isValidGuid opts = Pass ->
   isValidGuid (tmpl (opts !! "objectId")) = true
   /\ sentRequests (trace (snd (AadSpGet.commandAction env servicePrincipals servicePrincipal
                                  opts (Samples.start f))))
      = [(GET, resource env +:+ "/v1.0/servicePrincipals/" +:+ tmpl (opts !! "objectId"))])
  /\ (AadAppGetCommand.validator isValidGuid opts = Pass ->
      isValidGuid (tmpl (opts !! "objectId")) = true
      /\ sentRequests (trace (snd (AadAppGet.commandAction env codec applications application
                                     opts (Samples.start f))))
         = [(GET, resource env +:+ "/v1.0/myorganization/applications/"
                  +:+ tmpl (opts !! "objectId"))]).
Proof.
  intros Hobj. split; intros Hv.
  - split.
    + unfold AadSpGetCommand.validator in Hv. rewrite Hobj in Hv.
      destruct (truthy (opts !! "appId") && _); [discriminate|].
      now destruct (isValidGuid (tmpl (opts !! "objectId"))).
    + unfold AadSpGet.commandAction, AadSpGet.getSpId, try_catch, bind, request,
        handleRejectedODataJsonPromise, when, emit, await, throw, ret, Samples.start.
      rewrite Hobj. destruct (verbose env); cbn; now destruct (servicePrincipal _).
  - split.
    + unfold AadAppGetCommand.validator in Hv. rewrite Hobj in Hv.
      destruct (truthy (opts !! "appId") && _); [discriminate|].
      now destruct (isValidGuid (tmpl (opts !! "objectId"))).
    + destruct (app_get_lookup_cases applications opts (Samples.start f))
        as (r & evs & Hlookup & _ & _ & Hcases).
      rewrite Hobj in Hcases. destruct Hcases as [-> Hreq].
      cbn [Samples.start fs trace app] in Hlookup.
      unfold AadAppGet.commandAction, AadAppGet.getAppInfo, request, try_catch, bind, emit,
        await, handleRejectedODataJsonPromise, throw.
      rewrite Hlookup. cbn [fst snd trace fs].
      destruct (application _) as [appInfo|r]; cbn [fst snd trace fs].
      * destruct (app_get_save_any opts appInfo f)
          as (r & evs' & f' & Hsave & _ & Hreq' & _ & _).
        rewrite Hsave. destruct r; cbn [fst snd trace fs];
          rewrite !sentRequests_app, Hreq, Hreq'; reflexivity.
      * rewrite !sentRequests_app, Hreq. reflexivity.
Qed.

End GetMore.

Lemma object_id_is_validated_witness :
  (fun _ : string => true) (Js.tmpl ((<["objectId" := Js.VStr "oid"]> ∅ : Js.Options) !! "objectId"))
  = true.
Proof.
  assert (Hobj : Js.truthy ((<["objectId" := Js.VStr "oid"]> ∅ : Js.Options) !! "objectId")
                 = true) by reflexivity.
  assert (Hv : AadSpGetCommand.validator (fun _ => true) (<["objectId" := Js.VStr "oid"]> ∅)
               = Framework.Pass) by reflexivity.
  exact (proj1 (proj1 (object_id_is_validated (P := unit) Samples.env (Samples.codec [])
                         (fun _ => true) (fun _ => Io.Ok []) (fun _ => Io.Ok [])
                         (fun _ => Io.Ok tt) (fun _ => Io.Ok Samples.app)
                         (<["objectId" := Js.VStr "oid"]> ∅) Samples.noFiles Hobj) Hv)).
Defined.

(** ** teams channel get, teams channel set *)

Section ChannelMore.
Import Js Io Framework Telemetry.
Context {P : Type}.
Variable env : Env.

(** X12. [teams channel get] asks for a channel of a team only: a run
    sends nothing unless the team was given by id or the group found by
    name is a team, and what it then sends is, with [channelId] or
    [primary], the one request for the channel, and otherwise the lookup
    by channel name, followed, when the lookup found a channel, by the
    request for the first channel found. The result is printed by a
    successful run only, and a failure is a [CommandError]. *)
Theorem channel_get_requests (getGroupByDisplayName : option Value -> Result TeamsTeamRemove.Group)
    (channels : string -> Result (list string)) (channel : string -> Result P)
    (opts : Options) (f : Fs) :
  let run := TeamsChannelGetCommand.commandAction env getGroupByDisplayName channels channel
               opts (Samples.start f) in
  let url := TeamsChannelGetCommand.channelUrl env opts in
  Reported env (fst run)
  /\ ((fst run = Ok tt /\ exists res, stdout (trace (snd run)) = [res])
      \/ (fst run <> Ok tt /\ stdout (trace (snd run)) = []))
  /\ (sentRequests (trace (snd run)) = []
      \/ exists teamId,
           (if truthy (opts !! "teamId") then teamId = tmpl (opts !! "teamId")
            else exists group,
                   getGroupByDisplayName (opts !! "teamName") = Ok group
                   /\ "Team" ∈ TeamsTeamRemove.resourceProvisioningOptions group
                   /\ teamId = TeamsTeamRemove.id group)
           /\ (if truthy (opts !! "channelId") then
                 sentRequests (trace (snd run)) = [(GET, url teamId (tmpl (opts !! "channelId")))]
               else if truthy (opts !! "primary") then
                 sentRequests (trace (snd run)) = [(GET, url teamId "")]
               else
                 let lookup := TeamsChannelGet.lookupUrl env teamId opts in
                 sentRequests (trace (snd run)) = [(GET, lookup)]
                 \/ exists channelId rest,
                      channels lookup = Ok (channelId :: rest)
                      /\ sentRequests (trace (snd run))
                         = [(GET, lookup); (GET, url teamId channelId)])).
Proof.
  intros run url. subst run url.
  unfold TeamsChannelGetCommand.commandAction, TeamsChannelGetCommand.getTeamId,
    TeamsChannelGet.getChannelId, request, try_catch, bind,
    handleRejectedODataJsonPromise, emit, await, throw, ret, Samples.start.
  assert (Hteam : forall group : TeamsTeamRemove.Group,
             bool_decide ("Team" ∉ TeamsTeamRemove.resourceProvisioningOptions group) = false ->
             "Team" ∈ TeamsTeamRemove.resourceProvisioningOptions group).
  { intros group H. apply bool_decide_eq_false in H.
    destruct (decide ("Team" ∈ TeamsTeamRemove.resourceProvisioningOptions group));
      [assumption|contradiction]. }
  destruct (truthy (opts !! "teamId")) eqn:Hid; cbn.
  - destruct (truthy (opts !! "channelId")) eqn:Hch; cbn;
      [|destruct (truthy (opts !! "primary")) eqn:Hpr; cbn].
    + destruct (channel _) as [res|r]; cbn;
        (split; [first [exact I|now eexists]|]);
        (split; [first [left; split; [reflexivity|now eexists] | right; now split]|]);
        right; exists (tmpl (opts !! "teamId")); now split.
    + destruct (channel _) as [res|r]; cbn;
        (split; [first [exact I|now eexists]|]);
        (split; [first [left; split; [reflexivity|now eexists] | right; now split]|]);
        right; exists (tmpl (opts !! "teamId")); now split.
    + destruct (channels _) as [[|channelId rest]|r] eqn:Hchs; cbn;
        [| destruct (channel _) as [res|r]; cbn | ];
        (split; [first [exact I|now eexists]|]);
        (split; [first [left; split; [reflexivity|now eexists] | right; now split]|]);
        right; exists (tmpl (opts !! "teamId")); (split; [reflexivity|]);
        first [now left | right; exists channelId, rest; now split].
  - destruct (getGroupByDisplayName _) as [group|r] eqn:Hg; cbn;
      [destruct (bool_decide _) eqn:Hteam'; cbn|].
    + split; [now eexists|]. split; [right; now split|]. now left.
    + apply Hteam in Hteam'.
      destruct (truthy (opts !! "channelId")) eqn:Hch; cbn;
        [|destruct (truthy (opts !! "primary")) eqn:Hpr; cbn].
      * destruct (channel _) as [res|r]; cbn;
          (split; [first [exact I|now eexists]|]);
          (split; [first [left; split; [reflexivity|now eexists] | right; now split]|]);
          right; exists (TeamsTeamRemove.id group); (split; [now exists group|]); reflexivity.
      * destruct (channel _) as [res|r]; cbn;
          (split; [first [exact I|now eexists]|]);
          (split; [first [left; split; [reflexivity|now eexists] | right; now split]|]);
          right; exists (TeamsTeamRemove.id group); (split; [now exists group|]); reflexivity.
      * destruct (channels _) as [[|channelId rest]|r] eqn:Hchs; cbn;
          [| destruct (channel _) as [res|r]; cbn | ];
          (split; [first [exact I|now eexists]|]);
          (split; [first [left; split; [reflexivity|now eexists] | right; now split]|]);
          right; exists (TeamsTeamRemove.id group); (split; [now exists group|]);
          first [now left | right; exists channelId, rest; now split].
    + split; [now eexists|]. split; [right; now split|]. now left.
Qed.

(** The body [mapRequestBody] builds holds the new name and the description
    that were given, under [displayName] and [description], and nothing
    else. *)
Lemma mapRequestBody_spec (opts : Options) (key : string) (v : option string) :
  (key, v) ∈ TeamsChannelSetCommand.mapRequestBody opts
  <-> (key = "displayName" /\ truthy (opts !! "newChannelName") = true
       /\ v = Some (tmpl (opts !! "newChannelName")))
      \/ (key = "description" /\ truthy (opts !! "description") = true
          /\ v = Some (tmpl (opts !! "description"))).
Proof.
  unfold TeamsChannelSetCommand.mapRequestBody.
  destruct (truthy (opts !! "newChannelName")), (truthy (opts !! "description")); cbn;
    split; intros H; rewrite ?elem_of_cons, ?elem_of_nil in *.
  all: repeat match goal with
         | H : _ \/ _ |- _ => destruct H
         | H : _ /\ _ |- _ => destruct H
         | H : (_, _) = (_, _) |- _ => injection H as -> ->
         | H : False |- _ => destruct H
         end; subst; try discriminate; auto 6.
Qed.

(** X13. [teams channel set] updates the first channel the lookup by name
    finds, and no other: a run sends the lookup, and then at most one
    PATCH, to that channel, whose body holds the new name and the
    description that were given and nothing else. When the lookup finds no
    channel or fails, nothing is patched and the run fails with a
    [CommandError]. Nothing is printed. *)
Theorem channel_set_patches_first_match (channels : string -> Result (list string))
    (patchedChannel : string -> Result unit) (opts : Options) (f : Fs) :
  let run := TeamsChannelSetCommand.commandAction (P := P) env channels patchedChannel opts
               (Samples.start f) in
  let lookup := TeamsChannelSetCommand.lookupUrl env opts in
  Reported env (fst run)
  /\ stdout (trace (snd run)) = []
  /\ (forall key v,
        (key, v) ∈ TeamsChannelSetCommand.mapRequestBody opts
        <-> (key = "displayName" /\ truthy (opts !! "newChannelName") = true
             /\ v = Some (tmpl (opts !! "newChannelName")))
            \/ (key = "description" /\ truthy (opts !! "description") = true
                /\ v = Some (tmpl (opts !! "description"))))
  /\ match channels lookup with
     | Ok (channelId :: _) =>
         let url := TeamsChannelSetCommand.patchUrl env opts channelId in
         sentRequests (trace (snd run)) = [(GET, lookup); (PATCH, url)]
         /\ patched (trace (snd run)) = [(url, TeamsChannelSetCommand.mapRequestBody opts)]
         /\ fst run = match patchedChannel url with
                      | Ok _ => Ok tt
                      | Err r => Err (CommandError (extractMessage env r))
                      end
     | Ok [] =>
         sentRequests (trace (snd run)) = [(GET, lookup)]
         /\ fst run = Err (CommandError (extractMessage env
                             (RString "The specified channel does not exist in the Microsoft Teams team")))
     | Err r =>
         sentRequests (trace (snd run)) = [(GET, lookup)]
         /\ fst run = Err (CommandError (extractMessage env r))
     end.
Proof.
  intros run lookup. subst run lookup.
  pose proof (mapRequestBody_spec opts) as Hbody.
  unfold TeamsChannelSetCommand.commandAction, request, try_catch, bind,
    handleRejectedODataJsonPromise, emit, await, throw, ret, Samples.start.
  destruct (channels _) as [[|channelId rest]|r]; cbn.
  - split; [now eexists|]. split; [reflexivity|]. split; [exact Hbody|]. now split.
  - destruct (patchedChannel _) as [[]|r]; cbn;
      (split; [first [exact I|now eexists]|]); (split; [reflexivity|]);
      (split; [exact Hbody|]); now repeat split.
  - split; [now eexists|]. split; [reflexivity|]. split; [exact Hbody|]. now split.
Qed.

End ChannelMore.

(** ** aad app add: the permissions recorded for the admin consent *)

Section AppPermissionsMore.
Import Js Io Framework Telemetry AadAppAddCommand.

Lemma existsb_eqb_elem_of (value : string) (l : list string) :
  existsb (String.eqb value) l = true <-> value ∈ l.
Proof.
  rewrite existsb_exists. split.
  - intros (x & Hin & Heq). apply String.eqb_eq in Heq as ->. now apply list_elem_of_In.
  - intros Hin. exists value. split; [now apply list_elem_of_In|apply String.eqb_refl].
Qed.

Lemma existsb_ra_id_elem_of (access : AadAppAdd.ResourceAccess)
    (l : list AadAppAdd.ResourceAccess) :
  existsb (fun res => String.eqb (AadAppAdd.ra_id res) (AadAppAdd.ra_id access)) l = true
  <-> AadAppAdd.ra_id access ∈ map AadAppAdd.ra_id l.
Proof.
  rewrite existsb_exists. split.
  - intros (x & Hin & Heq). apply String.eqb_eq in Heq as <-.
    apply list_elem_of_In, in_map, Hin.
  - intros Hin. apply list_elem_of_In, in_map_iff in Hin as (x & Heq & Hin).
    exists x. split; [assumption|]. now apply String.eqb_eq.
Qed.

Lemma NoDup_snoc {A} (l : list A) (x : A) : NoDup l -> x ∉ l -> NoDup (l ++ [x]).
Proof.
  intros Hl Hx. apply NoDup_app. split; [assumption|]. split.
  - intros y Hy Hin. apply list_elem_of_singleton in Hin as ->. contradiction.
  - apply NoDup_singleton.
Qed.

(** The entry [record] works on keeps its scopes and its access ids
    distinct. *)
Lemma record_tidy (access : AadAppAdd.ResourceAccess) (value : option string)
    (p : AadAppAdd.AppPermissions) :
  NoDup (AadAppAdd.scope p) /\ NoDup (map AadAppAdd.ra_id (AadAppAdd.resourceAccess p)) ->
  NoDup (AadAppAdd.scope (record access value p))
  /\ NoDup (map AadAppAdd.ra_id (AadAppAdd.resourceAccess (record access value p))).
Proof.
  intros [Hscope Hids]. unfold record. cbn. split.
  - destruct value as [v|]; [|assumption].
    destruct (String.eqb _ "Scope" && given (Some v)); cbn; [|assumption].
    destruct (existsb (String.eqb v) (AadAppAdd.scope p)) eqn:E; cbn; [assumption|].
    apply NoDup_snoc; [assumption|]. intros Hin. apply existsb_eqb_elem_of in Hin. congruence.
  - destruct (existsb _ (AadAppAdd.resourceAccess p)) eqn:E; [assumption|].
    rewrite map_app. cbn. apply NoDup_snoc; [assumption|].
    intros Hin. apply existsb_ra_id_elem_of in Hin. congruence.
Qed.

Lemma record_idempotent (access : AadAppAdd.ResourceAccess) (value : option string)
    (p : AadAppAdd.AppPermissions) :
  record access value (record access value p) = record access value p.
Proof.
  unfold record. cbn. f_equal.
  - destruct (existsb _ (AadAppAdd.resourceAccess p)) eqn:E.
    + now rewrite E.
    + rewrite existsb_app. cbn. rewrite String.eqb_refl, orb_true_r. reflexivity.
  - destruct value as [v|]; [|reflexivity].
    destruct (String.eqb _ "Scope" && given (Some v)) eqn:C; cbn; [|reflexivity].
    destruct (existsb (String.eqb v) (AadAppAdd.scope p)) eqn:E; cbn.
    + now rewrite E.
    + rewrite existsb_app. cbn. rewrite String.eqb_refl, orb_true_r. reflexivity.
Qed.

(** The service principals [updateAppPermissions] holds an entry for. *)
Lemma updateAppPermissions_resourceIds (spId : string) (access : AadAppAdd.ResourceAccess)
    (value : option string) (appPermissions : list AadAppAdd.AppPermissions) :
  map AadAppAdd.resourceId (updateAppPermissions spId access value appPermissions)
  = if bool_decide (spId ∈ map AadAppAdd.resourceId appPermissions)
    then map AadAppAdd.resourceId appPermissions
    else map AadAppAdd.resourceId appPermissions ++ [spId].
Proof.
  induction appPermissions as [|oauth rest IH]; [reflexivity|].
  cbn [updateAppPermissions]. destruct (String.eqb_spec (AadAppAdd.resourceId oauth) spId) as [Heq|Hne].
  - rewrite bool_decide_eq_true_2; [reflexivity|]. cbn. rewrite Heq. apply list_elem_of_here.
  - cbn [map]. rewrite IH. destruct (bool_decide (spId ∈ map AadAppAdd.resourceId rest)) eqn:E.
    + apply bool_decide_eq_true in E. rewrite bool_decide_eq_true_2; [reflexivity|].
      now apply list_elem_of_further.
    + apply bool_decide_eq_false in E. rewrite bool_decide_eq_false_2; [reflexivity|].
      intros Hin. apply elem_of_cons in Hin as [Hin|Hin]; [congruence|contradiction].
Qed.

(** Recording one more permission keeps [this.appPermissions] free of
    duplicates. *)
Lemma updateAppPermissions_keeps_tidy (spId : string) (access : AadAppAdd.ResourceAccess)
    (value : option string) (appPermissions : list AadAppAdd.AppPermissions) :
  Tidy appPermissions -> Tidy (updateAppPermissions spId access value appPermissions).
Proof.
  intros [Hids Hentries]. split.
  - rewrite updateAppPermissions_resourceIds.
    destruct (bool_decide (spId ∈ map AadAppAdd.resourceId appPermissions)) eqn:E;
      [assumption|].
    apply bool_decide_eq_false in E. now apply NoDup_snoc.
  - clear Hids. induction Hentries as [|p rest Hp Hrest IH]; cbn [updateAppPermissions].
    + constructor; [|constructor]. apply record_tidy. cbn. split; constructor.
    + destruct (String.eqb (AadAppAdd.resourceId p) spId).
      * constructor; [now apply record_tidy|assumption].
      * constructor; assumption.
Qed.

(** X14. [updateAppPermissions] keeps [this.appPermissions] free of
    duplicates: when the service principals of the entries are distinct,
    and the scopes and the access ids of each entry are, they still are
    after recording one more permission, and the entry of the service
    principal then lists the access. *)
Theorem updateAppPermissions_tidy (spId : string) (access : AadAppAdd.ResourceAccess)
    (value : option string) (appPermissions : list AadAppAdd.AppPermissions) :
  Tidy appPermissions ->
  Tidy (updateAppPermissions spId access value appPermissions)
  /\ exists p,
       p ∈ updateAppPermissions spId access value appPermissions
       /\ AadAppAdd.resourceId p = spId
       /\ AadAppAdd.ra_id access ∈ map AadAppAdd.ra_id (AadAppAdd.resourceAccess p).
Proof.
  intros H. split; [now apply updateAppPermissions_keeps_tidy|]. clear H.
  assert (Hrecord : forall p,
             AadAppAdd.ra_id access
             ∈ map AadAppAdd.ra_id (AadAppAdd.resourceAccess (record access value p))).
  { intros p. unfold record. cbn.
    destruct (existsb _ (AadAppAdd.resourceAccess p)) eqn:E.
    - now apply existsb_ra_id_elem_of.
    - rewrite map_app. apply elem_of_app. right. cbn. apply list_elem_of_here. }
  induction appPermissions as [|oauth rest IH]; cbn [updateAppPermissions].
  - eexists. split; [apply list_elem_of_here|]. split; [reflexivity|apply Hrecord].
  - destruct (String.eqb_spec (AadAppAdd.resourceId oauth) spId) as [Heq|Hne].
    + eexists. split; [apply list_elem_of_here|]. split; [exact Heq|apply Hrecord].
    + destruct IH as (p & Hin & Hid & Hacc). exists p.
      split; [now apply list_elem_of_further|]. now split.
Qed.

(** X15. Recording the same permission again changes nothing:
    [updateAppPermissions] is idempotent, whatever [this.appPermissions]
    holds. *)
Theorem updateAppPermissions_idempotent (spId : string) (access : AadAppAdd.ResourceAccess)
    (value : option string) (appPermissions : list AadAppAdd.AppPermissions) :
  updateAppPermissions spId access value
    (updateAppPermissions spId access value appPermissions)
  = updateAppPermissions spId access value appPermissions.
Proof.
  induction appPermissions as [|oauth rest IH]; cbn [updateAppPermissions].
  - cbn [AadAppAdd.resourceId record]. rewrite String.eqb_refl. now rewrite record_idempotent.
  - destruct (String.eqb (AadAppAdd.resourceId oauth) spId) eqn:E; cbn [updateAppPermissions].
    + cbn [AadAppAdd.resourceId record]. rewrite E. now rewrite record_idempotent.
    + rewrite E. now rewrite IH.
Qed.

End AppPermissionsMore.

Lemma updateAppPermissions_tidy_witness :
  AadAppAddCommand.Tidy
    (AadAppAddCommand.updateAppPermissions "sp"
       {| AadAppAdd.ra_id := "r1"; AadAppAdd.ra_type := "Scope" |} (Some "User.Read")
       [{| AadAppAdd.resourceId := "sp";
           AadAppAdd.resourceAccess := [{| AadAppAdd.ra_id := "r1"; AadAppAdd.ra_type := "Scope" |}];
           AadAppAdd.scope := ["User.Read"] |}]).
Proof.
  refine (proj1 (updateAppPermissions_tidy "sp"
                   {| AadAppAdd.ra_id := "r1"; AadAppAdd.ra_type := "Scope" |}
                   (Some "User.Read") _ _)).
  split.
  - cbn. apply NoDup_singleton.
  - constructor; [|constructor]. cbn. split; apply NoDup_singleton.
Defined.

(** ** aad app add: resolving the requested APIs *)

Section ApisMore.
Import Js Io Framework Telemetry AadAppAddCommand.
Context {P : Type}.
Variable env : Env.
Variable trim : string -> string.

Lemma find_existsb {A} (p : A -> bool) (l : list A) :
  existsb p l = match List.find p l with Some _ => true | None => false end.
Proof. induction l as [|x l IH]; [reflexivity|]. cbn. destruct (p x); [reflexivity|exact IH]. Qed.

Lemma pushAccess_resourceAppIds (appId : string) (access : AadAppAdd.ResourceAccess)
    (resolvedApis : list RequiredResourceAccess) :
  map resourceAppId (pushAccess appId access resolvedApis)
  = if bool_decide (appId ∈ map resourceAppId resolvedApis)
    then map resourceAppId resolvedApis
    else map resourceAppId resolvedApis ++ [appId].
Proof.
  induction resolvedApis as [|a rest IH]; [reflexivity|].
  cbn [pushAccess]. destruct (String.eqb_spec (resourceAppId a) appId) as [Heq|Hne].
  - rewrite bool_decide_eq_true_2; [reflexivity|]. cbn. rewrite Heq. apply list_elem_of_here.
  - cbn [map]. rewrite IH. destruct (bool_decide (appId ∈ map resourceAppId rest)) eqn:E.
    + apply bool_decide_eq_true in E. rewrite bool_decide_eq_true_2; [reflexivity|].
      now apply list_elem_of_further.
    + apply bool_decide_eq_false in E. rewrite bool_decide_eq_false_2; [reflexivity|].
      intros Hin. apply elem_of_cons in Hin as [Hin|Hin]; [congruence|contradiction].
Qed.

Lemma pushAccess_NoDup (appId : string) (access : AadAppAdd.ResourceAccess)
    (resolvedApis : list RequiredResourceAccess) :
  NoDup (map resourceAppId resolvedApis) ->
  NoDup (map resourceAppId (pushAccess appId access resolvedApis)).
Proof.
  intros H. rewrite pushAccess_resourceAppIds.
  destruct (bool_decide (appId ∈ map resourceAppId resolvedApis)) eqn:E; [assumption|].
  apply bool_decide_eq_false in E. now apply NoDup_snoc.
Qed.

Lemma pushAccess_length (appId : string) (access : AadAppAdd.ResourceAccess)
    (resolvedApis : list RequiredResourceAccess) :
  length (flat_map resourceAccess (pushAccess appId access resolvedApis))
  = S (length (flat_map resourceAccess resolvedApis)).
Proof.
  induction resolvedApis as [|a rest IH]; [reflexivity|].
  cbn [pushAccess]. destruct (String.eqb (resourceAppId a) appId); cbn.
  - rewrite !length_app. cbn. lia.
  - rewrite !length_app, IH. lia.
Qed.

Lemma pushAccess_types (scopeType appId : string) (access : AadAppAdd.ResourceAccess)
    (resolvedApis : list RequiredResourceAccess) :
  AadAppAdd.ra_type access = scopeType ->
  Forall (fun a => Forall (fun access => AadAppAdd.ra_type access = scopeType)
                     (resourceAccess a)) resolvedApis ->
  Forall (fun a => Forall (fun access => AadAppAdd.ra_type access = scopeType)
                     (resourceAccess a)) (pushAccess appId access resolvedApis).
Proof.
  intros Hty H. induction H as [|a rest Ha Hrest IH]; cbn [pushAccess].
  - repeat constructor. assumption.
  - destruct (String.eqb (resourceAppId a) appId).
    + constructor; [|assumption]. cbn. apply Forall_app. split; [assumption|].
      now repeat constructor.
    + now constructor.
Qed.

(** What resolving one API does. *)
Lemma resolveApi_spec (servicePrincipals : list ServicePrincipalInfo) (scopeType api : string)
    (state : list RequiredResourceAccess * list AadAppAdd.AppPermissions) (w : World P) :
  exists evs,
    snd (resolveApi env servicePrincipals scopeType api state w)
    = {| fs := fs w; trace := trace w ++ evs |}
    /\ sentRequests evs = [] /\ stdout evs = []
    /\ fst (resolveApi env servicePrincipals scopeType api state w)
       = match List.find (named (servicePrincipalNameOf api)) servicePrincipals with
         | None => Err (RString ("Service principal " +:+ servicePrincipalNameOf api
                                 +:+ " not found"))
         | Some servicePrincipal =>
             match List.find (fun scope => String.eqb (perm_value scope) (permissionNameOf api))
                     (scopesOfType scopeType servicePrincipal) with
             | None => Err (RString ("Permission " +:+ permissionNameOf api
                                     +:+ " for service principal "
                                     +:+ servicePrincipalNameOf api +:+ " not found"))
             | Some permission =>
                 Ok (pushAccess (sp_appId servicePrincipal)
                       {| AadAppAdd.ra_id := perm_id permission;
                          AadAppAdd.ra_type := scopeType |} (fst state),
                     updateAppPermissions (sp_id servicePrincipal)
                       {| AadAppAdd.ra_id := perm_id permission;
                          AadAppAdd.ra_type := scopeType |}
                       (Some (perm_value permission)) (snd state))
             end
         end.
Proof.
  unfold resolveApi, when, bind, emit, throw, ret.
  destruct (debug env); cbn;
    (destruct (List.find (named _) servicePrincipals) as [sp|]; cbn;
     [destruct (List.find _ (scopesOfType scopeType sp)) as [permission|]; cbn|]);
    first [ exists []; rewrite app_nil_r; destruct w; now repeat split
          | eexists; split; [rewrite <- !app_assoc; reflexivity|]; now repeat split ].
Qed.

(** What the [forEach] over the requested APIs does. *)
Lemma resolveAll_spec (servicePrincipals : list ServicePrincipalInfo) (scopeType : string)
    (apis : list string)
    (state : list RequiredResourceAccess * list AadAppAdd.AppPermissions) (w : World P) :
  let run := resolveAll env servicePrincipals scopeType apis state w in
  (exists evs,
     snd run = {| fs := fs w; trace := trace w ++ evs |}
     /\ sentRequests evs = [] /\ stdout evs = [])
  /\ match fst run with
     | Ok (resolved, appPermissions) =>
         Forall (fun api => resolvable servicePrincipals scopeType api = true) apis
         /\ (NoDup (map resourceAppId (fst state)) -> NoDup (map resourceAppId resolved))
         /\ (Forall (fun a => Forall (fun access => AadAppAdd.ra_type access = scopeType)
                                (resourceAccess a)) (fst state) ->
             Forall (fun a => Forall (fun access => AadAppAdd.ra_type access = scopeType)
                                (resourceAccess a)) resolved)
         /\ length (flat_map resourceAccess resolved)
            = (length (flat_map resourceAccess (fst state)) + length apis)%nat
         /\ (Tidy (snd state) -> Tidy appPermissions)
     | Err reason =>
         exists before api after,
           apis = before ++ api :: after
           /\ Forall (fun api => resolvable servicePrincipals scopeType api = true) before
           /\ resolvable servicePrincipals scopeType api = false
           /\ (reason = RString ("Service principal " +:+ servicePrincipalNameOf api
                                 +:+ " not found")
               \/ reason = RString ("Permission " +:+ permissionNameOf api
                                    +:+ " for service principal "
                                    +:+ servicePrincipalNameOf api +:+ " not found"))
     end.
Proof.
  revert state w. induction apis as [|api rest IH]; intros state w run; subst run.
  - cbn. split.
    + exists []. rewrite app_nil_r. destruct w. now repeat split.
    + destruct state as [resolved appPermissions]. cbn. split; [constructor|]. split; [auto|]. split; [auto|]. split; [lia|auto].
  - assert (Hstep : resolveAll env servicePrincipals scopeType (api :: rest) state w
                    = match resolveApi env servicePrincipals scopeType api state w with
                      | (Ok state', w') =>
                          resolveAll env servicePrincipals scopeType rest state' w'
                      | (Err r, w') => (Err r, w')
                      end) by reflexivity.
    rewrite Hstep. clear Hstep.
    destruct (resolveApi_spec servicePrincipals scopeType api state w)
      as (evs & Hw & Hreq & Hout & Hres).
    destruct (resolveApi env servicePrincipals scopeType api state w) as [r w1] eqn:Hrun.
    cbn [fst snd] in Hw, Hres. subst w1.
    assert (Hresolvable : resolvable servicePrincipals scopeType api
                          = match r with Ok _ => true | Err _ => false end).
    { unfold resolvable. rewrite Hres.
      destruct (List.find (named _) servicePrincipals) as [sp|]; [|reflexivity].
      rewrite find_existsb. now destruct (List.find _ (scopesOfType scopeType sp)). }
    destruct r as [state'|reason].
    + specialize (IH state' {| fs := fs w; trace := trace w ++ evs |}). cbv zeta in IH.
      destruct IH as [(evs' & Hw' & Hreq' & Hout') IH]. split.
      * exists (evs ++ evs'). rewrite Hw'. cbn [fs trace]. rewrite app_assoc.
        split; [reflexivity|]. unfold sentRequests, stdout in *. rewrite !omap_app.
        now rewrite Hreq, Hreq', Hout, Hout'.
      * assert (Hstate : exists servicePrincipal permission,
                  state' = (pushAccess (sp_appId servicePrincipal)
                              {| AadAppAdd.ra_id := perm_id permission;
                                 AadAppAdd.ra_type := scopeType |} (fst state),
                            updateAppPermissions (sp_id servicePrincipal)
                              {| AadAppAdd.ra_id := perm_id permission;
                                 AadAppAdd.ra_type := scopeType |}
                              (Some (perm_value permission)) (snd state))).
        { destruct (List.find (named _) servicePrincipals) as [sp|]; [|discriminate].
          destruct (List.find _ (scopesOfType scopeType sp)) as [permission|]; [|discriminate].
          injection Hres as ->. now exists sp, permission. }
        destruct Hstate as (sp & permission & ->). cbn [fst snd] in IH.
        destruct (fst (resolveAll env servicePrincipals scopeType rest _ _))
          as [[resolved appPermissions]|reason].
        -- destruct IH as (Hall & Hnodup & Htypes & Hlen & Htidy).
           split; [now constructor|]. split.
           { intros H. now apply Hnodup, pushAccess_NoDup. }
           split.
           { intros H. now apply Htypes, pushAccess_types. }
           split.
           { rewrite Hlen, pushAccess_length. cbn [length]. lia. }
           intros H. now apply Htidy, updateAppPermissions_keeps_tidy.
        -- destruct IH as (before & api' & after & -> & Hbefore & Hno & Hreason).
           exists (api :: before), api', after. split; [reflexivity|].
           split; [now constructor|]. now split.
    + cbn [fst snd]. split.
      * exists evs. now repeat split.
      * exists [], api, rest. split; [reflexivity|]. split; [constructor|].
        split; [assumption|].
        destruct (List.find (named _) servicePrincipals) as [sp|].
        -- destruct (List.find _ (scopesOfType scopeType sp)); [discriminate|].
           injection Hres as ->. now right.
        -- injection Hres as ->. now left.
Qed.

(** X16. [getRequiredResourceAccessForApis] resolves all the requested APIs
    or none: it returns when each requested API names a known service
    principal and one of its permissions of the requested type, and it
    throws otherwise, naming the service principal or the permission of the
    first requested API that cannot be resolved. *)
Theorem apis_resolved_or_first_failure (servicePrincipals : list ServicePrincipalInfo)
    (apis scopeType : string) (appPermissions : list AadAppAdd.AppPermissions)
    (w : World P) :
  truthy (Some (VStr apis)) = true ->
  let requested := requestedApis trim apis in
  match fst (getRequiredResourceAccessForApis env trim servicePrincipals (Some (VStr apis))
               scopeType appPermissions w) with
  | Ok _ => Forall (fun api => resolvable servicePrincipals scopeType api = true) requested
  | Err reason =>
      exists before api after,
        requested = before ++ api :: after
        /\ Forall (fun api => resolvable servicePrincipals scopeType api = true) before
        /\ resolvable servicePrincipals scopeType api = false
        /\ (reason = RString ("Service principal " +:+ servicePrincipalNameOf api
                              +:+ " not found")
            \/ reason = RString ("Permission " +:+ permissionNameOf api
                                 +:+ " for service principal "
                                 +:+ servicePrincipalNameOf api +:+ " not found"))
  end.
Proof.
  intros Hgiven requested. subst requested. unfold getRequiredResourceAccessForApis.
  rewrite Hgiven. cbn [negb].
  destruct (resolveAll_spec servicePrincipals scopeType (requestedApis trim apis)
              ([], appPermissions) w) as [_ H].
  cbv zeta in H.
  destruct (fst (resolveAll env servicePrincipals scopeType _ _ w)) as [[resolved perms]|r];
    [now destruct H|assumption].
Qed.

(** X17. What [getRequiredResourceAccessForApis] returns lists every
    requested API, grouped by resource: the resources are distinct, every
    access has the requested type, and there are as many accesses as APIs
    were requested (an API requested twice is listed twice). The
    permissions recorded for the admin consent stay free of duplicates,
    and no request is sent. *)
Theorem resolved_apis_shape (servicePrincipals : list ServicePrincipalInfo)
    (apis scopeType : string) (appPermissions : list AadAppAdd.AppPermissions)
    (w : World P) (resolved : list RequiredResourceAccess)
    (appPermissions' : list AadAppAdd.AppPermissions) :
  truthy (Some (VStr apis)) = true ->
  Tidy appPermissions ->
  let run := getRequiredResourceAccessForApis env trim servicePrincipals (Some (VStr apis))
               scopeType appPermissions w in
  fst run = Ok (resolved, appPermissions') ->
  NoDup (map resourceAppId resolved)
  /\ Forall (fun a => Forall (fun access => AadAppAdd.ra_type access = scopeType)
                        (resourceAccess a)) resolved
  /\ length (flat_map resourceAccess resolved) = length (requestedApis trim apis)
  /\ Tidy appPermissions'
  /\ exists evs, snd run = {| fs := fs w; trace := trace w ++ evs |}
                 /\ sentRequests evs = [] /\ stdout evs = [].
Proof.
  intros Hgiven Htidy run. subst run. unfold getRequiredResourceAccessForApis.
  rewrite Hgiven. cbn [negb]. intros Hrun.
  destruct (resolveAll_spec servicePrincipals scopeType (requestedApis trim apis)
              ([], appPermissions) w) as [Hw H].
  cbv zeta in H, Hw. rewrite Hrun in H. cbn [fst snd] in H.
  destruct H as (_ & Hnodup & Htypes & Hlen & Htidy').
  split; [apply Hnodup; constructor|]. split; [apply Htypes; constructor|].
  split; [exact Hlen|]. split; [now apply Htidy'|exact Hw].
Qed.

End ApisMore.

Lemma apis_resolved_or_first_failure_witness :
  Forall (fun api => AadAppAddCommand.resolvable [ApiSamples.graph] "Scope" api = true)
    (AadAppAddCommand.requestedApis ApiSamples.trim ApiSamples.userRead).
Proof.
  assert (Hgiven : Js.truthy (Some (Js.VStr ApiSamples.userRead)) = true) by reflexivity.
  pose proof (apis_resolved_or_first_failure (P := unit) Samples.env ApiSamples.trim
                [ApiSamples.graph] ApiSamples.userRead "Scope" []
                (Samples.start Samples.noFiles) Hgiven) as H.
  exact H.
Defined.

Lemma resolved_apis_shape_witness :
  AadAppAddCommand.Tidy
    [{| AadAppAdd.resourceId := "sp-graph";
        AadAppAdd.resourceAccess :=
          [{| AadAppAdd.ra_id := "scope-1"; AadAppAdd.ra_type := "Scope" |}];
        AadAppAdd.scope := ["User.Read"] |}].
Proof.
  assert (Hgiven : Js.truthy (Some (Js.VStr ApiSamples.userRead)) = true) by reflexivity.
  assert (Htidy : AadAppAddCommand.Tidy []) by (split; constructor).
  refine (proj1 (proj2 (proj2 (proj2
            (resolved_apis_shape (P := unit) Samples.env ApiSamples.trim [ApiSamples.graph]
               ApiSamples.userRead "Scope" [] (Samples.start Samples.noFiles)
               [{| AadAppAddCommand.resourceAppId := "00000003-0000-0000-c000-000000000000";
                   AadAppAddCommand.resourceAccess :=
                     [{| AadAppAdd.ra_id := "scope-1"; AadAppAdd.ra_type := "Scope" |}] |}]
               _ Hgiven Htidy _))))).
  vm_compute. reflexivity.
Defined.

(** ** aad app add: the grants of the admin consent *)

Section ConsentMore.
Import Js Io Framework Telemetry AadAppAddCommand.
Variable env : Env.

Lemma permissionTasks_elem_of (spId : string) (p : AadAppAdd.AppPermissions)
    (t : AadAppAdd.Task) :
  t ∈ AadAppAdd.permissionTasks env spId p ->
  t = AadAppAdd.grantOAuth2Permission env spId (AadAppAdd.resourceId p)
        (join " " (AadAppAdd.scope p))
  \/ exists access,
       access ∈ AadAppAdd.resourceAccess p
       /\ t = AadAppAdd.addRoleToServicePrincipal env spId (AadAppAdd.resourceId p)
                (AadAppAdd.ra_id access).
Proof.
  unfold AadAppAdd.permissionTasks. intros H. apply elem_of_app in H as [H|H].
  - destruct (0 <? length (AadAppAdd.scope p))%nat.
    + apply list_elem_of_singleton in H. now left.
    + now apply elem_of_nil in H.
  - right. apply list_elem_of_fmap in H as (access & -> & Hin).
    apply list_elem_of_In, filter_In in Hin as [Hin _]. exists access.
    split; [now apply list_elem_of_In|reflexivity].
Qed.

Lemma NoDup_filter_ra_ids (keep : AadAppAdd.ResourceAccess -> bool)
    (accesses : list AadAppAdd.ResourceAccess) :
  NoDup (map AadAppAdd.ra_id accesses) ->
  NoDup (map AadAppAdd.ra_id (List.filter keep accesses)).
Proof.
  induction accesses as [|a rest IH]; intros H; [constructor|].
  cbn in H. apply NoDup_cons in H as [Hnotin Hrest]. cbn. destruct (keep a); cbn.
  - apply NoDup_cons. split; [|now apply IH]. intros Hin. apply Hnotin.
    apply list_elem_of_In, in_map_iff in Hin as (x & Hx & Hin).
    apply filter_In in Hin as [Hin _]. rewrite <- Hx. apply list_elem_of_In, in_map, Hin.
  - now apply IH.
Qed.

Lemma permissionTasks_NoDup (spId : string) (p : AadAppAdd.AppPermissions) :
  NoDup (map AadAppAdd.ra_id (AadAppAdd.resourceAccess p)) ->
  NoDup (AadAppAdd.permissionTasks env spId p).
Proof.
  intros H. unfold AadAppAdd.permissionTasks. apply NoDup_app. split; [|split].
  - destruct (0 <? length (AadAppAdd.scope p))%nat; [apply NoDup_singleton|constructor].
  - intros t Ht Hin. apply list_elem_of_fmap in Hin as (access & -> & _).
    destruct (0 <? length (AadAppAdd.scope p))%nat.
    + apply list_elem_of_singleton in Ht. discriminate.
    + now apply elem_of_nil in Ht.
  - apply (NoDup_filter_ra_ids (fun access => String.eqb (AadAppAdd.ra_type access) "Role")) in H.
    revert H. generalize (List.filter (fun access => String.eqb (AadAppAdd.ra_type access) "Role")
                            (AadAppAdd.resourceAccess p)).
    intros l. induction l as [|a rest IH]; intros H; [constructor|].
    cbn in H. apply NoDup_cons in H as [Hnotin Hrest]. cbn. apply NoDup_cons.
    split; [|now apply IH]. intros Hin.
    apply list_elem_of_fmap in Hin as (b & Heq & Hin). apply Hnotin.
    injection Heq as Heq. rewrite Heq. apply list_elem_of_In, in_map. now apply list_elem_of_In.
Qed.

Lemma consentTasks_NoDup (spId : string) (appPermissions : list AadAppAdd.AppPermissions) :
  Tidy appPermissions -> NoDup (AadAppAdd.consentTasks env spId appPermissions).
Proof.
  intros [Hids Hentries]. unfold AadAppAdd.consentTasks.
  induction Hentries as [|p rest [_ Hp] Hrest IH]; [constructor|].
  cbn [flat_map map] in *. apply NoDup_cons in Hids as [Hnotin Hids].
  apply NoDup_app. split; [now apply permissionTasks_NoDup|]. split; [|now apply IH].
  intros t Ht Hin. apply Hnotin.
  apply list_elem_of_In, in_flat_map in Hin as (q & Hq & Hin).
  apply list_elem_of_In in Hin.
  assert (Heq : AadAppAdd.resourceId p = AadAppAdd.resourceId q).
  { apply permissionTasks_elem_of in Ht, Hin.
    destruct Ht as [-> | (a & _ & ->)], Hin as [Hin | (b & _ & Hin)];
      try discriminate; now injection Hin. }
  rewrite Heq. apply list_elem_of_In, in_map, Hq.
Qed.

(** X18. The admin consent asks for no grant twice: when
    [this.appPermissions] is free of duplicates, as [updateAppPermissions]
    keeps it, the requests [grantAdminConsent] sends for it are pairwise
    distinct, and so are the requests it sends in all, the creation of the
    service principal included. *)
Theorem consent_tasks_distinct (appInfo : AadAppAdd.AppInfo) (adminConsent : option Value)
    (spId : string) (appPermissions : list AadAppAdd.AppPermissions)
    (sched : AadAppAdd.Schedule) (f : Fs) :
  Tidy appPermissions ->
  NoDup (AadAppAdd.consentTasks env spId appPermissions)
  /\ NoDup (posted (trace (snd (AadAppAdd.grantAdminConsent env appInfo adminConsent
                                  appPermissions (Ok spId) sched (Samples.start f))))).
Proof.
  intros Htidy. pose proof (consentTasks_NoDup spId appPermissions Htidy) as Htasks.
  split; [assumption|].
  destruct (truthy adminConsent) eqn:Hconsent;
    [destruct appPermissions as [|p rest] eqn:Hperms|].
  - unfold AadAppAdd.grantAdminConsent. rewrite Hconsent. cbn. constructor.
  - rewrite <- Hperms in *.
    assert (Hne : appPermissions <> []) by (rewrite Hperms; discriminate).
    destruct (grantAdminConsent_run env appInfo adminConsent appPermissions spId
                (Samples.start f) Hconsent Hne) as (evs & Hrun & Hposted & _).
    rewrite Hrun. cbn [snd trace Samples.start app]. rewrite Hposted.
    apply NoDup_cons. split.
    + intros Hin. apply list_elem_of_fmap in Hin as (t & Heq & Hin).
      unfold AadAppAdd.consentTasks in Hin.
      apply list_elem_of_In, in_flat_map in Hin as (q & _ & Hin).
      apply list_elem_of_In, permissionTasks_elem_of in Hin.
      destruct Hin as [-> | (a & _ & ->)]; discriminate.
    + apply NoDup_fmap_2; [|assumption]. intros [u1 d1] [u2 d2] [= -> ->]. reflexivity.
  - unfold AadAppAdd.grantAdminConsent. rewrite Hconsent. cbn. constructor.
Qed.

End ConsentMore.

Lemma consent_tasks_distinct_witness :
  NoDup (AadAppAdd.consentTasks Samples.env "sp"
           [{| AadAppAdd.resourceId := "sp-graph";
               AadAppAdd.resourceAccess :=
                 [{| AadAppAdd.ra_id := "scope-1"; AadAppAdd.ra_type := "Scope" |};
                  {| AadAppAdd.ra_id := "role-1"; AadAppAdd.ra_type := "Role" |}];
               AadAppAdd.scope := ["User.Read"] |}]).
Proof.
  refine (proj1 (consent_tasks_distinct Samples.env Samples.created None "sp" _ []
                   Samples.noFiles _)).
  split.
  - cbn. apply NoDup_singleton.
  - constructor; [|constructor]. cbn. split; [apply NoDup_singleton|].
    apply NoDup_cons. split; [|apply NoDup_singleton].
    intros H. apply list_elem_of_singleton in H. discriminate.
Defined.

(** ** aad app add: [resolveApis] *)

Section ResolveApisMore.
Import Js Io Framework Telemetry AadAppAddCommand.
Context {P : Type}.
Variable env : Env.
Variable trim : string -> string.
Variable showApis : list RequiredResourceAccess -> string.
Variable showAccesses : list AadAppAdd.ResourceAccess -> string.
Variable showScopes : list string -> string.
Variable allServicePrincipals : string -> Result (list ServicePrincipalInfo).

(** A run of [getRequiredResourceAccessForApis], whatever [apis] holds. *)
Lemma getRequiredResourceAccessForApis_run (servicePrincipals : list ServicePrincipalInfo)
    (apis : option Value) (scopeType : string)
    (appPermissions : list AadAppAdd.AppPermissions) (w : World P) :
  exists r evs,
    getRequiredResourceAccessForApis env trim servicePrincipals apis scopeType appPermissions w
    = (r, {| fs := fs w; trace := trace w ++ evs |})
    /\ sentRequests evs = [] /\ stdout evs = []
    /\ match r with
       | Ok (resolved, appPermissions') =>
           NoDup (map resourceAppId resolved)
           /\ (Tidy appPermissions -> Tidy appPermissions')
           /\ (truthy apis = false -> resolved = [] /\ appPermissions' = appPermissions)
       | Err _ => True
       end.
Proof.
  unfold getRequiredResourceAccessForApis.
  destruct (truthy apis) eqn:Hgiven; cbn [negb].
  - destruct apis as [[s|b]|].
    + destruct (resolveAll_spec env servicePrincipals scopeType (requestedApis trim s)
                  ([], appPermissions) w) as [(evs & Hw & Hreq & Hout) H].
      cbv zeta in H, Hw.
      destruct (resolveAll env servicePrincipals scopeType _ _ w) as [r w1].
      cbn [fst snd] in H, Hw. subst w1. exists r, evs. split; [reflexivity|].
      split; [assumption|]. split; [assumption|].
      destruct r as [[resolved perms]|]; [|exact I]. cbn [fst snd] in H.
      destruct H as (_ & Hnodup & _ & _ & Htidy).
      split; [apply Hnodup; constructor|]. split; [assumption|]. discriminate.
    + eexists _, []. unfold throw. rewrite app_nil_r. destruct w. now repeat split.
    + discriminate.
  - exists (Ok ([], appPermissions)), []. unfold ret. rewrite app_nil_r. destruct w.
    split; [reflexivity|]. split; [reflexivity|]. split; [reflexivity|].
    split; [constructor|]. split; [auto|]. intros _. now split.
Qed.

Lemma mergeOne_resourceAppIds (r : RequiredResourceAccess)
    (resolvedApis : list RequiredResourceAccess) :
  map resourceAppId (mergeOne r resolvedApis)
  = if bool_decide (resourceAppId r ∈ map resourceAppId resolvedApis)
    then map resourceAppId resolvedApis
    else map resourceAppId resolvedApis ++ [resourceAppId r].
Proof.
  induction resolvedApis as [|a rest IH]; [reflexivity|].
  cbn [mergeOne]. destruct (String.eqb_spec (resourceAppId a) (resourceAppId r)) as [Heq|Hne].
  - rewrite bool_decide_eq_true_2; [reflexivity|]. cbn. rewrite Heq. apply list_elem_of_here.
  - cbn [map]. rewrite IH.
    destruct (bool_decide (resourceAppId r ∈ map resourceAppId rest)) eqn:E.
    + apply bool_decide_eq_true in E. rewrite bool_decide_eq_true_2; [reflexivity|].
      now apply list_elem_of_further.
    + apply bool_decide_eq_false in E. rewrite bool_decide_eq_false_2; [reflexivity|].
      intros Hin. apply elem_of_cons in Hin as [Hin|Hin]; [congruence|contradiction].
Qed.

(** The merge keeps the resources distinct. *)
Lemma merge_NoDup (resolvedApis resolvedApplicationApis : list RequiredResourceAccess) :
  NoDup (map resourceAppId resolvedApis) ->
  NoDup (map resourceAppId (merge resolvedApis resolvedApplicationApis)).
Proof.
  unfold merge. revert resolvedApis.
  induction resolvedApplicationApis as [|r rest IH]; intros resolvedApis H; [assumption|].
  cbn [fold_left]. apply IH. rewrite mergeOne_resourceAppIds.
  destruct (bool_decide (resourceAppId r ∈ map resourceAppId resolvedApis)) eqn:E;
    [assumption|].
  apply bool_decide_eq_false in E. now apply NoDup_snoc.
Qed.

(** The merge loses no access. *)
Lemma merge_length (resolvedApis resolvedApplicationApis : list RequiredResourceAccess) :
  length (flat_map resourceAccess (merge resolvedApis resolvedApplicationApis))
  = (length (flat_map resourceAccess resolvedApis)
     + length (flat_map resourceAccess resolvedApplicationApis))%nat.
Proof.
  unfold merge. revert resolvedApis.
  induction resolvedApplicationApis as [|r rest IH]; intros resolvedApis; cbn [fold_left].
  - cbn. lia.
  - rewrite IH. cbn [flat_map]. rewrite length_app.
    assert (H : length (flat_map resourceAccess (mergeOne r resolvedApis))
                = (length (flat_map resourceAccess resolvedApis)
                   + length (resourceAccess r))%nat).
    { clear IH. induction resolvedApis as [|a l IHl]; cbn [mergeOne].
      - cbn. rewrite app_nil_r. reflexivity.
      - destruct (String.eqb (resourceAppId a) (resourceAppId r)); cbn.
        + rewrite !length_app. lia.
        + rewrite !length_app, IHl. lia. }
    rewrite H. lia.
Qed.

Lemma recordManifestApis_tidy (servicePrincipals : list ServicePrincipalInfo)
    (manifestApis : list RequiredResourceAccess)
    (appPermissions : list AadAppAdd.AppPermissions) :
  Tidy appPermissions ->
  Tidy (recordManifestApis servicePrincipals manifestApis appPermissions).
Proof.
  unfold recordManifestApis. revert appPermissions.
  induction manifestApis as [|manifestApi rest IH]; intros appPermissions H; [assumption|].
  cbn [fold_left]. apply IH.
  destruct (List.find _ servicePrincipals) as [app|]; [|assumption].
  unfold recordManifestApi. revert appPermissions H.
  induction (resourceAccess manifestApi) as [|res accesses IHa]; intros appPermissions H;
    [assumption|].
  cbn [fold_left]. apply IHa. now apply updateAppPermissions_keeps_tidy.
Qed.

(** X19. [resolveApis] asks the service for its service principals once,
    and only when APIs were requested on the command line or in the
    manifest; it sends nothing else and prints nothing. When it resolves,
    the permissions recorded for the admin consent are free of duplicates,
    as they were before; the resolved APIs are those of the manifest as
    they stand when none was requested on the command line, and have
    distinct resources otherwise. *)
Theorem resolveApis_outcome (opts : Options)
    (manifestApis : option (list RequiredResourceAccess))
    (appPermissions : list AadAppAdd.AppPermissions) (w : World P) :
  Tidy appPermissions ->
  let run := resolveApis env trim showApis showAccesses showScopes allServicePrincipals
               opts manifestApis appPermissions w in
  let requested := truthy (opts !! "apisDelegated") || truthy (opts !! "apisApplication") in
  let nothing := negb requested
                 && match manifestApis with
                    | None => true
                    | Some apis => (length apis =? 0)%nat
                    end in
  (exists evs,
     snd run = {| fs := fs w; trace := trace w ++ evs |}
     /\ stdout evs = []
     /\ sentRequests evs = if nothing then [] else [(GET, servicePrincipalsUrl env)])
  /\ match fst run with
     | Ok (resolved, appPermissions') =>
         Tidy appPermissions'
         /\ (if requested then NoDup (map resourceAppId resolved)
             else resolved = default [] manifestApis)
         /\ (if nothing then appPermissions' = appPermissions else True)
     | Err _ => True
     end.
Proof.
  intros Htidy run requested nothing. subst run requested nothing.
  unfold resolveApis.
  destruct (truthy (opts !! "apisDelegated")) eqn:Hd;
    [|destruct (truthy (opts !! "apisApplication")) eqn:Ha];
    cbn [negb andb orb].
  3: destruct (match manifestApis with None => true | Some apis => (length apis =? 0)%nat end)
       eqn:Hm.
  3: { unfold ret. cbn [fst snd]. split.
       - exists []. rewrite app_nil_r. destruct w. now repeat split.
       - split; [assumption|]. split; [|reflexivity].
         destruct manifestApis as [[|a l]|]; [reflexivity|discriminate|reflexivity]. }
  all: unfold request, when, bind, emit, await, ret.
  all: destruct (allServicePrincipals (servicePrincipalsUrl env)) as [servicePrincipals|r];
    [|destruct (verbose env); cbn [fst snd fs trace];
      (split; [eexists; split; [rewrite <- ?app_assoc; reflexivity|now split]|exact I])].
  3: { destruct (verbose env); cbn [fst snd fs trace];
         (split; [eexists; split; [rewrite <- ?app_assoc; reflexivity|now split]|]);
         (split; [now apply recordManifestApis_tidy|now split]). }
  all: destruct (verbose env); cbn [fst snd fs trace].
  all: match goal with
       | |- context [getRequiredResourceAccessForApis _ _ ?sps ?apis "Scope" ?perms ?w0] =>
           destruct (getRequiredResourceAccessForApis_run sps apis "Scope" perms w0)
             as (r1 & evs1 & Hrun1 & Hreq1 & Hout1 & H1);
           rewrite Hrun1; clear Hrun1
       end.
  all: destruct r1 as [[delegated perms1]|r1]; cbn [fst snd fs trace];
    [|split; [eexists; split; [rewrite <- ?app_assoc; reflexivity|];
              rewrite ?stdout_app', ?sentRequests_app, ?Hreq1, ?Hout1; now split
             |exact I]].
  all: destruct H1 as (Hnodup1 & Htidy1 & _).
  all: match goal with
       | |- context [getRequiredResourceAccessForApis _ _ ?sps ?apis "Role" ?perms ?w0] =>
           destruct (getRequiredResourceAccessForApis_run sps apis "Role" perms w0)
             as (r2 & evs2 & Hrun2 & Hreq2 & Hout2 & H2);
           rewrite Hrun2; clear Hrun2
       end.
  all: destruct r2 as [[application perms2]|r2]; cbn [fst snd fs trace];
    [destruct H2 as (_ & Htidy2 & _)|];
    (split; [eexists; split; [rewrite <- ?app_assoc; reflexivity|];
             rewrite ?stdout_app', ?sentRequests_app, ?Hreq1, ?Hout1, ?Hreq2, ?Hout2;
             now split
            |]);
    first [exact I | split; [auto|]; split; [now apply merge_NoDup|exact I]].
Qed.

End ResolveApisMore.

Lemma resolveApis_outcome_witness :
  exists evs,
    snd (AadAppAddCommand.resolveApis (P := unit) Samples.env ApiSamples.trim
           (fun _ => "") (fun _ => "") (fun _ => "") (fun _ => Io.Ok [ApiSamples.graph])
           (<["apisDelegated" := Js.VStr ApiSamples.userRead]> ∅) None []
           (Samples.start Samples.noFiles))
    = {| Io.fs := Samples.noFiles; Io.trace := [] ++ evs |}
    /\ Io.stdout evs = []
    /\ Telemetry.sentRequests evs
       = [(Io.GET, AadAppAddCommand.servicePrincipalsUrl Samples.env)].
Proof.
  assert (Htidy : AadAppAddCommand.Tidy []) by (split; constructor).
  exact (proj1 (resolveApis_outcome (P := unit) Samples.env ApiSamples.trim
                  (fun _ => "") (fun _ => "") (fun _ => "")
                  (fun _ => Io.Ok [ApiSamples.graph])
                  (<["apisDelegated" := Js.VStr ApiSamples.userRead]> ∅) None []
                  (Samples.start Samples.noFiles) Htidy)).
Defined.

(** ** aad app add: certificate, secret and outcome *)

Section AppAddMore.
Import Js Io Framework Telemetry M365Rc AadAppAddCommand.
Variable env : Env.

(** What the validator of [aad app add] has checked about the certificate
    when it passes. *)
Lemma app_add_validator_certificate JSON_parse (opts : Options) (manifest manifest' : option Json)
    (w : World AadAppAdd.Output) :
  fst (AadAppAdd.validator JSON_parse opts manifest w) = Ok (Pass, manifest') ->
  truthy (opts !! "certificateFile") = true ->
  truthy (opts !! "certificateBase64Encoded") = false
  /\ is_Some (files (fs w) !! tmpl (opts !! "certificateFile")).
Proof.
  intros Hpass Hfile. unfold AadAppAdd.validator in Hpass. rewrite Hfile in Hpass.
  destruct (truthy (opts !! "certificateBase64Encoded")) eqn:Hb64.
  - exfalso. cbn [andb] in Hpass.
    repeat match type of Hpass with
           | fst ((if ?c then _ else _) _) = _ =>
               destruct c; cbn [fst snd] in Hpass; try discriminate Hpass
           end.
  - split; [reflexivity|]. cbn [andb] in Hpass.
    repeat match type of Hpass with
           | fst ((if ?c then _ else _) _) = _ =>
               destruct c; cbn [fst snd] in Hpass; try discriminate Hpass
           end.
    all: unfold bind, existsSync, ret in Hpass; cbn [fst snd] in Hpass.
    all: destruct (bool_decide (is_Some (files (fs w) !! tmpl (opts !! "certificateFile"))))
           eqn:Hexists; [now apply bool_decide_eq_true in Hexists|].
    all: cbn [negb fst snd] in Hpass; discriminate Hpass.
Qed.

(** X20. Once the validator of [aad app add] has passed with a
    [certificateFile], reading the certificate does not fail for a missing
    file: on the same files, [getCertificateBase64Encoded] returns the
    base64 text of the file, unless reading fails, and then it throws an
    [Error] that carries the failure and points to
    [certificateBase64Encoded]. *)
Theorem certificate_read_after_validation {P : Type} JSON_parse (base64 : string -> string)
    (opts : Options) (manifest manifest' : option Json) (w : World AadAppAdd.Output)
    (w' : World P) :
  fst (AadAppAdd.validator JSON_parse opts manifest w) = Ok (Pass, manifest') ->
  truthy (opts !! "certificateFile") = true ->
  fs w' = fs w ->
  match fst (getCertificateBase64Encoded env base64 opts w') with
  | Ok text =>
      exists contents,
        files (fs w) !! tmpl (opts !! "certificateFile") = Some contents
        /\ readError (fs w) = None
        /\ text = base64 contents
  | Err reason =>
      exists e,
        readError (fs w) = Some e
        /\ reason = RError "Error"
                      ("Error reading certificate file: " +:+ tmplReason e
                       +:+ ". Please add the certificate using base64 option '--certificateBase64Encoded'.")
  end.
Proof.
  intros Hpass Hfile Hfs.
  destruct (app_add_validator_certificate _ _ _ _ _ Hpass Hfile) as [Hb64 [contents Hc]].
  unfold getCertificateBase64Encoded, when, try_catch, bind, readFileSync, emit, throw, ret.
  rewrite Hb64. destruct (debug env); cbn [fs trace fst snd]; rewrite Hfs;
    (destruct (readError (fs w)) as [e|]; cbn [fst];
     [now exists e | rewrite Hc; cbn [fst]; now exists contents]).
Qed.

Variable codec : Codec.

(** X21. [configureSecret] creates a secret only when [withSecret] is given
    and the app has none yet: it then sends one request, for a secret
    named Default, to the app it was given, and the app information it
    returns lists that one secret. It is idempotent: on the app
    information it returned, it sends nothing and returns it as it is. *)
Theorem secret_created_once (inOneYear : string) (addPassword : string -> Result string)
    (opts : Options) (appInfo : AadAppAdd.AppInfo) (f : Fs) :
  let run := configureSecret env inOneYear addPassword opts appInfo (Samples.start f) in
  let url := resource env +:+ "/v1.0/myorganization/applications/"
             +:+ AadAppAdd.id appInfo +:+ "/addPassword" in
  let asked := truthy (opts !! "withSecret")
               && match AadAppAdd.secrets appInfo with
                  | Some (_ :: _) => false
                  | _ => true
                  end in
  posted (trace (snd run))
  = (if asked then [(url, [("passwordCredential.displayName", Some "Default");
                           ("passwordCredential.endDateTime", Some inOneYear)])]
     else [])
  /\ match fst run with
     | Ok appInfo' =>
         AadAppAdd.appId appInfo' = AadAppAdd.appId appInfo
         /\ AadAppAdd.id appInfo' = AadAppAdd.id appInfo
         /\ (if asked then
               exists secretText,
                 addPassword url = Ok secretText
                 /\ AadAppAdd.secrets appInfo'
                    = Some [{| AadAppAdd.displayName := "Default";
                               AadAppAdd.value := secretText |}]
                 /\ AadAppAdd.out_secret (AadAppAdd.output appInfo')
                    = if String.eqb secretText "" then None else Some secretText
             else appInfo' = appInfo)
         /\ forall w', configureSecret env inOneYear addPassword opts appInfo' w'
                       = (Ok appInfo', w')
     | Err reason => asked = true /\ addPassword url = Err reason
     end.
Proof.
  intros run url asked. subst run url asked.
  unfold configureSecret, createSecret, request, when, bind, emit, await, ret.
  destruct (truthy (opts !! "withSecret")) eqn:Hwith; cbn [negb orb andb].
  - destruct (AadAppAdd.secrets appInfo) as [[|s l]|] eqn:Hsecrets; cbn [length Nat.ltb Nat.leb].
    + destruct (addPassword _) as [text|r] eqn:Hadd; destruct (verbose env); cbn;
        (split; [reflexivity|]); try (now split);
        (split; [reflexivity|]); (split; [reflexivity|]);
        (split; [now exists text|]); intros w'; reflexivity.
    + cbn. split; [reflexivity|]. split; [reflexivity|]. split; [reflexivity|].
      split; [reflexivity|]. intros w'. now rewrite ?Hsecrets.
    + destruct (addPassword _) as [text|r] eqn:Hadd; destruct (verbose env); cbn;
        (split; [reflexivity|]); try (now split);
        (split; [reflexivity|]); (split; [reflexivity|]);
        (split; [now exists text|]); intros w'; reflexivity.
  - cbn. split; [reflexivity|]. split; [reflexivity|]. split; [reflexivity|].
    split; [reflexivity|]. intros w'. reflexivity.
Qed.

(** X22. [aad app add] prints the app registration it created, once,
    after the registration was created and configured and the save step
    returned. A run that fails reports a [CommandError], prints nothing and
    leaves the files as they were: either creating or configuring the
    registration failed, or, with [save], the save step threw on a
    registration file whose document cannot take the app registration.
    Without [save] the files are never touched, and saving sends no
    request. *)
Theorem app_add_outcome (configured : M AadAppAdd.Output AadAppAdd.AppInfo)
    (opts : Options) (appName : string) (f : Fs) :
  fs (snd (configured (Samples.start f))) = f ->
  stdout (trace (snd (configured (Samples.start f)))) = [] ->
  writes (trace (snd (configured (Samples.start f)))) = [] ->
  let run := AadAppAdd.commandAction env codec configured opts appName (Samples.start f) in
  sentRequests (trace (snd run))
  = sentRequests (trace (snd (configured (Samples.start f))))
  /\ match fst run with
  | Ok _ =>
      exists appInfo,
        fst (configured (Samples.start f)) = Ok appInfo
        /\ stdout (trace (snd run)) = [AadAppAdd.output appInfo]
        /\ (if truthy (opts !! "save") then True
            else fs (snd run) = f /\ writes (trace (snd run)) = [])
  | Err reason =>
      (exists thrown,
         reason = CommandError (extractMessage env thrown)
         /\ (fst (configured (Samples.start f)) = Err thrown
             \/ exists appInfo m365rc,
                  fst (configured (Samples.start f)) = Ok appInfo
                  /\ truthy (opts !! "save") = true
                  /\ Loaded codec f m365rc
                  /\ appsOf "push" m365rc = Err thrown))
      /\ stdout (trace (snd run)) = []
      /\ fs (snd run) = f
      /\ writes (trace (snd run)) = []
  end.
Proof.
  intros Hfs Hout Hwr run. subst run.
  destruct (configured (Samples.start f)) as [[appInfo|r] w2] eqn:Hrun; cbn [fst snd] in *.
  - destruct (app_add_save_any env codec opts appInfo appName f)
      as (r & evs & f' & Hsave & Hquiet & Hreq & Hoff & Hr).
    unfold AadAppAdd.commandAction, try_catch, bind, emit, handleRejectedODataJsonPromise,
      throw.
    rewrite Hrun. destruct w2 as [f2 tr2]. cbn [fs trace fst snd] in *. subst f2.
    rewrite Hsave. destruct r as [a|e]; cbn [fst snd trace fs].
    + subst a. split.
      { rewrite !sentRequests_app, Hreq. change (sentRequests [Log (AadAppAdd.output appInfo)])
          with (@nil (Method * string)). now rewrite !app_nil_r. }
      exists appInfo. split; [reflexivity|]. split.
      * rewrite !stdout_app', Hout, Hquiet. reflexivity.
      * destruct (truthy (opts !! "save")); [exact I|].
        destruct Hoff as [-> Hw]. split; [reflexivity|].
        rewrite !writes_app', Hwr, Hw. reflexivity.
    + destruct Hr as (-> & Hw & E & m365rc & Hloaded & Happs). split.
      { rewrite ?sentRequests_app, Hreq. now rewrite ?app_nil_r. }
      split.
      { exists e. split; [reflexivity|]. right. now exists appInfo, m365rc. }
      rewrite ?stdout_app', ?writes_app', Hout, Hwr, Hquiet, Hw. now repeat split.
  - unfold AadAppAdd.commandAction, try_catch, bind, handleRejectedODataJsonPromise, throw.
    rewrite Hrun. cbn [fst snd]. split; [reflexivity|]. split.
    + exists r. split; [reflexivity|]. now left.
    + now repeat split.
Qed.

(** X23. [grantAdminConsent] sends requests only when the admin consent
    was asked for and there are permissions to grant: the first one creates
    the service principal of the app, and the grants follow only when that
    succeeded. When it fails, nothing is granted and the promise returned
    is rejected with the failure; when no consent is to be granted, the
    promise is fulfilled with the app information at once. *)
Theorem consent_needs_service_principal (appInfo : AadAppAdd.AppInfo)
    (adminConsent : option Value) (appPermissions : list AadAppAdd.AppPermissions)
    (created : Result string) (sched : AadAppAdd.Schedule) (f : Fs) :
  let run := AadAppAdd.grantAdminConsent env appInfo adminConsent appPermissions created
               sched (Samples.start f) in
  let asked := truthy adminConsent && negb (length appPermissions =? 0)%nat in
  posted (trace (snd run))
  = (if asked then
       (resource env +:+ "/v1.0/myorganization/servicePrincipals",
        [("appId", Some (AadAppAdd.appId appInfo))])
       :: match created with
          | Ok spId => map AadAppAdd.sent (AadAppAdd.consentTasks env spId appPermissions)
          | Err _ => []
          end
     else [])
  /\ (if asked then
        match created with
        | Ok _ => True
        | Err r => fst run = AadAppAdd.Rejected r
        end
      else run = (AadAppAdd.Fulfilled appInfo, Samples.start f)).
Proof.
  intros run asked. subst run asked.
  destruct (truthy adminConsent) eqn:Hconsent;
    [destruct appPermissions as [|p rest] eqn:Hperms|].
  - unfold AadAppAdd.grantAdminConsent. rewrite Hconsent. cbn. now split.
  - rewrite <- Hperms.
    assert (Hne : appPermissions <> []) by (rewrite Hperms; discriminate).
    assert (Hlen : (length appPermissions =? 0)%nat = false) by now rewrite Hperms.
    rewrite Hlen. cbn [andb negb].
    destruct created as [spId|r].
    + destruct (grantAdminConsent_run env appInfo adminConsent appPermissions spId
                  (Samples.start f) Hconsent Hne) as (evs & Hrun & Hposted & _).
      rewrite Hrun. cbn [snd trace Samples.start app]. now rewrite Hposted.
    + unfold AadAppAdd.grantAdminConsent. rewrite Hconsent, Hlen. cbn. now split.
  - unfold AadAppAdd.grantAdminConsent. rewrite Hconsent. cbn. now split.
Qed.

End AppAddMore.

Lemma app_add_outcome_witness :
  exists appInfo,
    fst (Io.ret (P := AadAppAdd.Output) Samples.created (Samples.start Samples.noFiles))
    = Io.Ok appInfo
    /\ Io.stdout (Io.trace (snd (AadAppAdd.commandAction Samples.env (Samples.codec [])
                                   (Io.ret Samples.created) ∅ "Contoso"
                                   (Samples.start Samples.noFiles))))
       = [AadAppAdd.output appInfo].
Proof.
  destruct (app_add_outcome Samples.env (Samples.codec []) (Io.ret Samples.created) ∅
              "Contoso" Samples.noFiles eq_refl eq_refl eq_refl)
    as (_ & appInfo & Hconfigured & Hout & _).
  exists appInfo. split; [exact Hconfigured|exact Hout].
Defined.

Lemma certificate_read_after_validation_witness :
  exists contents,
    ({["cert.pfx" := "binary"]} : gmap string string) !! "cert.pfx" = Some contents
    /\ (None : option Io.Reason) = None
    /\ "YmluYXJ5" = (fun _ : string => "YmluYXJ5") contents.
Proof.
  assert (Hpass :
    fst (AadAppAdd.validator (fun _ => Io.Ok Js.JNull)
           (<["name" := Js.VStr "app"]> (<["certificateFile" := Js.VStr "cert.pfx"]> ∅))
           None
           (Samples.start {| Io.files := {["cert.pfx" := "binary"]};
                             Io.readError := None; Io.writeError := None |}))
    = Io.Ok (Framework.Pass, None)) by (vm_compute; reflexivity).
  assert (Hfile : Js.truthy ((<["name" := Js.VStr "app"]>
                                (<["certificateFile" := Js.VStr "cert.pfx"]> ∅) : Js.Options)
                               !! "certificateFile") = true) by reflexivity.
  exact (certificate_read_after_validation (P := unit) Samples.env (fun _ => Io.Ok Js.JNull)
           (fun _ => "YmluYXJ5") _ None None _
           (Samples.start {| Io.files := {["cert.pfx" := "binary"]};
                             Io.readError := None; Io.writeError := None |})
           Hpass Hfile eq_refl).
Defined.

(** ** aad app add: how an API is named *)

Section ApiNames.
Import AadAppAddCommand.

Lemma substring_all (s : string) : String.substring 0 (String.length s) s = s.
Proof. induction s as [|c s IH]; [reflexivity|]. cbn. now rewrite IH. Qed.

(** X24. An API is read at its last slash: what follows it is the name of
    the permission, which holds no slash, and what precedes it is the name
    of the service principal, so that the two names joined by a slash give
    the API back. An API without a slash is all permission name, for a
    service principal whose name is empty. *)
Theorem api_read_at_last_slash (api : string) :
  lastIndexOf "/" (permissionNameOf api) = None
  /\ match lastIndexOf "/" api with
     | Some _ => servicePrincipalNameOf api +:+ "/" +:+ permissionNameOf api = api
     | None => servicePrincipalNameOf api = "" /\ permissionNameOf api = api
     end.
Proof.
  unfold permissionNameOf, servicePrincipalNameOf.
  induction api as [|c rest IH]; [now split|].
  cbn [lastIndexOf]. destruct (lastIndexOf "/" rest) as [pos|] eqn:Hrest.
  - destruct IH as [Hperm Hjoin].
    replace (String.length (String c rest) - S (S pos)) with (String.length rest - S pos)
      by (cbn; lia).
    cbn [String.substring]. split; [exact Hperm|].
    transitivity (String c (String.substring 0 pos rest +:+ "/"
                            +:+ String.substring (S pos) (String.length rest - S pos) rest));
      [reflexivity|now rewrite Hjoin].
  - destruct IH as [_ [_ Hperm]].
    destruct (Ascii.eqb_spec c "/") as [->|Hne].
    + cbn [String.length Nat.sub String.substring]. rewrite Nat.sub_0_r, substring_all.
      split; [exact Hrest|reflexivity].
    + split; [|now split]. cbn [lastIndexOf]. rewrite Hrest.
      destruct (Ascii.eqb_spec c "/"); [contradiction|reflexivity].
Qed.

End ApiNames.
